(** * Conversation lifecycle and history management of the agentic chatbot

    A shallow embedding of the Python sources under [src/core]:

    - [core/common/__init__.py]: the value records [Message], [Citation] and
      the two attachment variants;
    - [core/agents/abstract_agent.py], [semantic_kernel_agent.py] and
      [llama_index_agent.py]: the tool registry, the history pruner,
      [update_chat_history] and [process];
    - [core/persistence/in_memory_persistence_strategy.py],
      [json_file_persistence_strategy.py] and
      [cosmosdb_persistence_strategy.py]: the three storage backends;
    - [core/conversation_service.py]: the creation of conversations.

    Python dictionaries whose iteration order is observable are association
    lists in insertion order; the tool registry and the directory of the
    file backend, which are only ever looked up by key, are [gmap]s.
    Exceptions are explicit [outcome]s, and the clock and the UUID generator
    are arguments of the functions that read them. *)

From Stdlib Require Import ZArith String Ascii List Lia Permutation Bool.
From Stdlib Require Import DecimalString DecimalPos DecimalZ.
From stdpp Require Import gmap strings list.

Import ListNotations.
Local Open Scope string_scope.
Local Open Scope list_scope.
Local Open Scope Z_scope.

(** ** Python values *)

Local Set Warnings "-register-all".

(** The values that travel through [dict[str, Any]] fields.  A [datetime]
    is identified with its [isoformat()] text; [PObj] is an instance that
    has a [__dict__] (a pydantic model, an enum member); [POpaque] is any
    other object, known only by its [str()].  A dictionary all of whose
    keys are text is a [PDict]; [PMap] is a dictionary that has a key of
    another kind (a number, a tuple, ...): the fields typed
    [dict[str, Any]] are [PDict]s, and any dictionary can sit below
    them. *)
Inductive pyval : Type :=
| PNone
| PBool (b : bool)
| PInt (z : Z)
| PStr (s : string)
| PDatetime (iso : string)
| PList (l : list pyval)
| PTuple (l : list pyval)
| PDict (d : list (string * pyval))
| PObj (attrs : list (string * pyval))
| POpaque (repr : string)
| PMap (m : list (pyval * pyval)).

(** [dict[str, V]] in insertion order. *)
Definition dict (V : Type) : Type := list (string * V).
Definition pydict : Type := dict pyval.

Section Dict.
Context {V : Type}.

(** [d.get(k)] *)
Fixpoint dict_get (k : string) (d : dict V) : option V :=
  match d with
  | [] => None
  | (k', v) :: d' => if String.eqb k k' then Some v else dict_get k d'
  end.

(** [k in d] *)
Definition dict_has (k : string) (d : dict V) : bool :=
  match dict_get k d with Some _ => true | None => false end.

(** [d[k] = v]: an existing key keeps its position, a new key goes last. *)
Fixpoint dict_set (k : string) (v : V) (d : dict V) : dict V :=
  match d with
  | [] => [(k, v)]
  | (k', v') :: d' =>
      if String.eqb k k' then (k, v) :: d' else (k', v') :: dict_set k v d'
  end.

(** [del d[k]] *)
Fixpoint dict_del (k : string) (d : dict V) : dict V :=
  match d with
  | [] => []
  | (k', v') :: d' =>
      if String.eqb k k' then d' else (k', v') :: dict_del k d'
  end.

(** [list(d.values())] *)
Definition dict_values (d : dict V) : list V := List.map snd d.

End Dict.

(** [d.get(k, default)] *)
Definition dict_get_default {V} (k : string) (default : V) (d : dict V) : V :=
  match dict_get k d with Some v => v | None => default end.

(** [d.get(k)] on a [dict[str, Any]]: a missing key reads as [None]. *)
Definition py_get (k : string) (d : pydict) : pyval :=
  dict_get_default k PNone d.

(** The value a dictionary with keys of any kind holds under the text
    key [k]. *)
Fixpoint map_get_text (k : string) (m : list (pyval * pyval)) : option pyval :=
  match m with
  | [] => None
  | (PStr k', v) :: m' => if String.eqb k k' then Some v else map_get_text k m'
  | _ :: m' => map_get_text k m'
  end.

(** [a == b].  Booleans compare as the integers 0 and 1; dictionaries
    compare as mappings (same keys, equal values, whatever the order);
    objects compare field by field, as pydantic models and enum members
    do. *)
Fixpoint py_eqb (a b : pyval) {struct a} : bool :=
  let fix seq_eqb (l1 l2 : list pyval) {struct l1} : bool :=
    match l1, l2 with
    | [], [] => true
    | u :: l1', v :: l2' => py_eqb u v && seq_eqb l1' l2'
    | _, _ => false
    end in
  let fix sub_eqb (d1 d2 : list (string * pyval)) {struct d1} : bool :=
    match d1 with
    | [] => true
    | (k, u) :: d1' =>
        match dict_get k d2 with
        | Some v => py_eqb u v && sub_eqb d1' d2
        | None => false
        end
    end in
  let fix sub_text (d1 : list (string * pyval)) (m2 : list (pyval * pyval))
      {struct d1} : bool :=
    match d1 with
    | [] => true
    | (k, u) :: d1' =>
        match map_get_text k m2 with
        | Some v => py_eqb u v && sub_text d1' m2
        | None => false
        end
    end in
  let fix sub_map (m1 : list (pyval * pyval)) (m2 : list (pyval * pyval))
      {struct m1} : bool :=
    match m1 with
    | [] => true
    | (k, u) :: m1' =>
        (fix find (m : list (pyval * pyval)) : bool :=
           match m with
           | [] => false
           | (k', v) :: m' => if py_eqb k k' then py_eqb u v else find m'
           end) m2
        && sub_map m1' m2
    end in
  let fix sub_keyed (m1 : list (pyval * pyval)) (d2 : list (string * pyval))
      {struct m1} : bool :=
    match m1 with
    | [] => true
    | (PStr k, u) :: m1' =>
        match dict_get k d2 with
        | Some v => py_eqb u v && sub_keyed m1' d2
        | None => false
        end
    | _ :: _ => false
    end in
  match a, b with
  | PNone, PNone => true
  | PBool x, PBool y => Bool.eqb x y
  | PBool x, PInt y => Z.b2z x =? y
  | PInt x, PBool y => x =? Z.b2z y
  | PInt x, PInt y => x =? y
  | PStr x, PStr y => String.eqb x y
  | PDatetime x, PDatetime y => String.eqb x y
  | PList x, PList y => seq_eqb x y
  | PTuple x, PTuple y => seq_eqb x y
  | PDict x, PDict y => (length x =? length y)%nat && sub_eqb x y
  | PObj x, PObj y => (length x =? length y)%nat && sub_eqb x y
  | POpaque x, POpaque y => String.eqb x y
  | PMap x, PMap y => (length x =? length y)%nat && sub_map x y
  | PDict x, PMap y => (length x =? length y)%nat && sub_text x y
  | PMap x, PDict y => (length x =? length y)%nat && sub_keyed x y
  | _, _ => false
  end.

(** [a < b] between sort keys: [None] is the [TypeError] Python raises for
    operands of unrelated types.  Only scalar keys are ordered here. *)
Definition py_ltb (a b : pyval) : option bool :=
  match a, b with
  | PStr x, PStr y => Some (String.ltb x y)
  | PDatetime x, PDatetime y => Some (String.ltb x y)
  | PInt x, PInt y => Some (x <? y)
  | PInt x, PBool y => Some (x <? Z.b2z y)
  | PBool x, PInt y => Some (Z.b2z x <? y)
  | PBool x, PBool y => Some (Z.b2z x <? Z.b2z y)
  | _, _ => None
  end.

(** Normalisation of one slice bound against a length. *)
Definition py_index (len i : Z) : Z :=
  if i <? 0 then Z.max 0 (i + len) else Z.min i len.

(** [l[start:stop]] with optional bounds, negative bounds counting from
    the end. *)
Definition py_slice {A} (start stop : option Z) (l : list A) : list A :=
  let len := Z.of_nat (length l) in
  let lo := match start with Some i => py_index len i | None => 0 end in
  let hi := match stop with Some j => py_index len j | None => len end in
  firstn (Z.to_nat (hi - lo)) (skipn (Z.to_nat lo) l).

(** Stable insertion sort, ascending for a strict order [lt] on keys:
    the body of [sorted(l, key=...)]. *)
Section Sort.
Context {A K : Type} (key : A -> K) (lt : K -> K -> bool).

Fixpoint insert_sorted (x : A) (l : list A) : list A :=
  match l with
  | [] => [x]
  | y :: l' =>
      if lt (key y) (key x) then y :: insert_sorted x l' else x :: y :: l'
  end.

Definition sorted_by (l : list A) : list A :=
  fold_right insert_sorted [] l.
End Sort.

(** [sorted(l, key=key, reverse=True)] for keys with a total strict order
    [lt]: descending, equal keys still in their original order. *)
Definition sorted_by_desc {A K} (key : A -> K) (lt : K -> K -> bool)
    (l : list A) : list A :=
  sorted_by key (fun a b => lt b a) l.

(** [sorted(l, key=key, reverse=reverse)] with Python keys.  Equal keys
    keep their original order in both directions.  Sorting two or more
    items whose keys do not all compare with each other raises
    [TypeError], here [None]; a list of at most one item is never
    compared. *)
Definition comparable_keys (ks : list pyval) : bool :=
  forallb (fun a => forallb (fun b =>
    match py_ltb a b with Some _ => true | None => false end) ks) ks.

Definition py_lt_total (a b : pyval) : bool :=
  match py_ltb a b with Some r => r | None => false end.

Definition py_sorted {A} (key : A -> pyval) (reverse : bool) (l : list A)
    : option (list A) :=
  match l with
  | [] | [_] => Some l
  | _ =>
      if comparable_keys (List.map key l) then
        Some (sorted_by key
                (if reverse then (fun a b => py_lt_total b a) else py_lt_total) l)
      else None
  end.

(** [int(s)] for an optional sign followed by decimal digits; [None] is
    [ValueError].  (The blanks and underscores [int] also accepts are not
    modelled.) *)
Definition py_int (s : string) : option Z :=
  match s with
  | EmptyString => None
  | String c s' =>
      if Ascii.eqb c "+" then
        if String.prefix "-" s' then None
        else option_map Z.of_int (NilZero.int_of_string s')
      else option_map Z.of_int (NilZero.int_of_string s)
  end.

(** [str(z)] for an integer. *)
Definition str_of_Z (z : Z) : string :=
  NilZero.string_of_int (Z.to_int z).

(** [s.startswith(p)] *)
Definition startswith (p s : string) : bool := String.prefix p s.

(** The end of a line. *)
Definition newline : string := String (Ascii.ascii_of_nat 10) EmptyString.

(** Outcome of a call that may raise. *)
Inductive exn : Type :=
| ValueError (msg : string)
| TypeError (msg : string)
| KeyError (key : string)
| Exception (msg : string).

Inductive outcome (A : Type) : Type :=
| Returned (a : A)
| Raised (e : exn).
Arguments Returned {A} a.
Arguments Raised {A} e.

(** [str(e)] *)
Definition exn_str (e : exn) : string :=
  match e with ValueError m | TypeError m | KeyError m | Exception m => m end.


(** [s[n:]] on text. *)
Definition str_drop (n : nat) (s : string) : string :=
  substring n (String.length s - n) s.

(** ** JSON and the deep serializer *)

(** The text [json.dumps] writes for a dictionary key: a key must be
    text, a number, a boolean or [None]; any other key is a [TypeError],
    here [None]. *)
Definition json_key (k : pyval) : option string :=
  match k with
  | PStr s => Some s
  | PInt z => Some (str_of_Z z)
  | PBool true => Some "true"
  | PBool false => Some "false"
  | PNone => Some "null"
  | _ => None
  end.

Definition is_json_key (k : pyval) : bool :=
  match json_key k with Some _ => true | None => false end.

(** Whether [json.dumps(v)] succeeds. *)
Fixpoint json_ok (v : pyval) : bool :=
  match v with
  | PNone | PBool _ | PInt _ | PStr _ => true
  | PList l | PTuple l => forallb json_ok l
  | PDict d => forallb (fun kv => match kv with (_, x) => json_ok x end) d
  | PMap m =>
      forallb (fun kv => match kv with (k, x) => is_json_key k && json_ok x end) m
  | PDatetime _ | PObj _ | POpaque _ => false
  end.

(** The dictionary [json.loads] builds from the members of an object, in
    the order of the text: a name that comes twice keeps its first place
    and its last value. *)
Definition dict_of_members (members : list (string * pyval))
    : list (string * pyval) :=
  fold_left (fun d kv => dict_set (fst kv) (snd kv) d) members [].

(** [json.loads(json.dumps(v))] for a serializable [v]: tuples come back
    as lists, and the keys of a dictionary as the text written for
    them. *)
Fixpoint json_roundtrip (v : pyval) : pyval :=
  match v with
  | PList l | PTuple l => PList (List.map json_roundtrip l)
  | PDict d =>
      PDict (List.map (fun kv => match kv with (k, x) => (k, json_roundtrip x) end) d)
  | PMap m =>
      PDict (dict_of_members
               (List.map (fun kv => match kv with
                                    | (k, x) =>
                                        (match json_key k with
                                         | Some s => s
                                         | None => ""
                                         end, json_roundtrip x)
                                    end) m))
  | _ => v
  end.

Definition roundtrip_dict (d : pydict) : pydict :=
  List.map (fun kv => match kv with (k, x) => (k, json_roundtrip x) end) d.

(** [_serialize_for_json] and [_serialize_for_cosmos] (the two bodies are
    the same): a value [json.dumps] accepts is returned as it is;
    otherwise dictionaries, lists and tuples are converted item by item,
    an instance through its [__dict__], a [datetime] to its ISO text and
    anything else to its [str()].  The keys of a dictionary are kept as
    they are: only its values are converted. *)
Fixpoint serialize_deep (obj : pyval) : pyval :=
  if json_ok obj then obj else
  match obj with
  | PDict d =>
      PDict (List.map (fun kv => match kv with (k, x) => (k, serialize_deep x) end) d)
  | PMap m =>
      PMap (List.map (fun kv => match kv with (k, x) => (k, serialize_deep x) end) m)
  | PList l | PTuple l => PList (List.map serialize_deep l)
  | PObj attrs =>
      if json_ok (PDict attrs) then PDict attrs
      else PDict (List.map (fun kv => match kv with (k, x) => (k, serialize_deep x) end) attrs)
  | PDatetime iso => PStr iso
  | POpaque repr => PStr repr
  | _ => obj
  end.

(** [str(v)].  Exact on text, [None], booleans, integers and opaque
    objects; the callers below only ever pass text.  Dates, containers
    and instances are rendered by a placeholder. *)
Definition py_str (v : pyval) : string :=
  match v with
  | PStr s => s
  | PNone => "None"
  | PBool true => "True"
  | PBool false => "False"
  | PInt z => str_of_Z z
  | POpaque r => r
  | PDatetime _ | PList _ | PTuple _ | PDict _ | PObj _ | PMap _ => "<object>"
  end.

(** [bool(v)]: [None], [False], zero and the empty text and containers
    are false; a date, a pydantic model and an enum member are true, and
    so is taken any other object. *)
Definition py_truthy (v : pyval) : bool :=
  match v with
  | PNone => false
  | PBool b => b
  | PInt z => negb (z =? 0)
  | PStr s => negb (String.eqb s "")
  | PList [] | PTuple [] | PDict [] | PMap [] => false
  | PList _ | PTuple _ | PDict _ | PMap _ => true
  | PDatetime _ | PObj _ | POpaque _ => true
  end.

(** Whether every key of every dictionary inside [v] is one [json.dumps]
    accepts. *)
Fixpoint keys_ok (v : pyval) : bool :=
  match v with
  | PList l | PTuple l => forallb keys_ok l
  | PDict d | PObj d => forallb (fun kv => match kv with (_, x) => keys_ok x end) d
  | PMap m =>
      forallb (fun kv => match kv with (k, x) => is_json_key k && keys_ok x end) m
  | _ => true
  end.

(** ** The data model ([core/common/__init__.py], [core/tools/__init__.py]) *)

Record Citation : Type := {
  item_id : string;
  source : string;
  citation_metadata : pydict
}.

Inductive MediaType : Type := IMAGE | AUDIO | VIDEO | FILE.
Inductive GraphType : Type := BAR | PIE | LINE | STACKED_BAR.

Record MediaAttachment : Type := {
  media_type : MediaType;
  media_content : string;
  media_data_description : string;
  media_start_time : string;
  autoplay : bool;
  loop : bool
}.

Record GraphAttachment : Type := {
  graph_type : GraphType;
  graph_data_description : string;
  dataset_json : string;
  graph_x : string;
  graph_y : list string
}.

Inductive Attachment : Type :=
| Media (a : MediaAttachment)
| Graph (a : GraphAttachment).

(** [created_at] is a [datetime], carried as its ISO-8601 text. *)
Record Message : Type := {
  message_id : string;
  role : string;
  content : string;
  created_at : string;
  citations : list Citation;
  metadata : pydict;
  attachments : list Attachment
}.

(** A tool; its callable takes the positional arguments of one call. *)
Record Tool : Type := {
  tool_name : string;
  tool_description : string;
  tool_function : list pyval -> pyval
}.

(** *** Objects as the serializers see them *)

(** An enum member: its [__dict__] holds the value, the name, the class and
    the definition index. *)
Definition enum_member (cls name value : string) (index : Z) : pyval :=
  PObj [("_value_", PStr value); ("_name_", PStr name);
        ("__objclass__", POpaque cls); ("_sort_order_", PInt index)].

Definition MediaType_member (t : MediaType) : pyval :=
  match t with
  | IMAGE => enum_member "MediaType" "IMAGE" "image" 0
  | AUDIO => enum_member "MediaType" "AUDIO" "audio" 1
  | VIDEO => enum_member "MediaType" "VIDEO" "video" 2
  | FILE => enum_member "MediaType" "FILE" "file" 3
  end.

Definition GraphType_member (t : GraphType) : pyval :=
  match t with
  | BAR => enum_member "GraphType" "BAR" "bar" 0
  | PIE => enum_member "GraphType" "PIE" "pie" 1
  | LINE => enum_member "GraphType" "LINE" "line" 2
  | STACKED_BAR => enum_member "GraphType" "STACKED_BAR" "stacked_bar" 3
  end.

(** The fields of an attachment, in declaration order. *)
Definition attachment_fields (a : Attachment) : pydict :=
  match a with
  | Media m =>
      [("type", MediaType_member (media_type m));
       ("content", PStr (media_content m));
       ("data_description", PStr (media_data_description m));
       ("start_time", PStr (media_start_time m));
       ("autoplay", PBool (autoplay m));
       ("loop", PBool (loop m))]
  | Graph g =>
      [("type", GraphType_member (graph_type g));
       ("data_description", PStr (graph_data_description g));
       ("dataset_json", PStr (dataset_json g));
       ("x", PStr (graph_x g));
       ("y", PList (List.map PStr (graph_y g)))]
  end.

(** The attachment as a live pydantic object (what
    ["attachments": message.attachments] stores). *)
Definition attachment_object (a : Attachment) : pyval :=
  PObj (attachment_fields a).

(** [model.model_dump()] of an attachment: a plain dictionary of its
    fields; enum members stay enum members. *)
Definition attachment_model_dump (a : Attachment) : pyval :=
  PDict (attachment_fields a).

(** The literal
    [{"item_id": cit.item_id, "source": cit.source, "metadata": cit.metadata}]. *)
Definition citation_dict (c : Citation) : pyval :=
  PDict [("item_id", PStr (item_id c)); ("source", PStr (source c));
         ("metadata", PDict (citation_metadata c))].

(** [message.model_dump()]: every field of the model, the timestamp still
    a [datetime]. *)
Definition model_dump (m : Message) : pydict :=
  [("message_id", PStr (message_id m));
   ("role", PStr (role m));
   ("content", PStr (content m));
   ("created_at", PDatetime (created_at m));
   ("citations", PList (List.map citation_dict (citations m)));
   ("metadata", PDict (metadata m));
   ("attachments", PList (List.map attachment_model_dump (attachments m)))].

(** Whether [json.dumps] accepts the keys of every dictionary a message
    carries: those inside its metadata and inside the metadata of its
    citations.  (The keys of an attachment are the names of its
    fields.) *)
Definition message_keys_ok (m : Message) : bool :=
  keys_ok (PDict (metadata m))
  && forallb (fun c => keys_ok (PDict (citation_metadata c))) (citations m).

(** ** Agents *)

(** *** [core/agents/abstract_agent.py] *)

Module AbstractAgent.

Record Agent : Type := {
  _id : string;
  _name : string;
  _description : string;
  _prompt : string;
  _tools : gmap string Tool;
  _settings : pydict
}.

Definition set_tools (self : Agent) (tools : gmap string Tool) : Agent :=
  {| _id := _id self; _name := _name self; _description := _description self;
     _prompt := _prompt self; _tools := tools; _settings := _settings self |}.

(** The message of the [ValueError] raised on a name clash. *)
Definition already_exists (tool : Tool) (self : Agent) : exn :=
  ValueError ("Tool '" +:+ tool_name tool +:+ "' already exists in agent '"
              +:+ _name self +:+ "'").

(** [AbstractAgent.add_tool]: the state after the call and how the call
    ended. *)
Definition add_tool (self : Agent) (tool : Tool) : Agent * outcome unit :=
  match _tools self !! tool_name tool with
  | None => (set_tools self (<[tool_name tool := tool]> (_tools self)), Returned tt)
  | Some _ => (self, Raised (already_exists tool self))
  end.

(** [settings.get("max_history_length", 20) if settings else 20]; the
    pruner needs an integer there. *)
Definition max_history_length_of (settings : option pydict) : option Z :=
  match settings with
  | None | Some [] => Some 20
  | Some s =>
      match dict_get_default "max_history_length" (PInt 20) s with
      | PInt z => Some z
      | PBool b => Some (Z.b2z b)
      | _ => None
      end
  end.

End AbstractAgent.

(** *** [core/agents/semantic_kernel_agent.py] *)

Module SemanticKernel.

(** A [ChatMessageContent] of the framework's [ChatHistory], by the two
    fields the agent reads and writes: the author role (a string enum)
    and the text. *)
Record ChatMessageContent : Type := {
  cm_role : string;
  cm_content : string
}.

Record Agent : Type := {
  base : AbstractAgent.Agent;
  _chat : list ChatMessageContent;
  _tool_usage : list pyval;
  _attachments : list Attachment;
  _max_history_length : Z
}.

Definition with_chat (self : Agent) (chat : list ChatMessageContent) : Agent :=
  {| base := base self; _chat := chat; _tool_usage := _tool_usage self;
     _attachments := _attachments self;
     _max_history_length := _max_history_length self |}.

Definition is_system (msg : ChatMessageContent) : bool :=
  String.eqb (cm_role msg) "system".

(** The number of system messages of a history. *)
Definition count_system (messages : list ChatMessageContent) : nat :=
  length (List.filter is_system messages).

(** One turn of the re-adding loop of [_prune_chat_history]: a message is
    rebuilt from its role and content; other roles are not re-added. *)
Definition readd (msg : ChatMessageContent) : list ChatMessageContent :=
  if String.eqb (cm_role msg) "system" then
    [{| cm_role := "system"; cm_content := cm_content msg |}]
  else if String.eqb (cm_role msg) "user" then
    [{| cm_role := "user"; cm_content := cm_content msg |}]
  else if String.eqb (cm_role msg) "assistant" then
    [{| cm_role := "assistant"; cm_content := cm_content msg |}]
  else [].

(** [_prune_chat_history] on the message list of [self._chat]. *)
Definition prune (max_history_length : Z) (messages : list ChatMessageContent)
    : list ChatMessageContent :=
  if Z.of_nat (length messages) >=? max_history_length then
    let system_messages := List.filter is_system messages in
    let remaining_slots :=
      Z.max 0 (max_history_length - Z.of_nat (length system_messages)) in
    let non_system_messages :=
      List.filter (fun msg => negb (is_system msg)) messages in
    let recent_messages :=
      if remaining_slots >? 0
      then py_slice (Some (- remaining_slots)) None non_system_messages
      else [] in
    flat_map readd (system_messages ++ recent_messages)
  else messages.

Definition _prune_chat_history (self : Agent) : Agent :=
  with_chat self (prune (_max_history_length self) (_chat self)).

(** What one run of the framework's [invoke] does, as seen from
    [process]: the tool wrappers log usage and collect attachments, the
    generator yields responses and may end by raising. *)
Record Invocation : Type := {
  used_tools : list pyval;
  produced : list Attachment;
  yielded : list ChatMessageContent;
  failure : option exn
}.

(** [process]; [invoke] stands for [self._agent.invoke], [fresh_id] for
    [str(uuid.uuid4())] and [now] for [datetime.now().isoformat()]. *)
Definition process (invoke : list ChatMessageContent -> Invocation)
    (fresh_id now : string) (self : Agent) (message : string)
    : Agent * outcome Message :=
  let pruned := prune (_max_history_length self) (_chat self) in
  let chat := pruned ++ [{| cm_role := "user"; cm_content := message |}] in
  let run := invoke chat in
  let self' :=
    {| base := base self; _chat := chat ++ yielded run;
       _tool_usage := used_tools run; _attachments := produced run;
       _max_history_length := _max_history_length self |} in
  match failure run with
  | Some e => (self', Raised e)
  | None =>
      (self',
       Returned
         {| message_id := fresh_id; role := "assistant";
            content := String.concat "
" (List.map cm_content (yielded run));
            created_at := now; citations := [];
            metadata := [("tool_usage", PList (used_tools run))];
            attachments := produced run |})
  end.

(** A record handed to [update_chat_history]: a canonical [Message] or a
    loose mapping. *)
Inductive record : Type :=
| RMessage (m : Message)
| RDict (d : pydict).

(** [_get_message_prop] for the three properties that are read. *)
Definition _get_message_prop (msg : record) (prop : string) : pyval :=
  match msg with
  | RMessage m =>
      if String.eqb prop "role" then PStr (role m)
      else if String.eqb prop "content" then PStr (content m)
      else if String.eqb prop "created_at" then PDatetime (created_at m)
      else PNone
  | RDict d => dict_get_default prop (PStr "") d
  end.

Definition record_is_system (msg : record) : bool :=
  py_eqb (_get_message_prop msg "role") (PStr "system").

(** The text a history entry is created with.  Only text content is
    modelled. *)
Definition content_text (v : pyval) : string :=
  match v with PStr s => s | _ => "" end.

(** Whether the content of a record is text. *)
Definition has_text_content (msg : record) : bool :=
  match _get_message_prop msg "content" with PStr _ => true | _ => false end.

(** One turn of the adding loop of [update_chat_history]. *)
Definition add_record (msg : record) : list ChatMessageContent :=
  let role := _get_message_prop msg "role" in
  let content := content_text (_get_message_prop msg "content") in
  if py_eqb role (PStr "user") then
    [{| cm_role := "user"; cm_content := content |}]
  else if py_eqb role (PStr "agent") || py_eqb role (PStr "assistant") then
    [{| cm_role := "assistant"; cm_content := content |}]
  else if py_eqb role (PStr "system") then
    [{| cm_role := "system"; cm_content := content |}]
  else [].

(** [messages_to_add.sort(key=created_at)] under [try/except: pass].  When
    the keys do not compare the list stays a permutation of itself; the
    given order is kept here. *)
Definition sort_by_created_at (l : list record) : list record :=
  match py_sorted (fun msg => _get_message_prop msg "created_at") false l with
  | Some l' => l'
  | None => l
  end.

(** The records [update_chat_history] adds, in order. *)
Definition messages_to_add (max_history_length : Z) (messages : list record)
    : list record :=
  let system_messages := List.filter record_is_system messages in
  let non_system_messages :=
    List.filter (fun msg => negb (record_is_system msg)) messages in
  let limit := Z.max 0 (max_history_length - Z.of_nat (length system_messages)) in
  let recent_non_system :=
    if limit >? 0 then py_slice (Some (- limit)) None non_system_messages
    else [] in
  sort_by_created_at (system_messages ++ recent_non_system).

Definition update_chat_history (self : Agent) (messages : list record) : Agent :=
  {| base := base self;
     _chat := flat_map add_record
                (messages_to_add (_max_history_length self) messages);
     _tool_usage := []; _attachments := [];
     _max_history_length := _max_history_length self |}.

(** [reset_conversation]: [self._chat.clear()], and nothing else. *)
Definition reset_conversation (self : Agent) : Agent := with_chat self [].

End SemanticKernel.

(** *** [core/agents/llama_index_agent.py] *)

Module LlamaIndex.

Import SemanticKernel(record, RMessage, RDict).

(** The chat history is a plain list of dictionaries. *)
Record Agent : Type := {
  base : AbstractAgent.Agent;
  _tool_usage : list pyval;
  _chat_history : list pydict;
  _attachments : list Attachment;
  _max_history_length : Z
}.

Definition is_system (msg : pydict) : bool :=
  py_eqb (py_get "role" msg) (PStr "system").

(** The number of system messages of a history. *)
Definition count_system (chat_history : list pydict) : nat :=
  length (List.filter is_system chat_history).

(** [_prune_chat_history] on [self._chat_history]. *)
Definition prune (max_history_length : Z) (chat_history : list pydict)
    : list pydict :=
  if Z.of_nat (length chat_history) >=? max_history_length then
    let system_messages := List.filter is_system chat_history in
    let remaining_slots :=
      Z.max 0 (max_history_length - Z.of_nat (length system_messages)) in
    let non_system_messages :=
      List.filter (fun msg => negb (is_system msg)) chat_history in
    let recent_messages :=
      if remaining_slots >? 0
      then py_slice (Some (- remaining_slots)) None non_system_messages
      else [] in
    system_messages ++ recent_messages
  else chat_history.

Definition with_chat_history (self : Agent) (h : list pydict) : Agent :=
  {| base := base self; _tool_usage := _tool_usage self; _chat_history := h;
     _attachments := _attachments self;
     _max_history_length := _max_history_length self |}.

Definition _prune_chat_history (self : Agent) : Agent :=
  with_chat_history self (prune (_max_history_length self) (_chat_history self)).

(** What one [self._agent.aquery] does, as seen from [process]: the tool
    wrappers log usage and collect attachments, and the call returns the
    response text or raises. *)
Record Invocation : Type := {
  used_tools : list pyval;
  produced : list Attachment;
  answer : outcome string
}.

(** [process].  The prompt text built from the earlier entries is only an
    argument of the framework call, so [aquery] receives those entries
    ([self._chat_history[:-1]]) and the message themselves. *)
Definition process (aquery : list pydict -> string -> Invocation)
    (fresh_id now : string) (self : Agent) (message : string)
    : Agent * outcome Message :=
  let pruned := prune (_max_history_length self) (_chat_history self) in
  let history := pruned ++ [[("role", PStr "user"); ("content", PStr message)]] in
  let run := aquery (py_slice None (Some (-1)) history) message in
  match answer run with
  | Returned response_text =>
      ({| base := base self; _tool_usage := used_tools run;
          _chat_history :=
            history ++ [[("role", PStr "assistant");
                         ("content", PStr response_text)]];
          _attachments := produced run;
          _max_history_length := _max_history_length self |},
       Returned
         {| message_id := fresh_id; role := "assistant";
            content := response_text; created_at := now; citations := [];
            metadata := [("tool_usage", PList (used_tools run))];
            attachments := produced run |})
  | Raised e =>
      ({| base := base self; _tool_usage := used_tools run;
          _chat_history := history; _attachments := produced run;
          _max_history_length := _max_history_length self |},
       Returned
         {| message_id := fresh_id; role := "assistant";
            content := "I encountered an error while processing your message: "
                       +:+ exn_str e;
            created_at := now; citations := [];
            metadata := [("error", PStr (exn_str e))];
            attachments := [] |})
  end.

(** [add_tool]; [framework_add_tool] stands for [self._agent.add_tool],
    which returns or raises. *)
Definition add_tool (framework_add_tool : Tool -> option exn)
    (self : Agent) (tool : Tool) : Agent * outcome unit :=
  match AbstractAgent._tools (base self) !! tool_name tool with
  | None =>
      let self' :=
        {| base := AbstractAgent.set_tools (base self)
                     (<[tool_name tool := tool]> (AbstractAgent._tools (base self)));
           _tool_usage := _tool_usage self;
           _chat_history := _chat_history self;
           _attachments := _attachments self;
           _max_history_length := _max_history_length self |} in
      match framework_add_tool tool with
      | None => (self', Returned tt)
      | Some e => (self', Raised e)
      end
  | Some _ => (self, Raised (AbstractAgent.already_exists tool (base self)))
  end.

(** The entry [update_chat_history] appends for one record. *)
Definition history_entry (message : record) : pydict :=
  match message with
  | RMessage m =>
      [("role", PStr (role m)); ("content", PStr (content m));
       ("created_at", PDatetime (created_at m))]
  | RDict d => d
  end.

Definition update_chat_history (self : Agent) (messages : list record) : Agent :=
  with_chat_history self
    (prune (_max_history_length self) (_chat_history self)
     ++ List.map history_entry messages).

(** [reset_conversation]: the three lists are emptied.  (The framework
    agent is created anew from [self._tools]; it is not part of this
    state.) *)
Definition reset_conversation (self : Agent) : Agent :=
  {| base := base self; _tool_usage := []; _chat_history := [];
     _attachments := []; _max_history_length := _max_history_length self |}.

(** What one earlier entry adds to [chat_context] in [process]: a line
    for a user or assistant entry whose role and content are both true,
    nothing for any other entry.  The content is printed by [py_str],
    which is exact on text. *)
Definition context_line (msg : pydict) : string :=
  let role := dict_get_default "role" (PStr "") msg in
  let content := dict_get_default "content" (PStr "") msg in
  if py_truthy role && py_truthy content then
    if py_eqb role (PStr "user") then "User: " +:+ py_str content +:+ newline
    else if py_eqb role (PStr "assistant") then
      "Assistant: " +:+ py_str content +:+ newline
    else ""
  else "".

(** [chat_context] for the earlier entries [prev_messages]. *)
Definition chat_context (prev_messages : list pydict) : string :=
  String.concat "" (List.map context_line prev_messages).

(** The text [process] hands to [self._agent.aquery] for the earlier
    entries and the message. *)
Definition query_text (prev_messages : list pydict) (message : string) : string :=
  let chat_context := chat_context prev_messages in
  if negb (String.eqb chat_context "") then
    "Chat history:" +:+ newline +:+ chat_context +:+ newline
    +:+ "Current question: " +:+ message +:+ newline
    +:+ "Please respond to the current question considering the chat history for context."
  else message.

End LlamaIndex.

(** ** Persistence *)

(** [Conversation] of [core/persistence/__init__.py]; both timestamps are
    [datetime]s carried as their ISO-8601 text. *)
Record Conversation : Type := {
  conversation_id : string;
  agent : AbstractAgent.Agent;
  title : string;
  conv_created_at : string;
  last_updated_at : string;
  messages : list Message;
  conv_metadata : pydict
}.

(** The result of [list_conversations]. *)
Record Page : Type := {
  items : list pydict;
  continuation_token : option string;
  total_count : Z
}.

(** The start index read from a continuation token:
    [int(token.split(":", 1)[1])] when the token is non-empty and starts
    with ["index:"], and 0 otherwise or when [int] raises. *)
Definition start_index_of (continuation_token : option string) : Z :=
  match continuation_token with
  | Some token =>
      if negb (String.eqb token "") && startswith "index:" token then
        match py_int (str_drop 6 token) with
        | Some n => n
        | None => 0
        end
      else 0
  | None => 0
  end.

(** [all(conv.get(k) == v for k, v in filters.items())] *)
Definition matches_filters (filters : pydict) (conv : pydict) : bool :=
  forallb (fun kv => match kv with (k, v) => py_eqb (py_get k conv) v end) filters.

(** *** [core/persistence/in_memory_persistence_strategy.py] *)

Module InMemory.

(** [self._store]: user id, then conversation id, then the stored
    dictionary. *)
Definition store : Type := dict (dict pydict).

(** The per-message literal of [save_conversation]. *)
Definition saved_message (msg : Message) : pyval :=
  PDict [("message_id", PStr (message_id msg));
         ("role", PStr (role msg));
         ("content", PStr (content msg));
         ("created_at", PStr (created_at msg));
         ("citations", PList (List.map citation_dict (citations msg)));
         ("metadata", PDict (metadata msg))].

(** The dictionary [save_conversation] stores. *)
Definition saved_conversation (conversation : Conversation) (user_id : string)
    : pydict :=
  [("conversation_id", PStr (conversation_id conversation));
   ("user_id", PStr user_id);
   ("agent_id", PStr (AbstractAgent._id (agent conversation)));
   ("title", PStr (title conversation));
   ("created_at", PStr (conv_created_at conversation));
   ("last_updated_at", PStr (last_updated_at conversation));
   ("messages", PList (List.map saved_message (messages conversation)));
   ("metadata", PDict (conv_metadata conversation))].

Definition save_conversation (conversation : Conversation) (user_id : string)
    (s : store) : store * bool :=
  let s1 := if dict_has user_id s then s else dict_set user_id [] s in
  let convs := dict_get_default user_id [] s1 in
  (dict_set user_id
     (dict_set (conversation_id conversation)
        (saved_conversation conversation user_id) convs) s1,
   true).

Definition load_conversation (conversation_id user_id : string) (s : store)
    : option pydict :=
  match dict_get user_id s with
  | None => None
  | Some convs => dict_get conversation_id convs
  end.

Definition delete_conversation (conversation_id user_id : string) (s : store)
    : store * bool :=
  match dict_get user_id s with
  | None => (s, false)
  | Some convs =>
      if dict_has conversation_id convs
      then (dict_set user_id (dict_del conversation_id convs) s, true)
      else (s, false)
  end.

(** [list_conversations]; the only thing that can raise is [sorted], on
    keys that do not compare. *)
Definition list_conversations (user_id : string) (filters : option pydict)
    (page_size : Z) (continuation_token : option string) (s : store)
    : outcome Page :=
  match dict_get user_id s with
  | None =>
      Returned {| items := []; continuation_token := None; total_count := 0 |}
  | Some convs =>
      let user_conversations := dict_values convs in
      let filters := match filters with Some f => f | None => [] end in
      let filtered_conversations :=
        List.filter (matches_filters filters) user_conversations in
      let total_count := Z.of_nat (length filtered_conversations) in
      match py_sorted (dict_get_default "last_updated_at" (PStr "")) true
              filtered_conversations with
      | None => Raised (TypeError "'<' not supported")
      | Some sorted_conversations =>
          let start_index := start_index_of continuation_token in
          let len := Z.of_nat (length sorted_conversations) in
          let end_index := Z.min (start_index + page_size) len in
          let page_items :=
            py_slice (Some start_index) (Some end_index) sorted_conversations in
          let new_continuation_token :=
            if end_index <? len then Some ("index:" +:+ str_of_Z end_index)
            else None in
          Returned {| items := page_items;
                      continuation_token := new_continuation_token;
                      total_count := total_count |}
      end
  end.

(** [list_conversations_by_agent] *)
Definition list_conversations_by_agent (user_id agent_id : string)
    (page_size : Z) (continuation_token : option string) (s : store)
    : outcome Page :=
  list_conversations user_id (Some [("agent_id", PStr agent_id)]) page_size
    continuation_token s.

(** Listing page after page, each call with the token the previous one
    returned, until a page comes without a token; [None] when [fuel] calls
    were not enough or a call raised. *)
Fixpoint all_pages (fuel : nat) (user_id : string) (filters : option pydict)
    (page_size : Z) (token : option string) (s : store)
    : option (list Page) :=
  match fuel with
  | O => None
  | S fuel' =>
      match list_conversations user_id filters page_size token s with
      | Raised _ => None
      | Returned page =>
          match continuation_token page with
          | None => Some [page]
          | Some next =>
              option_map (cons page)
                (all_pages fuel' user_id filters page_size (Some next) s)
          end
      end
  end.

(** [reset_conversation].  The new dictionary is built by subscripting
    the old one, so a stored dictionary that lacks one of the five keys
    makes the call raise [KeyError]. *)
Definition reset_conversation (now : string) (conversation_id user_id : string)
    (s : store) : store * outcome bool :=
  match dict_get user_id s with
  | None => (s, Returned false)
  | Some convs =>
      match dict_get conversation_id convs with
      | None => (s, Returned false)
      | Some conversation =>
          match dict_get "conversation_id" conversation,
                dict_get "agent_id" conversation,
                dict_get "title" conversation,
                dict_get "created_at" conversation,
                dict_get "metadata" conversation with
          | Some cid, Some aid, Some ttl, Some created, Some meta =>
              (dict_set user_id
                 (dict_set conversation_id
                    [("conversation_id", cid);
                     ("user_id", PStr user_id);
                     ("agent_id", aid);
                     ("title", ttl);
                     ("created_at", created);
                     ("last_updated_at", PStr now);
                     ("messages", PList []);
                     ("metadata", meta)] convs) s,
               Returned true)
          | _, _, _, _, _ => (s, Raised (KeyError "missing key"))
          end
      end
  end.

(** [append_message].  [Message] is a pydantic 2 model, so it has
    [model_dump] and the first branch is the one taken. *)
Definition append_message (now : string) (conversation_id user_id : string)
    (message : Message) (s : store) : store * bool :=
  match dict_get user_id s with
  | None => (s, false)
  | Some convs =>
      match dict_get conversation_id convs with
      | None => (s, false)
      | Some conversation =>
          let message_dict := PDict (model_dump message) in
          let conversation1 :=
            if dict_has "messages" conversation then conversation
            else dict_set "messages" (PList []) conversation in
          match dict_get "messages" conversation1 with
          | Some (PList l) =>
              let conversation2 :=
                dict_set "messages" (PList (l ++ [message_dict])) conversation1 in
              let conversation3 :=
                dict_set "last_updated_at" (PStr now) conversation2 in
              (dict_set user_id (dict_set conversation_id conversation3 convs) s,
               true)
          | _ => (s, false)
          end
      end
  end.

End InMemory.

(** *** [core/persistence/json_file_persistence_strategy.py] *)

Module JsonFile.

(** What a file of [base_dir] holds: a JSON document, or text that
    [json.load] rejects (a write that failed half way). *)
Inductive file : Type :=
| Json (doc : pyval)
| Garbage.

(** The directory [base_dir]: file name to content. *)
Abbreviation directory := (gmap string file).

(** What [json.load] can return: a value [json.dumps] accepts and that
    reads back as itself. *)
Definition is_document (v : pyval) : Prop :=
  json_ok v = true /\ json_roundtrip v = v.

(** The components of a path: the text between its separators,
    [current] being the component read so far. *)
Fixpoint path_components (current path : string) : list string :=
  match path with
  | EmptyString => [current]
  | String c path' =>
      if Ascii.eqb c "/" then current :: path_components "" path'
      else path_components (current +:+ String c EmptyString) path'
  end.

(** The file a path below [base_dir] names once the operating system has
    resolved it: empty components and [.] components are skipped, so
    [./alice_c1.json] and [alice_c1.json] are one file.  A path that
    starts with a separator is absolute ([os.path.join] then drops
    [base_dir]) and keeps its separator; [..] is not followed. *)
Definition resolve (path : string) : string :=
  (if String.prefix "/" path then "/" else "")
  +:+ String.concat "/"
        (List.filter (fun c => negb (String.eqb c "" || String.eqb c "."))
           (path_components "" path)).

(** [_get_filepath]: the file that [base_dir/{user_id}_{conversation_id}.json]
    names, as the key of the directory. *)
Definition _get_filepath (conversation_id user_id : string) : string :=
  resolve (user_id +:+ "_" +:+ conversation_id +:+ ".json").

(** Whether an id is free of the character that separates it from the
    conversation id in a file name, and of the path separator. *)
Definition no_underscore (s : string) : bool :=
  forallb (fun c => negb (Ascii.eqb c "_")) (list_ascii_of_string s).

Definition no_separator (s : string) : bool :=
  forallb (fun c => negb (Ascii.eqb c "/")) (list_ascii_of_string s).

(** Whether [name] can be the name of a file directly in a directory: no
    path separator and no NUL character, not empty, not [.] or [..], and
    at most 255 bytes, the limit of the usual file systems. *)
Definition plain_name (name : string) : bool :=
  forallb (fun c => negb (Ascii.eqb c "/") && negb (Ascii.eqb c Ascii.zero))
    (list_ascii_of_string name)
  && negb (String.eqb name "") && negb (String.eqb name ".")
  && negb (String.eqb name "..")
  && (String.length name <=? 255)%nat.

(** Whether [open(path, "w")] succeeds: the file is there already, or it
    can be created, which takes a plain name.  The strategy creates no
    subdirectory and [base_dir] is taken to hold none, so a new file in a
    subdirectory cannot be created; what lies outside [base_dir] is not
    part of the directory. *)
Definition can_open (path : string) (fs : directory) : bool :=
  match fs !! path with
  | Some _ => true
  | None => plain_name path
  end.

(** [open(path, "w")] followed by [json.dump(data, f)].  When the file
    cannot be opened nothing is written and the caller's [except] branch
    runs ([false]).  Otherwise the file is truncated first, so a value
    [json.dump] rejects leaves garbage behind, and the [except] branch
    runs as well. *)
Definition write_json (path : string) (data : pyval) (fs : directory)
    : directory * bool :=
  if can_open path fs then
    if json_ok data then (<[path := Json (json_roundtrip data)]> fs, true)
    else (<[path := Garbage]> fs, false)
  else (fs, false).

(** [_serialize_message] on the dictionary its callers build. *)
Definition _serialize_message (msg : pydict) : pydict :=
  [("message_id", py_get "message_id" msg);
   ("role", py_get "role" msg);
   ("content", dict_get_default "content" (PStr "") msg);
   ("created_at",
     match py_get "created_at" msg with
     | PDatetime iso => PStr iso
     | v => PStr (py_str v)
     end);
   ("metadata", serialize_deep (dict_get_default "metadata" (PDict []) msg));
   ("citations", serialize_deep (dict_get_default "citations" (PList []) msg));
   ("attachments", serialize_deep (dict_get_default "attachments" (PList []) msg))].

(** The dictionary both [save_conversation] and [append_message] build
    from a [Message] before serializing it. *)
Definition message_dict (msg : Message) : pydict :=
  [("message_id", PStr (message_id msg));
   ("role", PStr (role msg));
   ("content", PStr (content msg));
   ("created_at", PStr (created_at msg));
   ("citations", PList (List.map citation_dict (citations msg)));
   ("metadata", PDict (metadata msg));
   ("attachments", PList (List.map attachment_object (attachments msg)))].

(** A message as it reads back from the file. *)
Definition stored_message (msg : Message) : pyval :=
  json_roundtrip (PDict (_serialize_message (message_dict msg))).

Definition save_conversation (conversation : Conversation) (user_id : string)
    (fs : directory) : directory * bool :=
  let filepath := _get_filepath (conversation_id conversation) user_id in
  let data :=
    PDict
      [("conversation_id", PStr (conversation_id conversation));
       ("user_id", PStr user_id);
       ("agent_id", PStr (AbstractAgent._id (agent conversation)));
       ("title", PStr (title conversation));
       ("created_at", PStr (conv_created_at conversation));
       ("last_updated_at", PStr (last_updated_at conversation));
       ("messages",
         PList (List.map (fun msg => PDict (_serialize_message (message_dict msg)))
                  (messages conversation)));
       ("metadata", PDict (conv_metadata conversation))] in
  write_json filepath data fs.

(** The document a successful [save_conversation] leaves in the file. *)
Definition saved_document (conversation : Conversation) (user_id : string)
    : pydict :=
  [("conversation_id", PStr (conversation_id conversation));
   ("user_id", PStr user_id);
   ("agent_id", PStr (AbstractAgent._id (agent conversation)));
   ("title", PStr (title conversation));
   ("created_at", PStr (conv_created_at conversation));
   ("last_updated_at", PStr (last_updated_at conversation));
   ("messages", PList (List.map stored_message (messages conversation)));
   ("metadata", json_roundtrip (PDict (conv_metadata conversation)))].

Definition load_conversation (conversation_id user_id : string) (fs : directory)
    : option pyval :=
  match fs !! _get_filepath conversation_id user_id with
  | Some (Json data) => Some data
  | Some Garbage | None => None
  end.

Definition delete_conversation (conversation_id user_id : string)
    (fs : directory) : directory * bool :=
  let filepath := _get_filepath conversation_id user_id in
  match fs !! filepath with
  | Some _ => (delete filepath fs, true)
  | None => (fs, false)
  end.

(** [fnmatch] for the patterns [list_conversations] builds: [*] matches
    any run of characters and [?] any one character.  (Bracket
    expressions are not modelled.) *)
Fixpoint glob_match (pattern name : string) : bool :=
  match pattern with
  | EmptyString => match name with EmptyString => true | _ => false end
  | String c pattern' =>
      if Ascii.eqb c "*" then
        (fix star (name : string) : bool :=
           glob_match pattern' name
           || match name with
              | EmptyString => false
              | String _ name' => star name'
              end) name
      else
        match name with
        | EmptyString => false
        | String d name' =>
            (Ascii.eqb c "?" || Ascii.eqb c d) && glob_match pattern' name'
        end
  end.

(** [sorted(glob.glob(pattern), reverse=True)] *)
Definition sorted_glob (pattern : string) (fs : directory) : list string :=
  sorted_by_desc (fun name => name) String.ltb
    (List.filter (glob_match pattern) (map_to_list fs).*1).

(** The body of the loop over [page_files] for one file: the item it
    appends, if any.  A file that cannot be parsed, or whose document makes
    the filter or the comprehension raise, is skipped with a warning. *)
Definition list_item (filters : option pydict) (f : option file)
    : list pydict :=
  let filtering :=
    match filters with Some (_ :: _) => true | _ => false end in
  match f with
  | Some (Json (PDict data)) =>
      if filtering
         && negb (matches_filters (default [] filters) data)
      then []
      else [List.filter (fun kv => negb (String.eqb (fst kv) "messages")) data]
  | Some (Json (PList [])) | Some (Json (PStr "")) =>
      if filtering then [] else [[]]
  | _ => []
  end.

Definition list_conversations (user_id : string) (filters : option pydict)
    (page_size : Z) (continuation_token : option string) (fs : directory)
    : Page :=
  let files := sorted_glob (user_id +:+ "_*.json") fs in
  let start_index := start_index_of continuation_token in
  let len := Z.of_nat (length files) in
  let end_index := Z.min (start_index + page_size) len in
  let page_files := py_slice (Some start_index) (Some end_index) files in
  let items := flat_map (fun fp => list_item filters (fs !! fp)) page_files in
  let new_continuation_token :=
    if end_index <? len then Some ("index:" +:+ str_of_Z end_index) else None in
  {| items := items;
     continuation_token := new_continuation_token;
     total_count := len |}.

Definition reset_conversation (now : string) (conversation_id user_id : string)
    (fs : directory) : directory * bool :=
  let filepath := _get_filepath conversation_id user_id in
  match fs !! filepath with
  | None => (fs, false)
  | Some (Json (PDict data)) =>
      write_json filepath
        (PDict (dict_set "last_updated_at" (PStr now)
                  (dict_set "messages" (PList []) data))) fs
  | Some _ => (fs, false)
  end.

Definition append_message (now : string) (conversation_id user_id : string)
    (message : Message) (fs : directory) : directory * bool :=
  let filepath := _get_filepath conversation_id user_id in
  match fs !! filepath with
  | None => (fs, false)
  | Some (Json (PDict data)) =>
      let serialized_msg_dict := PDict (_serialize_message (message_dict message)) in
      let data1 :=
        if dict_has "messages" data then data
        else dict_set "messages" (PList []) data in
      match dict_get "messages" data1 with
      | Some (PList l) =>
          write_json filepath
            (PDict (dict_set "last_updated_at" (PStr now)
                      (dict_set "messages" (PList (l ++ [serialized_msg_dict]))
                         data1))) fs
      | _ => (fs, false)
      end
  | Some _ => (fs, false)
  end.

End JsonFile.

(** *** [core/persistence/cosmosdb_persistence_strategy.py] *)

Module CosmosDB.

(** A container of the document database: the stored items in arrival
    order, each under the value of its partition key and its [id].
    (The system properties the service adds to an item are left out.) *)
Definition container : Type := list (string * string * pydict).

(** The conversation container is partitioned by [/user_id], the messages
    container by [/conversation_id]. *)
Record database : Type := {
  conversation_container : container;
  messages_container : container
}.

Definition same_key (partition_key item : string)
    (entry : string * string * pydict) : bool :=
  String.eqb (fst (fst entry)) partition_key && String.eqb (snd (fst entry)) item.

(** [container.read_item(item=..., partition_key=...)]; [None] is
    [CosmosResourceNotFoundError]. *)
Definition read_item (item partition_key : string) (c : container)
    : option pydict :=
  option_map snd (List.find (same_key partition_key item) c).

(** [container.upsert_item(body=...)] for a container partitioned by
    [partition_path]: the item with the same partition key and id is
    replaced where it stands, a new one is added last.  The body is
    stored as JSON.  (The limits the service puts on the size of an item
    and on the characters of an [id] are left out.) *)
Fixpoint upsert_at (partition_key item : string) (body : pydict)
    (c : container) : container :=
  match c with
  | [] => [(partition_key, item, body)]
  | entry :: c' =>
      if same_key partition_key item entry
      then (partition_key, item, body) :: c'
      else entry :: upsert_at partition_key item body c'
  end.

Definition upsert_item (partition_path : string) (body : pydict)
    (c : container) : container :=
  upsert_at (py_str (py_get partition_path body)) (py_str (py_get "id" body))
    (roundtrip_dict body) c.

(** [container.delete_item(item=..., partition_key=...)] *)
Definition delete_item (item partition_key : string) (c : container)
    : container :=
  List.filter (fun entry => negb (same_key partition_key item entry)) c.

(** [container.query_items(query, partition_key=...)]: the items of one
    partition that satisfy the [WHERE] clause. *)
Definition query_items (where_ : pydict -> bool) (partition_key : string)
    (c : container) : list pydict :=
  List.map snd
    (List.filter (fun entry =>
       String.eqb (fst (fst entry)) partition_key && where_ (snd entry)) c).

(** Whether the field of an item is the text [value]. *)
Definition field_eq (field value : string) (item : pydict) : bool :=
  py_eqb (py_get field item) (PStr value).

(** Whether [value], written between single quotes into the text of a
    query, is read by the service as the literal [value]: it holds no
    quote, which would end the literal, and no backslash, which starts an
    escape. *)
Definition sql_literal (value : string) : bool :=
  forallb (fun c => negb (Ascii.eqb c "'") && negb (Ascii.eqb c "092"))
    (list_ascii_of_string value).

(** [c.<field> = '<value>'] as the f-strings of the source write it: the
    value goes into the text of the query as it is.  For a value that is
    not read back as itself the text is another query, in general one
    the service refuses; it is taken to find nothing (every caller treats
    a refused query and an empty result alike, but for the value
    [_delete_messages] returns, which no caller uses). *)
Definition field_is (field value : string) (item : pydict) : bool :=
  sql_literal value && field_eq field value item.

Definition with_messages (db : database) (c : container) : database :=
  {| conversation_container := conversation_container db;
     messages_container := c |}.

Definition with_conversations (db : database) (c : container) : database :=
  {| conversation_container := c;
     messages_container := messages_container db |}.

(** A [Citation] as a live pydantic object. *)
Definition citation_object (c : Citation) : pyval :=
  PObj [("item_id", PStr (item_id c)); ("source", PStr (source c));
        ("metadata", PDict (citation_metadata c))].

(** [_serialize_message].  The deep serializer does not raise, so the
    three inner [except] branches and the outer one do not run.  Its
    result keeps the keys of every dictionary, so the final check
    [json.dumps(basic_dict)] fails when the message carries a key that
    [json.dumps] rejects: the simplified record is then returned, with
    the content replaced by the error text and no metadata. *)
Definition _serialize_message (msg : Message) : pydict :=
  let basic_dict :=
    [("message_id", PStr (message_id msg));
     ("role", PStr (role msg));
     ("content", PStr (content msg));
     ("created_at", PStr (created_at msg));
     ("citations", serialize_deep (PList (List.map citation_object (citations msg))));
     ("attachments",
       serialize_deep (PList (List.map attachment_object (attachments msg))));
     ("metadata", serialize_deep (PDict (metadata msg)))] in
  if json_ok (PDict basic_dict) then basic_dict
  else
    [("message_id", PStr (message_id msg));
     ("role", PStr (role msg));
     ("content", PStr "Error: Message content could not be serialized for storage");
     ("created_at", PStr (created_at msg));
     ("error", PStr "Serialization failure");
     ("citations", PList []);
     ("attachments", PList [])].

(** [_delete_messages]: every message item found under the conversation
    id is deleted, whoever owns it. *)
Definition _delete_messages (conversation_id : string) (db : database)
    : database :=
  let items :=
    query_items (field_is "conversation_id" conversation_id) conversation_id
      (messages_container db) in
  with_messages db
    (fold_left (fun c item => delete_item (py_str (py_get "id" item)) conversation_id c)
       items (messages_container db)).

(** [ORDER BY c.sequence], ties in arrival order. *)
Definition order_by_sequence (l : list pydict) : list pydict :=
  sorted_by (py_get "sequence") py_lt_total l.

(** [_load_messages] *)
Definition _load_messages (conversation_id : string) (db : database)
    : list pydict :=
  List.map (fun item => dict_del "sequence" (dict_del "id" item))
    (order_by_sequence
       (query_items (field_is "conversation_id" conversation_id) conversation_id
          (messages_container db))).

(** The record stored for one message at position [sequence]. *)
Definition message_item (conversation_id user_id : string) (sequence : pyval)
    (msg : Message) : pydict :=
  dict_set "sequence" sequence
    (dict_set "user_id" (PStr user_id)
       (dict_set "conversation_id" (PStr conversation_id)
          (dict_set "id" (PStr (conversation_id +:+ ":" +:+ message_id msg))
             (_serialize_message msg)))).

(** The same record as it is stored, and as [_load_messages] returns it
    (without [id] and [sequence]). *)
Definition stored_item (conversation_id user_id : string) (sequence : pyval)
    (msg : Message) : pydict :=
  roundtrip_dict (message_item conversation_id user_id sequence msg).

Definition loaded_message (conversation_id user_id : string) (sequence : pyval)
    (msg : Message) : pydict :=
  dict_del "sequence"
    (dict_del "id" (stored_item conversation_id user_id sequence msg)).

(** The items [_save_messages] leaves in the messages container for
    [msgs], numbered from [idx], and the same messages as
    [_load_messages] returns them. *)
Fixpoint stored_entries (conversation_id user_id : string) (idx : Z)
    (msgs : list Message) : container :=
  match msgs with
  | [] => []
  | msg :: msgs' =>
      (conversation_id, conversation_id +:+ ":" +:+ message_id msg,
       stored_item conversation_id user_id (PInt idx) msg)
      :: stored_entries conversation_id user_id (idx + 1) msgs'
  end.

Fixpoint loaded_messages (conversation_id user_id : string) (idx : Z)
    (msgs : list Message) : list pydict :=
  match msgs with
  | [] => []
  | msg :: msgs' =>
      loaded_message conversation_id user_id (PInt idx) msg
      :: loaded_messages conversation_id user_id (idx + 1) msgs'
  end.

(** The id is not in use: no conversation item has it as its [id] or
    names it, and no message item is filed under it. *)
Definition unused_id (conversation_id : string) (db : database) : bool :=
  forallb (fun entry =>
             negb (String.eqb (snd (fst entry)) conversation_id)
             && negb (field_eq "conversation_id" conversation_id (snd entry)))
    (conversation_container db)
  && forallb (fun entry => negb (String.eqb (fst (fst entry)) conversation_id))
       (messages_container db).

(** The insertion loop of [_save_messages], from index [idx] on. *)
Fixpoint insert_messages (conversation_id user_id : string) (idx : Z)
    (msgs : list Message) (c : container) : container :=
  match msgs with
  | [] => c
  | msg :: msgs' =>
      insert_messages conversation_id user_id (idx + 1) msgs'
        (upsert_item "conversation_id"
           (message_item conversation_id user_id (PInt idx) msg) c)
  end.

(** [_save_messages]: nothing at all is done for an empty list. *)
Definition _save_messages (conversation_id user_id : string)
    (msgs : list Message) (db : database) : database * bool :=
  match msgs with
  | [] => (db, true)
  | _ =>
      let db1 := _delete_messages conversation_id db in
      (with_messages db1
         (insert_messages conversation_id user_id 0 msgs (messages_container db1)),
       true)
  end.

(** The metadata record of a conversation: everything but the messages,
    and their count. *)
Definition conversation_dict (conversation : Conversation) (user_id : string)
    : pydict :=
  [("id", PStr (conversation_id conversation));
   ("conversation_id", PStr (conversation_id conversation));
   ("user_id", PStr user_id);
   ("agent_id", PStr (AbstractAgent._id (agent conversation)));
   ("title", PStr (title conversation));
   ("created_at", PStr (conv_created_at conversation));
   ("last_updated_at", PStr (last_updated_at conversation));
   ("message_count", PInt (Z.of_nat (length (messages conversation))));
   ("metadata", PDict (conv_metadata conversation))].

(** [save_conversation]: the messages first, then the metadata record;
    a record [json.dumps] rejects makes the call fail after the messages
    were written. *)
Definition save_conversation (conversation : Conversation) (user_id : string)
    (db : database) : database * bool :=
  let (db1, messages_saved) :=
    _save_messages (conversation_id conversation) user_id
      (messages conversation) db in
  if negb messages_saved then (db1, false)
  else if json_ok (PDict (conversation_dict conversation user_id)) then
    (with_conversations db1
       (upsert_item "user_id" (conversation_dict conversation user_id)
          (conversation_container db1)),
     true)
  else (db1, false).

(** The part of [load_conversation] shared by its two branches: messages
    attached, [id] and [message_count] dropped.  Subscripting a record
    that has an [id] but no [conversation_id] raises, and the [except]
    branch returns [None]. *)
Definition assemble (conversation_id : string) (conversation_metadata : pydict)
    (db : database) : option pydict :=
  let conversation :=
    dict_set "messages" (PList (List.map PDict (_load_messages conversation_id db)))
      conversation_metadata in
  let without_id :=
    match dict_get "id" conversation with
    | None => Some conversation
    | Some i =>
        match dict_get "conversation_id" conversation with
        | None => None
        | Some c =>
            if py_eqb i c then Some (dict_del "id" conversation)
            else Some conversation
        end
    end in
  option_map (fun conversation =>
                if dict_has "message_count" conversation
                then dict_del "message_count" conversation
                else conversation) without_id.

Definition load_conversation (conversation_id user_id : string) (db : database)
    : option pydict :=
  match read_item conversation_id user_id (conversation_container db) with
  | Some conversation_metadata => assemble conversation_id conversation_metadata db
  | None =>
      match query_items
              (fun item => field_is "conversation_id" conversation_id item
                           && field_is "user_id" user_id item)
              user_id (conversation_container db) with
      | [] => None
      | conversation_metadata :: _ =>
          assemble conversation_id conversation_metadata db
      end
  end.

Definition delete_conversation (conversation_id user_id : string)
    (db : database) : database * bool :=
  let db1 := _delete_messages conversation_id db in
  match read_item conversation_id user_id (conversation_container db1) with
  | Some _ =>
      (with_conversations db1
         (delete_item conversation_id user_id (conversation_container db1)),
       true)
  | None => (_delete_messages conversation_id db1, false)
  end.

Definition reset_conversation (now : string) (conversation_id user_id : string)
    (db : database) : database * bool :=
  let db1 := _delete_messages conversation_id db in
  match read_item conversation_id user_id (conversation_container db1) with
  | Some conversation_metadata =>
      (with_conversations db1
         (upsert_item "user_id"
            (dict_set "message_count" (PInt 0)
               (dict_set "last_updated_at" (PStr now) conversation_metadata))
            (conversation_container db1)),
       true)
  | None => (db1, false)
  end.

(** [current_count + 1]; [None] is the [TypeError] of a count that is not
    a number. *)
Definition count_plus_one (current_count : pyval) : option pyval :=
  match current_count with
  | PInt n => Some (PInt (n + 1))
  | PBool b => Some (PInt (Z.b2z b + 1))
  | _ => None
  end.

Definition append_message (now : string) (conversation_id user_id : string)
    (message : Message) (db : database) : database * bool :=
  let owned item :=
    field_is "conversation_id" conversation_id item
    && field_is "user_id" user_id item in
  match query_items owned user_id (conversation_container db) with
  | [] => (db, false)
  | first :: _ =>
      let current_count := dict_get_default "message_count" (PInt 0) first in
      let message_dict :=
        message_item conversation_id user_id current_count message in
      if negb (json_ok (PDict message_dict)) then (db, false)
      else
        let db1 :=
          with_messages db
            (upsert_item "conversation_id" message_dict (messages_container db)) in
        match query_items owned user_id (conversation_container db1),
              count_plus_one current_count with
        | conversation_metadata :: _, Some count =>
            (with_conversations db1
               (upsert_item "user_id"
                  (dict_set "last_updated_at" (PStr now)
                     (dict_set "message_count" count conversation_metadata))
                  (conversation_container db1)),
             true)
        | _, _ => (db1, true)
        end
  end.

(** What the service guarantees of a container partitioned by
    [partition_path]: every item is filed under the value of its own
    partition key and under its own [id]. *)
Definition filed_under_own_keys (partition_path : string) (c : container) : bool :=
  forallb (fun entry =>
             py_eqb (py_get partition_path (snd entry)) (PStr (fst (fst entry)))
             && py_eqb (py_get "id" (snd entry)) (PStr (snd (fst entry)))) c.

(** What [save_conversation] guarantees of the records it writes to the
    conversation container: the record of a conversation is filed under
    its user and its conversation id, which is also its [id]. *)
Definition conversation_records (c : container) : bool :=
  forallb (fun entry =>
             py_eqb (py_get "user_id" (snd entry)) (PStr (fst (fst entry)))
             && py_eqb (py_get "id" (snd entry)) (PStr (snd (fst entry)))
             && py_eqb (py_get "conversation_id" (snd entry))
                  (PStr (snd (fst entry)))) c.

End CosmosDB.

(** ** [core/conversation_service.py] *)

Module ConversationService.

(** The two exceptions the service raises itself:
    [ValueError(f"Agent {agent_id} not available")] and
    [RuntimeError(f"Failed to save conversation {conversation_id}")]. *)
Inductive failure : Type :=
| AgentNotAvailable (agent_id : string)
| SaveFailed (conversation_id : string).

Inductive result (A : Type) : Type :=
| Done (a : A)
| Failed (f : failure).
Arguments Done {A} a.
Arguments Failed {A} f.

Section Service.
Context {P : Type}.

(** [self.persistence_strategy.save_conversation], on a store of type
    [P]. *)
Variable save_conversation : Conversation -> string -> P -> P * bool.

(** The service: its store and its agents by id. *)
Record Service : Type := {
  persistence_strategy : P;
  _agents : dict AbstractAgent.Agent
}.

(** [get_agent_instance]; an agent object is true. *)
Definition get_agent_instance (self : Service) (agent_id : string)
    : option AbstractAgent.Agent :=
  dict_get agent_id (_agents self).

(** The [Conversation] both creating methods build. *)
Definition fresh_conversation (conversation_id now : string)
    (agent : AbstractAgent.Agent) (user_id : string) (title : option string)
    : Conversation :=
  {| conversation_id := conversation_id;
     agent := agent;
     title := match title with
              | Some t => t
              | None => "Conversation with " +:+ AbstractAgent._name agent
              end;
     conv_created_at := now;
     last_updated_at := now;
     messages := [];
     conv_metadata := [("user_id", PStr user_id)] |}.

(** [create_conversation]; [fresh_id] stands for [str(uuid.uuid4())] and
    [now] for [datetime.now()]. *)
Definition create_conversation (fresh_id now : string)
    (agent : AbstractAgent.Agent) (user_id : string) (title : option string)
    (self : Service) : Service * result Conversation :=
  let agents :=
    if dict_has (AbstractAgent._id agent) (_agents self) then _agents self
    else dict_set (AbstractAgent._id agent) agent (_agents self) in
  let conversation := fresh_conversation fresh_id now agent user_id title in
  let (store, success) :=
    save_conversation conversation user_id (persistence_strategy self) in
  ({| persistence_strategy := store; _agents := agents |},
   if success then Done conversation else Failed (SaveFailed fresh_id)).

(** [create_conversation_by_agent_id] *)
Definition create_conversation_by_agent_id (fresh_id now : string)
    (agent_id user_id : string) (title : option string) (self : Service)
    : Service * result Conversation :=
  match get_agent_instance self agent_id with
  | None => (self, Failed (AgentNotAvailable agent_id))
  | Some agent =>
      let conversation := fresh_conversation fresh_id now agent user_id title in
      let (store, success) :=
        save_conversation conversation user_id (persistence_strategy self) in
      ({| persistence_strategy := store; _agents := _agents self |},
       if success then Done conversation else Failed (SaveFailed fresh_id))
  end.

End Service.

End ConversationService.

(** ** Sample values *)

Module Samples.

Definition entry (r c : string) : pydict :=
  [("role", PStr r); ("content", PStr c)].

Definition chat (r c : string) : SemanticKernel.ChatMessageContent :=
  {| SemanticKernel.cm_role := r; SemanticKernel.cm_content := c |}.

(** A history of one system message and three turns, as both agents hold
    it. *)
Definition history : list pydict :=
  [entry "system" "You add numbers."; entry "user" "What is 6 + 3?";
   entry "assistant" "9"; entry "user" "And 2 + 2?"].

Definition chat_history : list SemanticKernel.ChatMessageContent :=
  [chat "system" "You add numbers."; chat "user" "What is 6 + 3?";
   chat "assistant" "9"; chat "user" "And 2 + 2?"].

Definition math_agent : AbstractAgent.Agent :=
  {| AbstractAgent._id := "math"; AbstractAgent._name := "Math Agent";
     AbstractAgent._description := "Adds numbers";
     AbstractAgent._prompt := "You add numbers.";
     AbstractAgent._tools := ∅;
     AbstractAgent._settings := [("max_history_length", PInt 2)] |}.

Definition add_tool_1 : Tool :=
  {| tool_name := "Add"; tool_description := "Add two numbers";
     tool_function := fun _ => PInt 0 |}.

Definition add_tool_2 : Tool :=
  {| tool_name := "Add"; tool_description := "Another tool called Add";
     tool_function := fun _ => PInt 1 |}.

(** The agent once [add_tool_1] is registered. *)
Definition math_agent_with_add : AbstractAgent.Agent :=
  AbstractAgent.set_tools math_agent {[ "Add" := add_tool_1 ]}.

(** The two agents as constructed from [a] when its settings give a
    history bound of 2, with nothing in their history yet. *)
Definition llama_agent (a : AbstractAgent.Agent) : LlamaIndex.Agent :=
  {| LlamaIndex.base := a; LlamaIndex._tool_usage := [];
     LlamaIndex._chat_history := []; LlamaIndex._attachments := [];
     LlamaIndex._max_history_length := 2 |}.

Definition sk_agent (a : AbstractAgent.Agent) : SemanticKernel.Agent :=
  {| SemanticKernel.base := a; SemanticKernel._chat := [];
     SemanticKernel._tool_usage := []; SemanticKernel._attachments := [];
     SemanticKernel._max_history_length := 2 |}.

(** Three persisted turns, as loose mappings. *)
Definition three_records : list SemanticKernel.record :=
  [SemanticKernel.RDict (entry "user" "What is 6 + 3?");
   SemanticKernel.RDict (entry "assistant" "9");
   SemanticKernel.RDict (entry "user" "And 2 + 2?")].

(** A framework whose call fails. *)
Definition timeout : exn := Exception "Request timed out.".

Definition failing_invoke (chat : list SemanticKernel.ChatMessageContent)
    : SemanticKernel.Invocation :=
  {| SemanticKernel.used_tools := []; SemanticKernel.produced := [];
     SemanticKernel.yielded := []; SemanticKernel.failure := Some timeout |}.

Definition failing_aquery (previous : list pydict) (message : string)
    : LlamaIndex.Invocation :=
  {| LlamaIndex.used_tools := []; LlamaIndex.produced := [];
     LlamaIndex.answer := Raised timeout |}.

(** Messages and conversations. *)
Definition chart : Attachment :=
  Graph {| graph_type := BAR; graph_data_description := "Sums";
           dataset_json := "[]"; graph_x := "n"; graph_y := ["sum"] |}.

Definition message_1 : Message :=
  {| message_id := "m1"; role := "user"; content := "What is 6 + 3?";
     created_at := "2024-05-01T10:00:00"; citations := [];
     metadata := [("user_id", PStr "alice")]; attachments := [] |}.

Definition message_2 : Message :=
  {| message_id := "m2"; role := "assistant"; content := "9";
     created_at := "2024-05-01T10:00:01"; citations := [];
     metadata := [("tool_usage", PList [])]; attachments := [chart] |}.

Definition message_3 : Message :=
  {| message_id := "m3"; role := "user"; content := "And 2 + 2?";
     created_at := "2024-05-01T10:00:02"; citations := [];
     metadata := [("user_id", PStr "alice")]; attachments := [] |}.

(** A message whose metadata nests a dictionary with a tuple key,
    [{"board": {(1, 2): "knight"}}], which [json.dumps] rejects. *)
Definition keyed_message : Message :=
  {| message_id := "m4"; role := "user"; content := "Where is the knight?";
     created_at := "2024-05-01T10:00:03"; citations := [];
     metadata := [("board", PMap [(PTuple [PInt 1; PInt 2], PStr "knight")])];
     attachments := [] |}.

(** A conversation as [create_conversation] makes it, and the same
    conversation holding one message with an attachment. *)
Definition new_conversation : Conversation :=
  {| conversation_id := "c1"; agent := math_agent;
     title := "Conversation with Math Agent";
     conv_created_at := "2024-05-01T09:59:00";
     last_updated_at := "2024-05-01T09:59:00";
     messages := []; conv_metadata := [("user_id", PStr "alice")] |}.

Definition answered_conversation : Conversation :=
  {| conversation_id := "c1"; agent := math_agent;
     title := "Conversation with Math Agent";
     conv_created_at := "2024-05-01T09:59:00";
     last_updated_at := "2024-05-01T10:00:01";
     messages := [message_2]; conv_metadata := [("user_id", PStr "alice")] |}.

(** An older conversation of the same user. *)
Definition older_conversation : Conversation :=
  {| conversation_id := "c2"; agent := math_agent;
     title := "Conversation with Math Agent";
     conv_created_at := "2024-04-01T08:00:00";
     last_updated_at := "2024-04-01T08:00:00";
     messages := []; conv_metadata := [("user_id", PStr "alice")] |}.

(** The three stores once [alice] has saved the answered conversation. *)
Definition alice_store : InMemory.store :=
  fst (InMemory.save_conversation answered_conversation "alice" []).

(** The store once [alice] has saved both conversations. *)
Definition alice_two_store : InMemory.store :=
  fst (InMemory.save_conversation answered_conversation "alice"
         (fst (InMemory.save_conversation older_conversation "alice" []))).

Definition alice_database : CosmosDB.database :=
  fst (CosmosDB.save_conversation answered_conversation "alice"
         {| CosmosDB.conversation_container := [];
            CosmosDB.messages_container := [] |}).

(** The directory once [alice] has saved both conversations, and once
    [alice_smith] has saved one. *)
Definition alice_directory : gmap string JsonFile.file :=
  fst (JsonFile.save_conversation older_conversation "alice"
         (fst (JsonFile.save_conversation answered_conversation "alice" ∅))).

Definition alice_smith_directory : gmap string JsonFile.file :=
  fst (JsonFile.save_conversation answered_conversation "alice_smith" ∅).

Definition empty_database : CosmosDB.database :=
  {| CosmosDB.conversation_container := [];
     CosmosDB.messages_container := [] |}.

(** The three stores once [alice] has saved the new conversation, which
    has no message yet. *)
Definition new_store : InMemory.store :=
  fst (InMemory.save_conversation new_conversation "alice" []).

Definition new_directory : gmap string JsonFile.file :=
  fst (JsonFile.save_conversation new_conversation "alice" ∅).

Definition new_database : CosmosDB.database :=
  fst (CosmosDB.save_conversation new_conversation "alice" empty_database).

(** A second tool, under another name. *)
Definition subtract_tool : Tool :=
  {| tool_name := "Subtract"; tool_description := "Subtract two numbers";
     tool_function := fun _ => PInt 0 |}.

(** The conversation with its first two messages, and one whose metadata
    holds a [datetime], which [json.dumps] rejects. *)
Definition two_message_conversation : Conversation :=
  {| conversation_id := "c1"; agent := math_agent;
     title := "Conversation with Math Agent";
     conv_created_at := "2024-05-01T09:59:00";
     last_updated_at := "2024-05-01T10:00:01";
     messages := [message_1; message_2];
     conv_metadata := [("user_id", PStr "alice")] |}.

Definition dated_conversation : Conversation :=
  {| conversation_id := "c1"; agent := math_agent;
     title := "Conversation with Math Agent";
     conv_created_at := "2024-05-01T09:59:00";
     last_updated_at := "2024-05-01T10:00:01";
     messages := [];
     conv_metadata := [("opened", PDatetime "2024-05-01T09:59:00")] |}.

(** A service over the in-memory store of [alice], with the math agent
    registered. *)
Definition memory_service : ConversationService.Service :=
  {| ConversationService.persistence_strategy := alice_store;
     ConversationService._agents := [("math", math_agent)] |}.

(** A service over the directory of [alice]. *)
Definition file_service : ConversationService.Service :=
  {| ConversationService.persistence_strategy := alice_directory;
     ConversationService._agents := [("math", math_agent)] |}.

End Samples.

(** * Properties *)

(** ** Slices and filters *)

Section ListFacts.
Context {A : Type}.

Lemma py_slice_tail (n : Z) (l : list A) :
  0 < n -> py_slice (Some (- n)) None l = skipn (length l - Z.to_nat n) l.
Proof.
  intros Hn. unfold py_slice, py_index.
  assert (Hneg : (- n <? 0) = true) by (apply Z.ltb_lt; lia).
  rewrite Hneg.
  assert (Hlo : Z.to_nat (Z.max 0 (- n + Z.of_nat (length l)))
                = (length l - Z.to_nat n)%nat) by lia.
  rewrite Hlo. apply firstn_all2. rewrite length_skipn. lia.
Qed.

Lemma py_slice_tail_length (n : Z) (l : list A) :
  0 < n -> Z.of_nat (length (py_slice (Some (- n)) None l)) <= n.
Proof.
  intros Hn. rewrite py_slice_tail by assumption. rewrite length_skipn. lia.
Qed.

Lemma py_slice_tail_all (n : Z) (l : list A) :
  0 < n -> Z.of_nat (length l) <= n -> py_slice (Some (- n)) None l = l.
Proof.
  intros Hn Hl. rewrite py_slice_tail by assumption.
  replace (length l - Z.to_nat n)%nat with 0%nat by lia. reflexivity.
Qed.

Lemma py_slice_tail_suffix (n : Z) (l : list A) :
  0 < n -> exists dropped, l = dropped ++ py_slice (Some (- n)) None l.
Proof.
  intros Hn. exists (firstn (length l - Z.to_nat n) l).
  rewrite py_slice_tail by assumption. symmetry. apply firstn_skipn.
Qed.

Lemma py_slice_but_last (l : list A) (x : A) :
  py_slice None (Some (-1)) (l ++ [x]) = l.
Proof.
  unfold py_slice, py_index. change (-1 <? 0) with true. cbv iota.
  rewrite length_app. simpl length.
  replace (Z.to_nat (Z.max 0 (-1 + Z.of_nat (length l + 1)) - 0))
    with (length l) by lia.
  change (Z.to_nat 0) with 0%nat. rewrite drop_0.
  rewrite firstn_app, Nat.sub_diag. simpl.
  rewrite firstn_all, app_nil_r. reflexivity.
Qed.

Lemma filter_all (p : A -> bool) (l : list A) :
  (forall x, In x l -> p x = true) -> List.filter p l = l.
Proof.
  induction l as [|x l IH]; simpl; intros H; [reflexivity|].
  rewrite (H x) by (left; reflexivity). f_equal. apply IH.
  intros y Hy. apply H. right. exact Hy.
Qed.

Lemma filter_nothing (p : A -> bool) (l : list A) :
  (forall x, In x l -> p x = false) -> List.filter p l = [].
Proof.
  induction l as [|x l IH]; simpl; intros H; [reflexivity|].
  rewrite (H x) by (left; reflexivity). apply IH.
  intros y Hy. apply H. right. exact Hy.
Qed.

End ListFacts.

(** ** The history pruner *)

Section Pruner.
Context {A : Type} (sys : A -> bool).

(** The non-system messages both pruners and [update_chat_history] keep:
    the last [remaining] ones, none when [remaining] is not positive. *)
Lemma recent_length (remaining : Z) (l : list A) :
  Z.of_nat (length (if remaining >? 0
                    then py_slice (Some (- remaining)) None l else []))
  <= Z.max 0 remaining.
Proof.
  destruct (remaining >? 0) eqn:E.
  - apply Z.gtb_lt in E. pose proof (py_slice_tail_length remaining l E). lia.
  - simpl. lia.
Qed.

Lemma recent_suffix (remaining : Z) (l : list A) :
  exists dropped,
    l = dropped ++ (if remaining >? 0
                    then py_slice (Some (- remaining)) None l else []).
Proof.
  destruct (remaining >? 0) eqn:E.
  - apply py_slice_tail_suffix. apply Z.gtb_lt. exact E.
  - exists l. symmetry. apply app_nil_r.
Qed.

Lemma recent_in (remaining : Z) (l : list A) (x : A) :
  In x (if remaining >? 0 then py_slice (Some (- remaining)) None l else [])
  -> In x l.
Proof.
  destruct (recent_suffix remaining l) as [dropped Hd].
  intros Hx. rewrite Hd. apply in_or_app. right. exact Hx.
Qed.

(** Taking the last [remaining] of a list that already fits is the
    identity. *)
Lemma recent_fits (remaining : Z) (l : list A) :
  Z.of_nat (length l) <= Z.max 0 remaining ->
  (if remaining >? 0 then py_slice (Some (- remaining)) None l else []) = l.
Proof.
  intros Hl. destruct (remaining >? 0) eqn:E.
  - apply Z.gtb_lt in E. apply py_slice_tail_all; lia.
  - assert (remaining <= 0) by (destruct (Z.gtb_spec remaining 0); [discriminate|lia]).
    destruct l; [reflexivity|]. simpl in Hl. lia.
Qed.

(** A list made of the system messages followed by kept non-system ones
    splits back into these two parts. *)
Lemma filter_sys_app (s r : list A) :
  (forall x, In x s -> sys x = true) ->
  (forall x, In x r -> sys x = false) ->
  List.filter sys (s ++ r) = s
  /\ List.filter (fun x => negb (sys x)) (s ++ r) = r.
Proof.
  intros Hs Hr. rewrite !List.filter_app. split.
  - rewrite (filter_all sys s Hs), (filter_nothing sys r Hr). apply app_nil_r.
  - rewrite (filter_nothing (fun x => negb (sys x)) s),
            (filter_all (fun x => negb (sys x)) r).
    + reflexivity.
    + intros x Hx. rewrite (Hr x Hx). reflexivity.
    + intros x Hx. rewrite (Hs x Hx). reflexivity.
Qed.

Lemma filter_sys_true (l : list A) (x : A) :
  In x (List.filter sys l) -> sys x = true.
Proof. intros H. apply List.filter_In in H. tauto. Qed.

Lemma filter_nonsys_false (l : list A) (x : A) :
  In x (List.filter (fun y => negb (sys y)) l) -> sys x = false.
Proof.
  intros H. apply List.filter_In in H. destruct H as [_ H].
  destruct (sys x); [discriminate|reflexivity].
Qed.

End Pruner.

Module LlamaIndexFacts.
Import LlamaIndex.

Lemma llama_prune_below (bound : Z) (H : list pydict) :
  Z.of_nat (length H) < bound -> prune bound H = H.
Proof.
  intros Hlt. unfold prune.
  destruct (Z.geb_spec (Z.of_nat (length H)) bound); [lia|reflexivity].
Qed.

Lemma llama_prune_at_bound (bound : Z) (H : list pydict) :
  Z.of_nat (length H) >= bound ->
  prune bound H =
    List.filter is_system H
    ++ (if Z.max 0 (bound - Z.of_nat (count_system H)) >? 0
        then py_slice (Some (- Z.max 0 (bound - Z.of_nat (count_system H)))) None
               (List.filter (fun msg => negb (is_system msg)) H)
        else []).
Proof.
  intros Hge. unfold prune, count_system.
  destruct (Z.geb_spec (Z.of_nat (length H)) bound); [reflexivity|lia].
Qed.

Lemma llama_prune_length (bound : Z) (H : list pydict) :
  Z.of_nat (length H) >= bound ->
  Z.of_nat (length (prune bound H)) <= Z.max bound (Z.of_nat (count_system H)).
Proof.
  intros Hge. rewrite llama_prune_at_bound by assumption.
  rewrite length_app, Nat2Z.inj_add.
  pose proof (recent_length (Z.max 0 (bound - Z.of_nat (count_system H)))
                (List.filter (fun msg => negb (is_system msg)) H)) as Hr.
  unfold count_system in *. lia.
Qed.

Lemma llama_prune_keeps_system (bound : Z) (H : list pydict) (msg : pydict) :
  In msg H -> is_system msg = true -> In msg (prune bound H).
Proof.
  intros Hin Hsys. unfold prune.
  destruct (Z.of_nat (length H) >=? bound); [|exact Hin].
  apply in_or_app. left. apply List.filter_In. split; assumption.
Qed.

(** The two role partitions of a pruned history. *)
Lemma llama_prune_partitions (bound : Z) (H : list pydict) :
  List.filter is_system (prune bound H) = List.filter is_system H
  /\ exists dropped,
       List.filter (fun msg => negb (is_system msg)) H
       = dropped ++ List.filter (fun msg => negb (is_system msg)) (prune bound H).
Proof.
  destruct (Z.geb_spec (Z.of_nat (length H)) bound) as [Hge|Hlt].
  - rewrite llama_prune_at_bound by lia.
    set (remaining := Z.max 0 (bound - Z.of_nat (count_system H))).
    set (non := List.filter (fun msg => negb (is_system msg)) H).
    destruct (filter_sys_app is_system (List.filter is_system H)
                (if remaining >? 0 then py_slice (Some (- remaining)) None non else []))
      as [Hs Hn].
    + intros x Hx. eapply filter_sys_true. exact Hx.
    + intros x Hx. apply recent_in in Hx. eapply filter_nonsys_false. exact Hx.
    + rewrite Hs, Hn. split; [reflexivity|]. apply recent_suffix.
  - rewrite llama_prune_below by lia. split; [reflexivity|]. exists []. reflexivity.
Qed.

Lemma llama_prune_idempotent (bound : Z) (H : list pydict) :
  prune bound (prune bound H) = prune bound H.
Proof.
  destruct (Z.geb_spec (Z.of_nat (length H)) bound) as [Hge|Hlt].
  - destruct (Z.geb_spec (Z.of_nat (length (prune bound H))) bound) as [Hge'|Hlt'].
    + rewrite (llama_prune_at_bound bound (prune bound H)) by lia.
      rewrite (llama_prune_at_bound bound H) at 3 by lia.
      set (remaining := Z.max 0 (bound - Z.of_nat (count_system H))).
      set (non := List.filter (fun msg => negb (is_system msg)) H).
      set (recent := if remaining >? 0
                     then py_slice (Some (- remaining)) None non else []).
      assert (Hp : prune bound H = List.filter is_system H ++ recent)
        by (apply llama_prune_at_bound; lia).
      destruct (filter_sys_app is_system (List.filter is_system H) recent)
        as [Hs Hn].
      * intros x Hx. eapply filter_sys_true. exact Hx.
      * intros x Hx. apply recent_in in Hx. eapply filter_nonsys_false. exact Hx.
      * unfold count_system. rewrite Hp, Hs, Hn.
        fold (count_system H). fold remaining.
        f_equal. apply recent_fits.
        pose proof (recent_length remaining non) as Hr. fold recent in Hr.
        lia.
    + apply llama_prune_below. lia.
  - rewrite (llama_prune_below bound H) by lia. apply llama_prune_below. lia.
Qed.

Lemma llama_prune_system_first (bound : Z) (H : list pydict) :
  Z.of_nat (length H) >= bound ->
  prune bound H =
    List.filter is_system (prune bound H)
    ++ List.filter (fun msg => negb (is_system msg)) (prune bound H).
Proof.
  intros Hge. rewrite llama_prune_at_bound by assumption.
  set (remaining := Z.max 0 (bound - Z.of_nat (count_system H))).
  set (non := List.filter (fun msg => negb (is_system msg)) H).
  destruct (filter_sys_app is_system (List.filter is_system H)
              (if remaining >? 0 then py_slice (Some (- remaining)) None non else []))
    as [Hs Hn].
  - intros x Hx. eapply filter_sys_true. exact Hx.
  - intros x Hx. apply recent_in in Hx. eapply filter_nonsys_false. exact Hx.
  - rewrite Hs, Hn. reflexivity.
Qed.

End LlamaIndexFacts.

Module SemanticKernelFacts.
Import SemanticKernel.

Lemma readd_cases (msg : ChatMessageContent) :
  readd msg = [msg] \/ readd msg = [].
Proof.
  unfold readd. destruct msg as [r c]. simpl.
  destruct (String.eqb_spec r "system") as [->|_]; [left; reflexivity|].
  destruct (String.eqb_spec r "user") as [->|_]; [left; reflexivity|].
  destruct (String.eqb_spec r "assistant") as [->|_]; [left; reflexivity|].
  right. reflexivity.
Qed.

Lemma readd_system (msg : ChatMessageContent) :
  is_system msg = true -> readd msg = [msg].
Proof.
  unfold is_system, readd. destruct msg as [r c]. simpl.
  intros H. rewrite H. apply String.eqb_eq in H. subst r. reflexivity.
Qed.

Lemma readd_all_system (l : list ChatMessageContent) :
  (forall x, In x l -> is_system x = true) -> flat_map readd l = l.
Proof.
  induction l as [|x l IH]; simpl; intros H; [reflexivity|].
  rewrite readd_system by (apply H; left; reflexivity).
  simpl. f_equal. apply IH. intros y Hy. apply H. right. exact Hy.
Qed.

Lemma readd_length (l : list ChatMessageContent) :
  (length (flat_map readd l) <= length l)%nat.
Proof.
  induction l as [|x l IH]; simpl; [lia|].
  rewrite length_app. destruct (readd_cases x) as [-> | ->]; simpl; lia.
Qed.

Lemma readd_sublist (l : list ChatMessageContent) :
  flat_map readd l `sublist_of` l.
Proof.
  induction l as [|x l IH]; simpl; [constructor|].
  destruct (readd_cases x) as [-> | ->]; simpl.
  - apply sublist_skip. exact IH.
  - apply sublist_cons. exact IH.
Qed.

Lemma readd_in (l : list ChatMessageContent) (x : ChatMessageContent) :
  In x (flat_map readd l) -> In x l.
Proof.
  induction l as [|y l IH]; simpl; [tauto|].
  intros H. apply in_app_or in H. destruct H as [H|H].
  - destruct (readd_cases y) as [E | E]; rewrite E in H; simpl in H; tauto.
  - right. apply IH. exact H.
Qed.

Lemma readd_twice (l : list ChatMessageContent) :
  flat_map readd (flat_map readd l) = flat_map readd l.
Proof.
  induction l as [|x l IH]; simpl; [reflexivity|].
  rewrite flat_map_app, IH. f_equal.
  destruct (readd_cases x) as [E | E]; rewrite E; simpl; [|reflexivity].
  rewrite E. reflexivity.
Qed.

Lemma sk_prune_below (bound : Z) (H : list ChatMessageContent) :
  Z.of_nat (length H) < bound -> prune bound H = H.
Proof.
  intros Hlt. unfold prune.
  destruct (Z.geb_spec (Z.of_nat (length H)) bound); [lia|reflexivity].
Qed.

Lemma sk_prune_at_bound (bound : Z) (H : list ChatMessageContent) :
  Z.of_nat (length H) >= bound ->
  prune bound H =
    List.filter is_system H
    ++ flat_map readd
         (if Z.max 0 (bound - Z.of_nat (count_system H)) >? 0
          then py_slice (Some (- Z.max 0 (bound - Z.of_nat (count_system H)))) None
                 (List.filter (fun msg => negb (is_system msg)) H)
          else []).
Proof.
  intros Hge. unfold prune, count_system.
  destruct (Z.geb_spec (Z.of_nat (length H)) bound); [|lia].
  rewrite flat_map_app. f_equal. apply readd_all_system.
  intros x Hx. eapply filter_sys_true. exact Hx.
Qed.

Lemma sk_prune_length (bound : Z) (H : list ChatMessageContent) :
  Z.of_nat (length H) >= bound ->
  Z.of_nat (length (prune bound H)) <= Z.max bound (Z.of_nat (count_system H)).
Proof.
  intros Hge. rewrite sk_prune_at_bound by assumption.
  rewrite length_app, Nat2Z.inj_add.
  set (remaining := Z.max 0 (bound - Z.of_nat (count_system H))).
  set (non := List.filter (fun msg => negb (is_system msg)) H).
  pose proof (recent_length remaining non) as Hr.
  pose proof (readd_length
    (if remaining >? 0 then py_slice (Some (- remaining)) None non else [])) as Hl.
  fold (count_system H). lia.
Qed.

Lemma sk_prune_keeps_system (bound : Z) (H : list ChatMessageContent)
    (msg : ChatMessageContent) :
  In msg H -> is_system msg = true -> In msg (prune bound H).
Proof.
  intros Hin Hsys.
  destruct (Z.geb_spec (Z.of_nat (length H)) bound) as [Hge|Hlt].
  - rewrite sk_prune_at_bound by lia. apply in_or_app. left.
    apply List.filter_In. split; assumption.
  - rewrite sk_prune_below by lia. exact Hin.
Qed.

(** The two role partitions of a pruned history. *)
Lemma sk_prune_partitions (bound : Z) (H : list ChatMessageContent) :
  List.filter is_system (prune bound H) = List.filter is_system H
  /\ List.filter (fun msg => negb (is_system msg)) (prune bound H)
     `sublist_of` List.filter (fun msg => negb (is_system msg)) H.
Proof.
  destruct (Z.geb_spec (Z.of_nat (length H)) bound) as [Hge|Hlt].
  - rewrite sk_prune_at_bound by lia.
    set (remaining := Z.max 0 (bound - Z.of_nat (count_system H))).
    set (non := List.filter (fun msg => negb (is_system msg)) H).
    set (recent := if remaining >? 0
                   then py_slice (Some (- remaining)) None non else []).
    destruct (filter_sys_app is_system (List.filter is_system H)
                (flat_map readd recent)) as [Hs Hn].
    + intros x Hx. eapply filter_sys_true. exact Hx.
    + intros x Hx. apply readd_in in Hx. apply recent_in in Hx.
      eapply filter_nonsys_false. exact Hx.
    + rewrite Hs, Hn. split; [reflexivity|].
      transitivity recent; [apply readd_sublist|].
      destruct (recent_suffix remaining non) as [dropped Hd].
      fold recent in Hd. rewrite Hd at 1. apply sublist_inserts_l. reflexivity.
  - rewrite sk_prune_below by lia. split; reflexivity.
Qed.

Lemma sk_prune_idempotent (bound : Z) (H : list ChatMessageContent) :
  prune bound (prune bound H) = prune bound H.
Proof.
  destruct (Z.geb_spec (Z.of_nat (length H)) bound) as [Hge|Hlt].
  - destruct (Z.geb_spec (Z.of_nat (length (prune bound H))) bound) as [Hge'|Hlt'].
    + rewrite (sk_prune_at_bound bound (prune bound H)) by lia.
      set (remaining := Z.max 0 (bound - Z.of_nat (count_system H))).
      set (non := List.filter (fun msg => negb (is_system msg)) H).
      set (recent := if remaining >? 0
                     then py_slice (Some (- remaining)) None non else []).
      assert (Hp : prune bound H = List.filter is_system H ++ flat_map readd recent)
        by (apply sk_prune_at_bound; lia).
      destruct (filter_sys_app is_system (List.filter is_system H)
                  (flat_map readd recent)) as [Hs Hn].
      * intros x Hx. eapply filter_sys_true. exact Hx.
      * intros x Hx. apply readd_in in Hx. apply recent_in in Hx.
        eapply filter_nonsys_false. exact Hx.
      * unfold count_system. rewrite Hp, Hs, Hn.
        fold (count_system H). fold remaining.
        f_equal. rewrite recent_fits.
        -- apply readd_twice.
        -- pose proof (recent_length remaining non) as Hr. fold recent in Hr.
           pose proof (readd_length recent). lia.
    + apply sk_prune_below. lia.
  - rewrite (sk_prune_below bound H) by lia. apply sk_prune_below. lia.
Qed.

Lemma sk_prune_system_first (bound : Z) (H : list ChatMessageContent) :
  Z.of_nat (length H) >= bound ->
  prune bound H =
    List.filter is_system (prune bound H)
    ++ List.filter (fun msg => negb (is_system msg)) (prune bound H).
Proof.
  intros Hge. rewrite sk_prune_at_bound by assumption.
  set (remaining := Z.max 0 (bound - Z.of_nat (count_system H))).
  set (non := List.filter (fun msg => negb (is_system msg)) H).
  set (recent := if remaining >? 0
                 then py_slice (Some (- remaining)) None non else []).
  destruct (filter_sys_app is_system (List.filter is_system H)
              (flat_map readd recent)) as [Hs Hn].
  - intros x Hx. eapply filter_sys_true. exact Hx.
  - intros x Hx. apply readd_in in Hx. apply recent_in in Hx.
    eapply filter_nonsys_false. exact Hx.
  - rewrite Hs, Hn. reflexivity.
Qed.

End SemanticKernelFacts.

(** ** The pruner's contract *)

(** C4: for a history at or above the bound, the pruned history is no
    longer than the larger of the bound and the number of system messages,
    and every system message of the history is still in it; below the
    bound pruning changes nothing.  Both agent backends. *)
Theorem prune_bounded_keeps_system
    (bound : Z) (H : list pydict) (K : list SemanticKernel.ChatMessageContent) :
  (Z.of_nat (length H) >= bound ->
     Z.of_nat (length (LlamaIndex.prune bound H))
       <= Z.max bound (Z.of_nat (LlamaIndex.count_system H))
     /\ forall msg, In msg H -> LlamaIndex.is_system msg = true ->
                    In msg (LlamaIndex.prune bound H))
  /\ (Z.of_nat (length H) < bound -> LlamaIndex.prune bound H = H)
  /\ (Z.of_nat (length K) >= bound ->
        Z.of_nat (length (SemanticKernel.prune bound K))
          <= Z.max bound (Z.of_nat (SemanticKernel.count_system K))
        /\ forall msg, In msg K -> SemanticKernel.is_system msg = true ->
                       In msg (SemanticKernel.prune bound K))
  /\ (Z.of_nat (length K) < bound -> SemanticKernel.prune bound K = K).
Proof.
  repeat split.
  - apply LlamaIndexFacts.llama_prune_length. assumption.
  - intros msg. apply LlamaIndexFacts.llama_prune_keeps_system.
  - apply LlamaIndexFacts.llama_prune_below.
  - apply SemanticKernelFacts.sk_prune_length. assumption.
  - intros msg. apply SemanticKernelFacts.sk_prune_keeps_system.
  - apply SemanticKernelFacts.sk_prune_below.
Qed.

(** The contract on the sample history, with a bound of 3 (pruning
    applies) and of 20 (it does not). *)
Lemma prune_bounded_keeps_system_witness :
  (Z.of_nat (length Samples.history) >= 3
   /\ Z.of_nat (length (LlamaIndex.prune 3 Samples.history)) <= 3
   /\ In (Samples.entry "system" "You add numbers.")
         (LlamaIndex.prune 3 Samples.history))
  /\ (Z.of_nat (length Samples.history) < 20
      /\ LlamaIndex.prune 20 Samples.history = Samples.history)
  /\ (Z.of_nat (length Samples.chat_history) >= 3
      /\ Z.of_nat (length (SemanticKernel.prune 3 Samples.chat_history)) <= 3
      /\ In (Samples.chat "system" "You add numbers.")
            (SemanticKernel.prune 3 Samples.chat_history))
  /\ (Z.of_nat (length Samples.chat_history) < 20
      /\ SemanticKernel.prune 20 Samples.chat_history = Samples.chat_history).
Proof.
  destruct (prune_bounded_keeps_system 3 Samples.history Samples.chat_history)
    as (HL & _ & HK & _).
  destruct (prune_bounded_keeps_system 20 Samples.history Samples.chat_history)
    as (_ & HL' & _ & HK').
  assert (G3 : Z.of_nat (length Samples.history) >= 3)
    by (vm_compute; discriminate).
  assert (G3' : Z.of_nat (length Samples.chat_history) >= 3)
    by (vm_compute; discriminate).
  assert (L20 : Z.of_nat (length Samples.history) < 20) by reflexivity.
  assert (L20' : Z.of_nat (length Samples.chat_history) < 20) by reflexivity.
  split; [|split; [|split]].
  - destruct (HL G3) as [Hlen Hsys]. split; [exact G3|]. split.
    + exact Hlen.
    + apply Hsys; [left; reflexivity|reflexivity].
  - split; [exact L20|]. apply HL'. exact L20.
  - destruct (HK G3') as [Hlen Hsys]. split; [exact G3'|]. split.
    + exact Hlen.
    + apply Hsys; [left; reflexivity|reflexivity].
  - split; [exact L20'|]. apply HK'. exact L20'.
Defined.

(** C5: pruning twice is pruning once, and pruning keeps the order inside
    each role partition: the system messages of the pruned history are
    those of the history, in the same order; its other messages are a
    subsequence of the history's other messages; and whenever pruning
    applies the result is the first partition followed by the second.
    Both agent backends. *)
Theorem prune_idempotent_order_preserving
    (bound : Z) (H : list pydict) (K : list SemanticKernel.ChatMessageContent) :
  (LlamaIndex.prune bound (LlamaIndex.prune bound H) = LlamaIndex.prune bound H
   /\ List.filter LlamaIndex.is_system (LlamaIndex.prune bound H)
      = List.filter LlamaIndex.is_system H
   /\ List.filter (fun msg => negb (LlamaIndex.is_system msg))
        (LlamaIndex.prune bound H)
      `sublist_of` List.filter (fun msg => negb (LlamaIndex.is_system msg)) H
   /\ (LlamaIndex.prune bound H = H
       \/ LlamaIndex.prune bound H
          = List.filter LlamaIndex.is_system (LlamaIndex.prune bound H)
            ++ List.filter (fun msg => negb (LlamaIndex.is_system msg))
                 (LlamaIndex.prune bound H)))
  /\ (SemanticKernel.prune bound (SemanticKernel.prune bound K)
      = SemanticKernel.prune bound K
      /\ List.filter SemanticKernel.is_system (SemanticKernel.prune bound K)
         = List.filter SemanticKernel.is_system K
      /\ List.filter (fun msg => negb (SemanticKernel.is_system msg))
           (SemanticKernel.prune bound K)
         `sublist_of`
         List.filter (fun msg => negb (SemanticKernel.is_system msg)) K
      /\ (SemanticKernel.prune bound K = K
          \/ SemanticKernel.prune bound K
             = List.filter SemanticKernel.is_system (SemanticKernel.prune bound K)
               ++ List.filter (fun msg => negb (SemanticKernel.is_system msg))
                    (SemanticKernel.prune bound K))).
Proof.
  split.
  - split; [apply LlamaIndexFacts.llama_prune_idempotent|].
    destruct (LlamaIndexFacts.llama_prune_partitions bound H) as [Hs [dropped Hd]].
    split; [exact Hs|]. split.
    + rewrite Hd. apply sublist_inserts_l. reflexivity.
    + destruct (Z.geb_spec (Z.of_nat (length H)) bound).
      * right. apply LlamaIndexFacts.llama_prune_system_first. lia.
      * left. apply LlamaIndexFacts.llama_prune_below. lia.
  - split; [apply SemanticKernelFacts.sk_prune_idempotent|].
    destruct (SemanticKernelFacts.sk_prune_partitions bound K) as [Hs Hn].
    split; [exact Hs|]. split; [exact Hn|].
    destruct (Z.geb_spec (Z.of_nat (length K)) bound).
    + right. apply SemanticKernelFacts.sk_prune_system_first. lia.
    + left. apply SemanticKernelFacts.sk_prune_below. lia.
Qed.

(** ** Sorting *)

Section SortFacts.
Context {A K : Type} (key : A -> K) (lt : K -> K -> bool).

Lemma insert_sorted_perm (x : A) (l : list A) :
  Permutation (insert_sorted key lt x l) (x :: l).
Proof.
  induction l as [|y l IH]; simpl; [reflexivity|].
  destruct (lt (key y) (key x)).
  - rewrite IH. apply perm_swap.
  - reflexivity.
Qed.

Lemma sorted_by_perm (l : list A) : Permutation (sorted_by key lt l) l.
Proof.
  induction l as [|x l IH]; simpl; [reflexivity|].
  rewrite insert_sorted_perm. constructor. exact IH.
Qed.

End SortFacts.

Lemma py_sorted_perm {A} (key : A -> pyval) (reverse : bool) (l l' : list A) :
  py_sorted key reverse l = Some l' -> Permutation l' l.
Proof.
  unfold py_sorted. destruct l as [|x [|y l]].
  - intros [= <-]. reflexivity.
  - intros [= <-]. reflexivity.
  - destruct (comparable_keys _); [|discriminate].
    intros [= <-]. apply (sorted_by_perm key _ (x :: y :: l)).
Qed.

(** ** [update_chat_history] and the history bound *)

Lemma sk_add_record_length (l : list SemanticKernel.record) :
  (length (flat_map SemanticKernel.add_record l) <= length l)%nat.
Proof.
  induction l as [|x l IH]; simpl; [lia|].
  rewrite length_app.
  assert (length (SemanticKernel.add_record x) <= 1)%nat.
  { unfold SemanticKernel.add_record.
    repeat match goal with |- context [if ?b then _ else _] => destruct b end;
      simpl; lia. }
  lia.
Qed.

Lemma sk_sort_by_created_at_length (l : list SemanticKernel.record) :
  length (SemanticKernel.sort_by_created_at l) = length l.
Proof.
  unfold SemanticKernel.sort_by_created_at.
  destruct (py_sorted _ false l) as [l'|] eqn:E; [|reflexivity].
  apply Permutation_length. eapply py_sorted_perm. exact E.
Qed.

(** The Semantic Kernel agent rebuilds its history from the records and
    stays within the bound. *)
Lemma sk_update_chat_history_bound (self : SemanticKernel.Agent)
    (messages : list SemanticKernel.record) :
  Z.of_nat (length (SemanticKernel._chat
                      (SemanticKernel.update_chat_history self messages)))
  <= Z.max (SemanticKernel._max_history_length self)
       (Z.of_nat (length (List.filter SemanticKernel.record_is_system messages))).
Proof.
  simpl. pose proof (sk_add_record_length
    (SemanticKernel.messages_to_add (SemanticKernel._max_history_length self)
       messages)) as Hadd.
  unfold SemanticKernel.messages_to_add in *.
  rewrite sk_sort_by_created_at_length in Hadd.
  rewrite length_app in Hadd.
  set (n := length (List.filter SemanticKernel.record_is_system messages)) in *.
  pose proof (recent_length
    (Z.max 0 (SemanticKernel._max_history_length self - Z.of_nat n))
    (List.filter (fun msg => negb (SemanticKernel.record_is_system msg)) messages)).
  lia.
Qed.

(** C3 fails on the LlamaIndex agent: with a bound of 2 and an empty
    history, merging three persisted turns (none of them a system message)
    leaves a history of three entries, above [max 2 0].  The Semantic
    Kernel agent keeps the bound on every input. *)
Theorem update_chat_history_llama_index_exceeds_bound :
  AbstractAgent.max_history_length_of
    (Some (AbstractAgent._settings Samples.math_agent)) = Some 2
  /\ LlamaIndex._max_history_length (Samples.llama_agent Samples.math_agent) = 2
  /\ LlamaIndex.count_system
       (LlamaIndex._chat_history
          (LlamaIndex.update_chat_history
             (Samples.llama_agent Samples.math_agent) Samples.three_records)) = 0%nat
  /\ length (LlamaIndex._chat_history
               (LlamaIndex.update_chat_history
                  (Samples.llama_agent Samples.math_agent) Samples.three_records))
     = 3%nat
  /\ ~ (Z.of_nat
          (length (LlamaIndex._chat_history
                     (LlamaIndex.update_chat_history
                        (Samples.llama_agent Samples.math_agent)
                        Samples.three_records)))
        <= Z.max 2 0)
  /\ (forall self messages,
        Z.of_nat (length (SemanticKernel._chat
                            (SemanticKernel.update_chat_history self messages)))
        <= Z.max (SemanticKernel._max_history_length self)
             (Z.of_nat
                (length (List.filter SemanticKernel.record_is_system messages)))).
Proof.
  split; [reflexivity|].
  split; [reflexivity|]. split; [reflexivity|]. split; [reflexivity|].
  split; [vm_compute; intros H; apply H; reflexivity|].
  apply sk_update_chat_history_bound.
Qed.

(** ** [process] and failures of the framework *)

(** Whatever the framework call does, the LlamaIndex agent returns a
    message; when the call raised, the message explains the failure and
    its metadata has an [error] entry. *)
Lemma llama_process_fail_soft
    (aquery : list pydict -> string -> LlamaIndex.Invocation)
    (fresh_id now : string) (self : LlamaIndex.Agent) (message : string) :
  exists response,
    snd (LlamaIndex.process aquery fresh_id now self message) = Returned response
    /\ forall e,
         LlamaIndex.answer
           (aquery (LlamaIndex.prune (LlamaIndex._max_history_length self)
                      (LlamaIndex._chat_history self)) message) = Raised e ->
         content response
           = "I encountered an error while processing your message: " +:+ exn_str e
         /\ dict_get "error" (metadata response) = Some (PStr (exn_str e)).
Proof.
  unfold LlamaIndex.process.
  set (pruned := LlamaIndex.prune (LlamaIndex._max_history_length self)
                   (LlamaIndex._chat_history self)).
  assert (Hprev : py_slice None (Some (-1))
                    (pruned ++ [[("role", PStr "user"); ("content", PStr message)]])
                  = pruned).
    by apply py_slice_but_last.
  rewrite Hprev.
  destruct (LlamaIndex.answer (aquery pruned message)) as [text|e] eqn:E.
  - eexists. split; [reflexivity|]. intros e' He'. discriminate.
  - eexists. split; [reflexivity|]. intros e' [= <-]. split; reflexivity.
Qed.

(** The Semantic Kernel agent has no handler around the framework call:
    a failure of the call is the outcome of [process]. *)
Lemma sk_process_propagates
    (invoke : list SemanticKernel.ChatMessageContent -> SemanticKernel.Invocation)
    (fresh_id now : string) (self : SemanticKernel.Agent) (message : string)
    (e : exn) :
  SemanticKernel.failure
    (invoke (SemanticKernel.prune (SemanticKernel._max_history_length self)
               (SemanticKernel._chat self)
             ++ [{| SemanticKernel.cm_role := "user";
                    SemanticKernel.cm_content := message |}])) = Some e ->
  snd (SemanticKernel.process invoke fresh_id now self message) = Raised e.
Proof.
  intros H. unfold SemanticKernel.process. rewrite H. reflexivity.
Qed.

(** C2 fails on the Semantic Kernel agent: when the framework call raises
    while the agent processes ["What is 6 + 3?"], [process] raises the same
    exception instead of returning a message.  On the same failure the
    LlamaIndex agent returns a message that explains it and carries an
    [error] entry. *)
Theorem process_semantic_kernel_propagates_failure :
  snd (SemanticKernel.process Samples.failing_invoke "id-1" "2024-05-01T10:00:00"
         (Samples.sk_agent Samples.math_agent) "What is 6 + 3?")
  = Raised Samples.timeout
  /\ exists response,
       snd (LlamaIndex.process Samples.failing_aquery "id-1" "2024-05-01T10:00:00"
              (Samples.llama_agent Samples.math_agent) "What is 6 + 3?")
       = Returned response
       /\ content response
          = "I encountered an error while processing your message: Request timed out."
       /\ dict_get "error" (metadata response) = Some (PStr "Request timed out.").
Proof.
  split; [reflexivity|].
  eexists. split; [reflexivity|]. split; reflexivity.
Qed.

(** ** The tool registry *)

(** C9: when the agent already has a tool of that name, [add_tool] raises
    the naming-conflict error and the agent, its toolkit included, is what
    it was; otherwise the call registers the tool under its name and
    leaves the other names alone.  This is [AbstractAgent.add_tool], which
    the Semantic Kernel agent inherits, and the LlamaIndex override,
    whatever the framework's own registration does. *)
Theorem add_tool_conflict_or_register
    (self : AbstractAgent.Agent) (llama : LlamaIndex.Agent) (tool : Tool)
    (framework_add_tool : Tool -> option exn) :
  (is_Some (AbstractAgent._tools self !! tool_name tool) ->
     AbstractAgent.add_tool self tool
     = (self, Raised (AbstractAgent.already_exists tool self)))
  /\ (AbstractAgent._tools self !! tool_name tool = None ->
        snd (AbstractAgent.add_tool self tool) = Returned tt
        /\ AbstractAgent._tools (fst (AbstractAgent.add_tool self tool))
           = <[tool_name tool := tool]> (AbstractAgent._tools self))
  /\ (is_Some (AbstractAgent._tools (LlamaIndex.base llama) !! tool_name tool) ->
        LlamaIndex.add_tool framework_add_tool llama tool
        = (llama, Raised (AbstractAgent.already_exists tool (LlamaIndex.base llama))))
  /\ (AbstractAgent._tools (LlamaIndex.base llama) !! tool_name tool = None ->
        AbstractAgent._tools
          (LlamaIndex.base (fst (LlamaIndex.add_tool framework_add_tool llama tool)))
        = <[tool_name tool := tool]> (AbstractAgent._tools (LlamaIndex.base llama))).
Proof.
  unfold AbstractAgent.add_tool, LlamaIndex.add_tool.
  split; [|split; [|split]].
  - intros [t Ht]. rewrite Ht. reflexivity.
  - intros Hnone. rewrite Hnone. split; reflexivity.
  - intros [t Ht]. rewrite Ht. reflexivity.
  - intros Hnone. rewrite Hnone. destruct (framework_add_tool tool); reflexivity.
Qed.

(** Registering a second tool called [Add] fails and the first one stays;
    registering [Add] on an agent without tools succeeds. *)
Lemma add_tool_conflict_or_register_witness :
  (is_Some (AbstractAgent._tools Samples.math_agent_with_add !! "Add")
   /\ AbstractAgent.add_tool Samples.math_agent_with_add Samples.add_tool_2
      = (Samples.math_agent_with_add,
         Raised (ValueError "Tool 'Add' already exists in agent 'Math Agent'")))
  /\ (AbstractAgent._tools Samples.math_agent !! "Add" = None
      /\ AbstractAgent._tools
           (fst (AbstractAgent.add_tool Samples.math_agent Samples.add_tool_1))
         !! "Add" = Some Samples.add_tool_1)
  /\ (is_Some (AbstractAgent._tools
                 (LlamaIndex.base (Samples.llama_agent Samples.math_agent_with_add))
               !! "Add")
      /\ LlamaIndex.add_tool (fun _ => None)
           (Samples.llama_agent Samples.math_agent_with_add) Samples.add_tool_2
         = (Samples.llama_agent Samples.math_agent_with_add,
            Raised (ValueError "Tool 'Add' already exists in agent 'Math Agent'")))
  /\ (AbstractAgent._tools (LlamaIndex.base (Samples.llama_agent Samples.math_agent))
        !! "Add" = None
      /\ AbstractAgent._tools
           (LlamaIndex.base
              (fst (LlamaIndex.add_tool (fun _ => Some Samples.timeout)
                      (Samples.llama_agent Samples.math_agent) Samples.add_tool_1)))
         !! "Add" = Some Samples.add_tool_1).
Proof.
  assert (Hthere : is_Some (AbstractAgent._tools Samples.math_agent_with_add !! "Add"))
    by (exists Samples.add_tool_1; reflexivity).
  assert (Hfree : AbstractAgent._tools Samples.math_agent !! "Add" = None)
    by reflexivity.
  destruct (add_tool_conflict_or_register Samples.math_agent_with_add
              (Samples.llama_agent Samples.math_agent_with_add)
              Samples.add_tool_2 (fun _ => None)) as (H1 & _ & H3 & _).
  destruct (add_tool_conflict_or_register Samples.math_agent
              (Samples.llama_agent Samples.math_agent)
              Samples.add_tool_1 (fun _ => Some Samples.timeout))
    as (_ & H2 & _ & H4).
  split; [|split; [|split]].
  - split; [exact Hthere|]. exact (H1 Hthere).
  - split; [exact Hfree|]. destruct (H2 Hfree) as [_ Ht]. rewrite Ht. reflexivity.
  - split; [exact Hthere|]. exact (H3 Hthere).
  - split; [exact Hfree|]. rewrite (H4 Hfree). reflexivity.
Defined.

(** ** Dictionaries *)

Section DictFacts.
Context {V : Type}.

Lemma dict_get_set_same (k : string) (v : V) (d : dict V) :
  dict_get k (dict_set k v d) = Some v.
Proof.
  induction d as [|[k' v'] d IH]; simpl.
  - rewrite String.eqb_refl. reflexivity.
  - destruct (String.eqb k k') eqn:E; simpl; rewrite ?E, ?String.eqb_refl; auto.
Qed.

Lemma dict_get_set_other (k k' : string) (v : V) (d : dict V) :
  k <> k' -> dict_get k' (dict_set k v d) = dict_get k' d.
Proof.
  intros Hne. induction d as [|[k0 v0] d IH]; simpl.
  - destruct (String.eqb_spec k' k); [congruence|reflexivity].
  - destruct (String.eqb_spec k k0) as [->|Hk]; simpl.
    + destruct (String.eqb_spec k' k0); [congruence|reflexivity].
    + destruct (String.eqb k' k0); [reflexivity|exact IH].
Qed.

Lemma dict_get_del_other (k k' : string) (d : dict V) :
  k <> k' -> dict_get k' (dict_del k d) = dict_get k' d.
Proof.
  intros Hne. induction d as [|[k0 v0] d IH]; simpl; [reflexivity|].
  destruct (String.eqb_spec k k0) as [->|Hk]; simpl.
  - destruct (String.eqb_spec k' k0); [congruence|reflexivity].
  - destruct (String.eqb k' k0); [reflexivity|exact IH].
Qed.

Lemma dict_has_get (k : string) (d : dict V) (v : V) :
  dict_get k d = Some v -> dict_has k d = true.
Proof. unfold dict_has. intros ->. reflexivity. Qed.

End DictFacts.

(** ** The in-memory backend *)

Module InMemoryFacts.
Import InMemory.

(** What [load_conversation] finds after [save_conversation]. *)
Lemma mem_load_after_save (conversation : Conversation) (user_id : string) (s : store) :
  load_conversation (conversation_id conversation) user_id
    (fst (save_conversation conversation user_id s))
  = Some (saved_conversation conversation user_id).
Proof.
  unfold load_conversation, save_conversation. simpl.
  rewrite dict_get_set_same, dict_get_set_same. reflexivity.
Qed.

(** Another user's part of the store is not touched by a save. *)
Lemma mem_save_other_user (conversation : Conversation) (user_id other : string)
    (s : store) :
  user_id <> other ->
  dict_get other (fst (save_conversation conversation user_id s))
  = dict_get other s.
Proof.
  intros Hne. unfold save_conversation. simpl.
  rewrite dict_get_set_other by assumption.
  destruct (dict_has user_id s); [reflexivity|].
  apply dict_get_set_other. assumption.
Qed.

Lemma mem_append_absent (now conversation_id user_id : string) (message : Message)
    (s : store) :
  load_conversation conversation_id user_id s = None ->
  append_message now conversation_id user_id message s = (s, false).
Proof.
  unfold load_conversation, append_message.
  destruct (dict_get user_id s) as [convs|]; [|reflexivity].
  intros ->. reflexivity.
Qed.

(** One append: the stored dictionary gets the dumped message at the end
    of its list and a new [last_updated_at]; nothing else changes. *)
Lemma mem_append_present (now conversation_id user_id : string) (message : Message)
    (s : store) (stored : pydict) (l : list pyval) :
  load_conversation conversation_id user_id s = Some stored ->
  dict_get "messages" stored = Some (PList l) ->
  snd (append_message now conversation_id user_id message s) = true
  /\ load_conversation conversation_id user_id
       (fst (append_message now conversation_id user_id message s))
     = Some (dict_set "last_updated_at" (PStr now)
               (dict_set "messages" (PList (l ++ [PDict (model_dump message)]))
                  stored)).
Proof.
  unfold load_conversation, append_message.
  destruct (dict_get user_id s) as [convs|] eqn:Eu; [|discriminate].
  intros Hc Hm. rewrite Hc.
  rewrite (dict_has_get _ _ _ Hm). rewrite Hm. simpl.
  split; [reflexivity|].
  rewrite dict_get_set_same, dict_get_set_same. reflexivity.
Qed.

End InMemoryFacts.

(** C10: in the in-memory backend the record [save_conversation] stores
    for a message has no [attachments] entry, so what is loaded after a
    save has lost every attachment; the record [append_message] stores has
    the entry, with one record per attachment of the message, in their
    order, and each record carries every field of its attachment: the
    type as the enum member with its name and value, and the content,
    description, start time and flags of a media attachment or the
    description, dataset and axes of a graph.  A message that was
    appended with its attachments therefore loses them as soon as a
    conversation holding it is saved in full ([s] is any store, among
    them the one the append left). *)
Theorem in_memory_save_drops_attachments
    (conversation : Conversation) (user_id : string) (s : InMemory.store)
    (now cid : string) (message : Message) (stored : pydict) (l : list pyval) :
  (InMemory.load_conversation (conversation_id conversation) user_id
     (fst (InMemory.save_conversation conversation user_id s))
   = Some (InMemory.saved_conversation conversation user_id)
   /\ dict_get "messages" (InMemory.saved_conversation conversation user_id)
      = Some (PList (List.map InMemory.saved_message (messages conversation)))
   /\ forall msg, exists record,
        InMemory.saved_message msg = PDict record
        /\ dict_get "attachments" record = None)
  /\ (InMemory.load_conversation cid user_id s = Some stored ->
      dict_get "messages" stored = Some (PList l) ->
      exists stored',
        InMemory.load_conversation cid user_id
          (fst (InMemory.append_message now cid user_id message s))
        = Some stored'
        /\ dict_get "messages" stored'
           = Some (PList (l ++ [PDict (model_dump message)]))
        /\ dict_get "attachments" (model_dump message)
           = Some (PList (List.map attachment_model_dump (attachments message))))
  /\ (forall a : Attachment, exists record type,
        attachment_model_dump a = PDict record
        /\ dict_get "type" record = Some (PObj type)
        /\ match a with
           | Media m =>
               dict_get "_name_" type
               = Some (PStr (match media_type m with
                             | IMAGE => "IMAGE" | AUDIO => "AUDIO"
                             | VIDEO => "VIDEO" | FILE => "FILE"
                             end))
               /\ dict_get "_value_" type
                  = Some (PStr (match media_type m with
                                | IMAGE => "image" | AUDIO => "audio"
                                | VIDEO => "video" | FILE => "file"
                                end))
               /\ dict_get "content" record = Some (PStr (media_content m))
               /\ dict_get "data_description" record
                  = Some (PStr (media_data_description m))
               /\ dict_get "start_time" record = Some (PStr (media_start_time m))
               /\ dict_get "autoplay" record = Some (PBool (autoplay m))
               /\ dict_get "loop" record = Some (PBool (loop m))
           | Graph g =>
               dict_get "_name_" type
               = Some (PStr (match graph_type g with
                             | BAR => "BAR" | PIE => "PIE" | LINE => "LINE"
                             | STACKED_BAR => "STACKED_BAR"
                             end))
               /\ dict_get "_value_" type
                  = Some (PStr (match graph_type g with
                                | BAR => "bar" | PIE => "pie" | LINE => "line"
                                | STACKED_BAR => "stacked_bar"
                                end))
               /\ dict_get "data_description" record
                  = Some (PStr (graph_data_description g))
               /\ dict_get "dataset_json" record = Some (PStr (dataset_json g))
               /\ dict_get "x" record = Some (PStr (graph_x g))
               /\ dict_get "y" record = Some (PList (List.map PStr (graph_y g)))
           end).
Proof.
  split; [|split].
  - split; [apply InMemoryFacts.mem_load_after_save|].
    split; [reflexivity|].
    intros msg. eexists. split; reflexivity.
  - intros Hload Hmsgs.
    destruct (InMemoryFacts.mem_append_present now cid user_id message s stored l
                Hload Hmsgs) as [_ Hafter].
    eexists. split; [exact Hafter|]. split; [|reflexivity].
    rewrite dict_get_set_other by discriminate.
    apply dict_get_set_same.
  - intros [m|g].
    + destruct m as [t ? ? ? ? ?]. destruct t; eexists; eexists;
        (split; [reflexivity|]); (split; [reflexivity|]); repeat split; reflexivity.
    + destruct g as [t ? ? ? ?]. destruct t; eexists; eexists;
        (split; [reflexivity|]); (split; [reflexivity|]); repeat split; reflexivity.
Qed.

(** On the sample conversation: the answer with its chart is appended to
    the new conversation and stored with the chart; after the
    conversation holding that answer is saved in full, the stored answer
    has no [attachments] entry. *)
Lemma in_memory_save_drops_attachments_witness :
  (InMemory.load_conversation "c1" "alice"
     (fst (InMemory.save_conversation Samples.new_conversation "alice" []))
   = Some (InMemory.saved_conversation Samples.new_conversation "alice")
   /\ dict_get "messages" (InMemory.saved_conversation Samples.new_conversation "alice")
      = Some (PList []))
  /\ (exists stored',
        InMemory.load_conversation "c1" "alice"
          (fst (InMemory.append_message "2024-05-01T10:00:01" "c1" "alice"
                  Samples.message_2
                  (fst (InMemory.save_conversation Samples.new_conversation
                          "alice" []))))
        = Some stored'
        /\ dict_get "messages" stored'
           = Some (PList ([] ++ [PDict (model_dump Samples.message_2)]))
        /\ dict_get "attachments" (model_dump Samples.message_2)
           = Some (PList [attachment_model_dump Samples.chart]))
  /\ (exists record,
        InMemory.saved_message Samples.message_2 = PDict record
        /\ dict_get "attachments" record = None)
  /\ exists record,
       attachment_model_dump Samples.chart = PDict record
       /\ dict_get "dataset_json" record = Some (PStr "[]")
       /\ dict_get "y" record = Some (PList [PStr "sum"]).
Proof.
  pose proof (in_memory_save_drops_attachments Samples.answered_conversation
                "alice"
                (fst (InMemory.save_conversation Samples.new_conversation "alice" []))
                "2024-05-01T10:00:01" "c1" Samples.message_2
                (InMemory.saved_conversation Samples.new_conversation "alice") [])
    as [[_ [_ Hrecord]] [Happend Hfields]].
  split; [split; reflexivity|]. split; [|split].
  - apply Happend; reflexivity.
  - apply Hrecord.
  - destruct (Hfields Samples.chart)
      as (record & type & E & _ & _ & _ & _ & Hd & _ & Hy).
    exists record. split; [exact E|]. split; [exact Hd|exact Hy].
Defined.

(** ** JSON values *)

Section PyvalInduction.
Variable P : pyval -> Prop.
Hypothesis HNone : P PNone.
Hypothesis HBool : forall b, P (PBool b).
Hypothesis HInt : forall z, P (PInt z).
Hypothesis HStr : forall s, P (PStr s).
Hypothesis HDatetime : forall iso, P (PDatetime iso).
Hypothesis HList : forall l, Forall P l -> P (PList l).
Hypothesis HTuple : forall l, Forall P l -> P (PTuple l).
Hypothesis HDict : forall d, Forall (fun kv => P (snd kv)) d -> P (PDict d).
Hypothesis HObj : forall d, Forall (fun kv => P (snd kv)) d -> P (PObj d).
Hypothesis HOpaque : forall r, P (POpaque r).
Hypothesis HMap : forall m, Forall (fun kv => P (snd kv)) m -> P (PMap m).

(** Induction on a value with the hypothesis for every item of a list and
    every value of a dictionary. *)
Lemma pyval_induction : forall v, P v.
Proof.
  exact (fix IH (v : pyval) : P v :=
    let items :=
      fix items (l : list pyval) : Forall P l :=
        match l with
        | [] => @ListDef.Forall_nil _ P
        | x :: l' => @ListDef.Forall_cons _ P x l' (IH x) (items l')
        end in
    let values :=
      fix values (d : list (string * pyval)) : Forall (fun kv => P (snd kv)) d :=
        match d with
        | [] => @ListDef.Forall_nil _ _
        | (k, x) :: d' =>
            @ListDef.Forall_cons _ (fun kv => P (snd kv)) (k, x) d' (IH x) (values d')
        end in
    let keyed :=
      fix keyed (m : list (pyval * pyval)) : Forall (fun kv => P (snd kv)) m :=
        match m with
        | [] => @ListDef.Forall_nil _ _
        | (k, x) :: m' =>
            @ListDef.Forall_cons _ (fun kv => P (snd kv)) (k, x) m' (IH x) (keyed m')
        end in
    match v with
    | PNone => HNone
    | PBool b => HBool b
    | PInt z => HInt z
    | PStr s => HStr s
    | PDatetime iso => HDatetime iso
    | PList l => HList l (items l)
    | PTuple l => HTuple l (items l)
    | PDict d => HDict d (values d)
    | PObj d => HObj d (values d)
    | POpaque r => HOpaque r
    | PMap m => HMap m (keyed m)
    end).
Qed.

End PyvalInduction.

Lemma forallb_map_Forall {A B} (f : A -> B) (p : B -> bool) (l : list A) :
  Forall (fun x => p (f x) = true) l -> forallb p (List.map f l) = true.
Proof.
  induction 1; simpl; [reflexivity|]. rewrite H, IHForall. reflexivity.
Qed.

Lemma map_eq_Forall {A B} (f g : A -> B) (l : list A) :
  Forall (fun x => f x = g x) l -> List.map f l = List.map g l.
Proof. induction 1; simpl; congruence. Qed.

Lemma forallb_map_eq_Forall {A B} (f : A -> B) (p : B -> bool) (q : A -> bool)
    (l : list A) :
  Forall (fun x => p (f x) = q x) l -> forallb p (List.map f l) = forallb q l.
Proof. induction 1; simpl; congruence. Qed.

(** A value [json.dumps] accepts has only keys it accepts. *)
Lemma json_ok_keys_ok (v : pyval) : json_ok v = true -> keys_ok v = true.
Proof.
  induction v using pyval_induction; simpl; try congruence.
  - intros Hok. rewrite forallb_forall in *. rewrite List.Forall_forall in H. auto.
  - intros Hok. rewrite forallb_forall in *. rewrite List.Forall_forall in H. auto.
  - intros Hok. rewrite forallb_forall in *. rewrite List.Forall_forall in H.
    intros [k x] Hin. apply (H (k, x) Hin). apply (Hok (k, x) Hin).
  - intros Hok. rewrite forallb_forall in *. rewrite List.Forall_forall in H.
    intros [k x] Hin. specialize (Hok (k, x) Hin). simpl in Hok.
    apply andb_prop in Hok. destruct Hok as [Hk Hx].
    rewrite Hk. apply (H (k, x) Hin). exact Hx.
Qed.

(** What the deep serializer returns is accepted by [json.dumps] exactly
    when the keys of the value are. *)
Lemma serialize_deep_keys_ok (v : pyval) : json_ok (serialize_deep v) = keys_ok v.
Proof.
  induction v using pyval_induction; try reflexivity.
  - simpl. destruct (forallb json_ok l) eqn:E.
    + simpl. rewrite E. symmetry. apply (json_ok_keys_ok (PList l)). exact E.
    + simpl. apply forallb_map_eq_Forall. exact H.
  - simpl. destruct (forallb json_ok l) eqn:E.
    + simpl. rewrite E. symmetry. apply (json_ok_keys_ok (PTuple l)). exact E.
    + simpl. apply forallb_map_eq_Forall. exact H.
  - simpl. destruct (forallb _ d) eqn:E.
    + simpl. rewrite E. symmetry. apply (json_ok_keys_ok (PDict d)). exact E.
    + simpl. apply forallb_map_eq_Forall.
      eapply Forall_impl; [exact H|]. intros [k x]. simpl. auto.
  - simpl. destruct (forallb _ d) eqn:E.
    + simpl. rewrite E. symmetry. apply (json_ok_keys_ok (PDict d)). exact E.
    + simpl. apply forallb_map_eq_Forall.
      eapply Forall_impl; [exact H|]. intros [k x]. simpl. auto.
  - simpl. destruct (forallb _ m) eqn:E.
    + simpl. rewrite E. symmetry. apply (json_ok_keys_ok (PMap m)). exact E.
    + simpl. apply forallb_map_eq_Forall.
      eapply Forall_impl; [exact H|]. intros [k x]. simpl. congruence.
Qed.

Lemma serialize_deep_json_ok (v : pyval) :
  keys_ok v = true -> json_ok (serialize_deep v) = true.
Proof. intros H. rewrite serialize_deep_keys_ok. exact H. Qed.

(** The values of the dictionary built from the members of an object are
    values of the members. *)
Lemma dict_set_values (Q : pyval -> Prop) (k : string) (v : pyval) (d : pydict) :
  Q v -> Forall (fun kv => Q (snd kv)) d ->
  Forall (fun kv => Q (snd kv)) (dict_set k v d).
Proof.
  intros Hv. induction 1 as [|[k' x] d Hx Hd IH]; simpl.
  - constructor; [exact Hv|constructor].
  - destruct (String.eqb k k'); constructor; auto.
Qed.

Lemma fold_dict_set_values (Q : pyval -> Prop) (members : list (string * pyval)) :
  forall acc : list (string * pyval),
    Forall (fun kv => Q (snd kv)) acc ->
    Forall (fun kv => Q (snd kv)) members ->
    Forall (fun kv => Q (snd kv))
      (fold_left (fun d kv => dict_set (fst kv) (snd kv) d) members acc).
Proof.
  induction members as [|[k x] members IH]; intros acc Hacc Hm; simpl;
    [exact Hacc|].
  inversion Hm; subst. apply IH; [|assumption].
  apply dict_set_values; assumption.
Qed.

Lemma dict_of_members_values (Q : pyval -> Prop) (members : list (string * pyval)) :
  Forall (fun kv => Q (snd kv)) members ->
  Forall (fun kv => Q (snd kv)) (dict_of_members members).
Proof. intros H. apply fold_dict_set_values; [constructor|exact H]. Qed.

Lemma forallb_values (p : pyval -> bool) (d : list (string * pyval)) :
  Forall (fun kv => p (snd kv) = true) d ->
  forallb (fun kv => match kv with (_, x) => p x end) d = true.
Proof.
  induction 1 as [|[k x] d Hx Hd IH]; simpl; [reflexivity|].
  simpl in Hx. rewrite Hx, IH. reflexivity.
Qed.

Lemma json_ok_roundtrip (v : pyval) :
  json_ok v = true -> json_ok (json_roundtrip v) = true.
Proof.
  induction v using pyval_induction; simpl; try congruence.
  - intros Hok. apply forallb_map_Forall. rewrite forallb_forall in Hok.
    rewrite List.Forall_forall in *. auto.
  - intros Hok. apply forallb_map_Forall. rewrite forallb_forall in Hok.
    rewrite List.Forall_forall in *. auto.
  - intros Hok. apply forallb_map_Forall. rewrite forallb_forall in Hok.
    rewrite List.Forall_forall in *. intros [k x] Hin. simpl.
    apply (H (k, x) Hin). apply (Hok (k, x) Hin).
  - intros Hok. apply (forallb_values json_ok).
    apply (dict_of_members_values (fun x => json_ok x = true)).
    apply List.Forall_map. rewrite forallb_forall in Hok.
    rewrite List.Forall_forall in *. intros [k x] Hin. simpl.
    apply (H (k, x) Hin). specialize (Hok (k, x) Hin). simpl in Hok.
    apply andb_prop in Hok. tauto.
Qed.

Lemma json_roundtrip_twice (v : pyval) :
  json_roundtrip (json_roundtrip v) = json_roundtrip v.
Proof.
  induction v using pyval_induction; simpl; try reflexivity.
  - f_equal. rewrite List.map_map. apply map_eq_Forall. exact H.
  - f_equal. rewrite List.map_map. apply map_eq_Forall. exact H.
  - f_equal. rewrite List.map_map. apply map_eq_Forall.
    eapply Forall_impl; [exact H|]. intros [k x]. simpl. congruence.
  - f_equal. rewrite <- (List.map_id (dict_of_members _)) at 2.
    apply map_eq_Forall.
    eapply Forall_impl;
      [apply (dict_of_members_values (fun x => json_roundtrip x = x))|].
    + apply List.Forall_map. eapply Forall_impl; [exact H|].
      intros [k x]. simpl. auto.
    + intros [k x]. simpl. congruence.
Qed.

Lemma dict_get_roundtrip (k : string) (d : pydict) :
  dict_get k (roundtrip_dict d) = option_map json_roundtrip (dict_get k d).
Proof.
  induction d as [|[k' x] d IH]; simpl; [reflexivity|].
  destruct (String.eqb k k'); [reflexivity|exact IH].
Qed.

Lemma roundtrip_dict_set (k : string) (v : pyval) (d : pydict) :
  roundtrip_dict (dict_set k v d)
  = dict_set k (json_roundtrip v) (roundtrip_dict d).
Proof.
  induction d as [|[k' x] d IH]; simpl; [reflexivity|].
  destruct (String.eqb k k'); simpl; [reflexivity|]. rewrite IH. reflexivity.
Qed.

Lemma roundtrip_dict_twice (d : pydict) :
  roundtrip_dict (roundtrip_dict d) = roundtrip_dict d.
Proof.
  pose proof (json_roundtrip_twice (PDict d)) as E.
  change (PDict (roundtrip_dict (roundtrip_dict d)) = PDict (roundtrip_dict d)) in E.
  injection E as E. exact E.
Qed.

Lemma json_ok_dict_get (k : string) (d : pydict) (v : pyval) :
  json_ok (PDict d) = true -> dict_get k d = Some v -> json_ok v = true.
Proof.
  simpl. induction d as [|[k' x] d IH]; simpl; [discriminate|].
  intros Hok. apply andb_prop in Hok. destruct Hok as [Hx Hd].
  destruct (String.eqb k k'); [intros [= <-]; exact Hx|apply IH; exact Hd].
Qed.

Lemma json_ok_dict_set (k : string) (v : pyval) (d : pydict) :
  json_ok (PDict d) = true -> json_ok v = true ->
  json_ok (PDict (dict_set k v d)) = true.
Proof.
  simpl. intros Hd Hv. induction d as [|[k' x] d IH]; simpl.
  - rewrite Hv. reflexivity.
  - simpl in Hd. apply andb_prop in Hd. destruct Hd as [Hx Hd].
    destruct (String.eqb k k'); simpl.
    + rewrite Hv, Hd. reflexivity.
    + rewrite Hx. apply IH. exact Hd.
Qed.

Lemma json_ok_snoc (l : list pyval) (x : pyval) :
  json_ok (PList l) = true -> json_ok x = true -> json_ok (PList (l ++ [x])) = true.
Proof.
  simpl. intros Hl Hx. rewrite forallb_app, Hl. simpl. rewrite Hx. reflexivity.
Qed.

Lemma is_document_roundtrip (v : pyval) :
  json_ok v = true -> JsonFile.is_document (json_roundtrip v).
Proof.
  intros Hok. split; [apply json_ok_roundtrip; exact Hok|apply json_roundtrip_twice].
Qed.

(** ** The keys a message carries *)

(** The keys of an attachment, as an object and as a dictionary, are the
    names of its fields. *)
Lemma attachment_keys_ok (a : Attachment) :
  keys_ok (attachment_object a) = true.
Proof.
  assert (Htext : forall l, forallb keys_ok (List.map PStr l) = true)
    by (induction l as [|x l IH]; simpl; auto).
  destruct a as [[[] ? ? ? ? ?]|[[] ? ? ? y]]; try reflexivity;
    unfold attachment_object, attachment_fields;
    cbn [keys_ok forallb graph_type graph_data_description dataset_json graph_x
         graph_y GraphType_member enum_member andb];
    rewrite Htext; reflexivity.
Qed.

Lemma citation_keys_ok (c : Citation) :
  keys_ok (citation_dict c) = keys_ok (PDict (citation_metadata c)).
Proof. unfold citation_dict. cbn [keys_ok forallb]. apply andb_true_r. Qed.

Lemma citation_object_keys_ok (c : Citation) :
  keys_ok (CosmosDB.citation_object c) = keys_ok (PDict (citation_metadata c)).
Proof. unfold CosmosDB.citation_object. cbn [keys_ok forallb]. apply andb_true_r. Qed.

Lemma forallb_map {A B} (f : A -> B) (p : B -> bool) (l : list A) :
  forallb p (List.map f l) = forallb (fun x => p (f x)) l.
Proof. induction l as [|x l IH]; simpl; congruence. Qed.

Lemma forallb_ext' {A} (p q : A -> bool) (l : list A) :
  (forall x, p x = q x) -> forallb p l = forallb q l.
Proof. intros H. induction l as [|x l IH]; simpl; congruence. Qed.

Lemma forallb_true {A} (p : A -> bool) (l : list A) :
  (forall x, p x = true) -> forallb p l = true.
Proof. intros H. induction l as [|x l IH]; simpl; [reflexivity|]. rewrite H, IH. reflexivity. Qed.

Lemma Forall2_map_self {A B} (P : A -> B -> Prop) (f : A -> B) (l : list A) :
  (forall x, P x (f x)) -> Forall2 P l (List.map f l).
Proof. intros H. induction l as [|x l IH]; simpl; constructor; auto. Qed.

(** A list of attachment objects is serialized object by object. *)
Lemma serialized_attachments (atts : list Attachment) :
  json_roundtrip (serialize_deep (PList (List.map attachment_object atts)))
  = PList (List.map (fun a => json_roundtrip (serialize_deep (attachment_object a)))
             atts).
Proof.
  destruct atts as [|a atts]; [reflexivity|].
  cbn [serialize_deep List.map json_ok forallb attachment_object andb json_roundtrip].
  rewrite !List.map_map. reflexivity.
Qed.

(** What is stored of an attachment object: a dictionary of its fields,
    the type as a dictionary that holds the name and the value of the
    enum member. *)
Lemma serialized_attachment_record (a : Attachment) :
  exists fields type,
    json_roundtrip (serialize_deep (attachment_object a)) = PDict fields
    /\ dict_get "type" fields = Some (PDict type)
    /\ match a with
       | Media m =>
           dict_get "_name_" type
           = Some (PStr (match media_type m with
                         | IMAGE => "IMAGE" | AUDIO => "AUDIO"
                         | VIDEO => "VIDEO" | FILE => "FILE"
                         end))
           /\ dict_get "_value_" type
              = Some (PStr (match media_type m with
                            | IMAGE => "image" | AUDIO => "audio"
                            | VIDEO => "video" | FILE => "file"
                            end))
           /\ dict_get "content" fields = Some (PStr (media_content m))
           /\ dict_get "data_description" fields
              = Some (PStr (media_data_description m))
           /\ dict_get "start_time" fields = Some (PStr (media_start_time m))
           /\ dict_get "autoplay" fields = Some (PBool (autoplay m))
           /\ dict_get "loop" fields = Some (PBool (loop m))
       | Graph g =>
           dict_get "_name_" type
           = Some (PStr (match graph_type g with
                         | BAR => "BAR" | PIE => "PIE" | LINE => "LINE"
                         | STACKED_BAR => "STACKED_BAR"
                         end))
           /\ dict_get "_value_" type
              = Some (PStr (match graph_type g with
                            | BAR => "bar" | PIE => "pie" | LINE => "line"
                            | STACKED_BAR => "stacked_bar"
                            end))
           /\ dict_get "data_description" fields
              = Some (PStr (graph_data_description g))
           /\ dict_get "dataset_json" fields = Some (PStr (dataset_json g))
           /\ dict_get "x" fields = Some (PStr (graph_x g))
           /\ dict_get "y" fields = Some (PList (List.map PStr (graph_y g)))
       end.
Proof.
  assert (Htext : forall l, forallb json_ok (List.map PStr l) = true)
    by (induction l as [|x l IH]; simpl; auto).
  assert (Hsame : forall l, List.map json_roundtrip (List.map PStr l) = List.map PStr l)
    by (induction l as [|x l IH]; simpl; congruence).
  destruct a as [[t ? ? ? ? ?]|[t ? ? ? y]].
  - destruct t; eexists; eexists;
      (split; [reflexivity|]); (split; [reflexivity|]); repeat split; reflexivity.
  - destruct t; unfold attachment_object, attachment_fields;
      cbn [serialize_deep json_ok forallb andb List.map json_roundtrip
           graph_type graph_data_description dataset_json graph_x graph_y
           GraphType_member enum_member];
      rewrite !Htext; cbn [json_roundtrip]; rewrite Hsame;
      eexists; eexists;
      (split; [reflexivity|]); (split; [reflexivity|]); repeat split; reflexivity.
Qed.

(** ** The file backend *)

Module JsonFileFacts.
Import JsonFile.

(** The record of a message is accepted by [json.dumps] exactly when the
    keys the message carries are. *)
Lemma serialized_message_json_ok (msg : Message) :
  json_ok (PDict (_serialize_message (message_dict msg))) = message_keys_ok msg.
Proof.
  unfold _serialize_message, message_dict, py_get, dict_get_default.
  cbn [dict_get String.eqb Ascii.eqb Bool.eqb]. cbn [json_ok forallb py_str].
  rewrite !serialize_deep_keys_ok. unfold message_keys_ok.
  cbn [keys_ok]. rewrite !forallb_map.
  rewrite (forallb_true (fun x => keys_ok (attachment_object x)) (attachments msg))
    by apply attachment_keys_ok.
  rewrite (forallb_ext' (fun x => keys_ok (citation_dict x)) _ (citations msg)
             citation_keys_ok).
  cbn [keys_ok andb]. rewrite !andb_true_r. reflexivity.
Qed.

(** A save that can open its file, with serializable conversation
    metadata and messages, succeeds and leaves [saved_document] in the
    file. *)
Lemma json_save_writes (conversation : Conversation) (user_id : string)
    (fs : gmap string file) :
  can_open (_get_filepath (conversation_id conversation) user_id) fs = true ->
  json_ok (PDict (conv_metadata conversation)) = true ->
  forallb message_keys_ok (messages conversation) = true ->
  save_conversation conversation user_id fs
  = (<[_get_filepath (conversation_id conversation) user_id
       := Json (PDict (saved_document conversation user_id))]> fs, true)
  /\ is_document (PDict (saved_document conversation user_id)).
Proof.
  intros Hopen Hmeta Hkeys. unfold save_conversation, write_json. rewrite Hopen.
  set (data := PDict _).
  assert (Hok : json_ok data = true).
  { unfold data. cbn [json_ok forallb]. cbn [json_ok] in Hmeta.
    rewrite Hmeta. rewrite forallb_map.
    rewrite (forallb_ext' _ _ _ serialized_message_json_ok), Hkeys. reflexivity. }
  assert (Hdoc : json_roundtrip data = PDict (saved_document conversation user_id)).
  { unfold data, saved_document, stored_message. cbn [json_roundtrip List.map].
    rewrite List.map_map. reflexivity. }
  rewrite Hok, Hdoc. split; [reflexivity|].
  rewrite <- Hdoc. apply is_document_roundtrip. exact Hok.
Qed.

(** The record of a message as it reads back from the file. *)
Lemma stored_message_record (msg : Message) :
  exists record,
    stored_message msg = PDict record
    /\ dict_get "message_id" record = Some (PStr (message_id msg))
    /\ dict_get "role" record = Some (PStr (role msg))
    /\ dict_get "content" record = Some (PStr (content msg))
    /\ dict_get "created_at" record = Some (PStr (created_at msg))
    /\ dict_get "metadata" record
       = Some (json_roundtrip (serialize_deep (PDict (metadata msg))))
    /\ dict_get "citations" record
       = Some (json_roundtrip
                 (serialize_deep (PList (List.map citation_dict (citations msg)))))
    /\ dict_get "attachments" record
       = Some (PList (List.map
                        (fun a => json_roundtrip (serialize_deep (attachment_object a)))
                        (attachments msg))).
Proof.
  unfold stored_message. eexists. split; [reflexivity|].
  repeat (split; [reflexivity|]).
  rewrite <- serialized_attachments. reflexivity.
Qed.

(** An append whose message carries a key [json.dumps] rejects fails. *)
Lemma json_append_rejected (now conversation_id user_id : string) (message : Message)
    (fs : gmap string file) (data : pydict) (l : list pyval) :
  fs !! _get_filepath conversation_id user_id = Some (Json (PDict data)) ->
  dict_get "messages" data = Some (PList l) ->
  message_keys_ok message = false ->
  append_message now conversation_id user_id message fs
  = (<[_get_filepath conversation_id user_id := Garbage]> fs, false).
Proof.
  intros Hfile Hget Hkeys.
  unfold append_message. rewrite Hfile, (dict_has_get _ _ _ Hget), Hget.
  unfold write_json, can_open. rewrite Hfile.
  match goal with
  | |- (if json_ok ?new then _ else _) = _ =>
      assert (Hnew : json_ok new = false)
  end.
  { apply not_true_is_false. intros Hok.
    assert (Hm : json_ok (PList (l ++ [PDict (_serialize_message
                                                (message_dict message))])) = true).
    { apply (json_ok_dict_get "messages" _ _ Hok).
      rewrite dict_get_set_other by discriminate. apply dict_get_set_same. }
    cbn [json_ok] in Hm. rewrite forallb_app in Hm.
    apply andb_prop in Hm. destruct Hm as [_ Hm]. cbn [forallb] in Hm.
    rewrite andb_true_r in Hm.
    change (json_ok (PDict (_serialize_message (message_dict message))) = true) in Hm.
    rewrite serialized_message_json_ok in Hm. congruence. }
  rewrite Hnew. reflexivity.
Qed.

Lemma json_load_after_write (conversation_id user_id : string) (doc : pyval)
    (fs : gmap string file) :
  load_conversation conversation_id user_id
    (<[_get_filepath conversation_id user_id := Json doc]> fs) = Some doc.
Proof. unfold load_conversation. rewrite lookup_insert_eq. reflexivity. Qed.

Lemma json_append_absent (now conversation_id user_id : string) (message : Message)
    (fs : gmap string file) :
  fs !! _get_filepath conversation_id user_id = None ->
  append_message now conversation_id user_id message fs = (fs, false).
Proof. unfold append_message. intros ->. reflexivity. Qed.

Lemma json_document_messages (data : pydict) (l : list pyval) :
  is_document (PDict data) -> dict_get "messages" data = Some (PList l) ->
  json_ok (PList l) = true /\ List.map json_roundtrip l = l
  /\ roundtrip_dict data = data.
Proof.
  intros [Hok Hstable] Hget.
  assert (Hd : roundtrip_dict data = data)
    by (simpl in Hstable; injection Hstable as Hd; exact Hd).
  split; [eapply json_ok_dict_get; eassumption|]. split; [|exact Hd].
  pose proof (dict_get_roundtrip "messages" data) as Hr.
  rewrite Hd, Hget in Hr. simpl in Hr. congruence.
Qed.

(** One append: the document gets the stored form of the message at the
    end of its list and a new [last_updated_at]; nothing else changes. *)
Lemma json_append_present (now conversation_id user_id : string) (message : Message)
    (fs : gmap string file) (data : pydict) (l : list pyval) :
  fs !! _get_filepath conversation_id user_id = Some (Json (PDict data)) ->
  is_document (PDict data) ->
  dict_get "messages" data = Some (PList l) ->
  message_keys_ok message = true ->
  append_message now conversation_id user_id message fs
  = (<[_get_filepath conversation_id user_id
       := Json (PDict (dict_set "last_updated_at" (PStr now)
                         (dict_set "messages"
                            (PList (l ++ [stored_message message])) data)))]> fs,
     true)
  /\ is_document (PDict (dict_set "last_updated_at" (PStr now)
                           (dict_set "messages"
                              (PList (l ++ [stored_message message])) data))).
Proof.
  intros Hfile Hdoc Hget Hkeys.
  destruct (json_document_messages data l Hdoc Hget) as (Hl & Hlstable & Hdstable).
  destruct Hdoc as [Hok _].
  unfold append_message. rewrite Hfile, (dict_has_get _ _ _ Hget), Hget.
  set (new := PDict (dict_set "last_updated_at" (PStr now)
                (dict_set "messages"
                   (PList (l ++ [PDict (_serialize_message (message_dict message))]))
                   data))).
  assert (Hnew : json_ok new = true).
  { unfold new. apply json_ok_dict_set; [|reflexivity].
    apply json_ok_dict_set; [exact Hok|].
    apply json_ok_snoc; [exact Hl|].
    rewrite serialized_message_json_ok. exact Hkeys. }
  assert (Hrt : json_roundtrip new
                = PDict (dict_set "last_updated_at" (PStr now)
                           (dict_set "messages"
                              (PList (l ++ [stored_message message])) data))).
  { unfold new. change (json_roundtrip (PDict ?d)) with (PDict (roundtrip_dict d)).
    rewrite !roundtrip_dict_set, Hdstable.
    cbn [json_roundtrip]. rewrite List.map_app, Hlstable. reflexivity. }
  unfold write_json, can_open. rewrite Hfile, Hnew, Hrt. split; [reflexivity|].
  rewrite <- Hrt. apply is_document_roundtrip. exact Hnew.
Qed.

Lemma json_reset_absent (now conversation_id user_id : string) (fs : gmap string file) :
  fs !! _get_filepath conversation_id user_id = None ->
  reset_conversation now conversation_id user_id fs = (fs, false).
Proof. unfold reset_conversation. intros ->. reflexivity. Qed.

(** A reset empties the list and sets a new [last_updated_at]. *)
Lemma json_reset_present (now conversation_id user_id : string)
    (fs : gmap string file) (data : pydict) :
  fs !! _get_filepath conversation_id user_id = Some (Json (PDict data)) ->
  is_document (PDict data) ->
  reset_conversation now conversation_id user_id fs
  = (<[_get_filepath conversation_id user_id
       := Json (PDict (dict_set "last_updated_at" (PStr now)
                         (dict_set "messages" (PList []) data)))]> fs,
     true).
Proof.
  intros Hfile [Hok Hstable].
  assert (Hd : roundtrip_dict data = data)
    by (simpl in Hstable; injection Hstable as Hd; exact Hd).
  unfold reset_conversation. rewrite Hfile. unfold write_json, can_open.
  rewrite Hfile.
  rewrite json_ok_dict_set; [|apply json_ok_dict_set; [exact Hok|reflexivity]
                             |reflexivity].
  change (json_roundtrip (PDict ?d)) with (PDict (roundtrip_dict d)).
  rewrite !roundtrip_dict_set, Hd. reflexivity.
Qed.

End JsonFileFacts.

(** ** The document-database backend *)

Module CosmosDBFacts.
Import CosmosDB.

Lemma upsert_at_new (partition_key item : string) (body : pydict) (c : container) :
  forallb (fun entry => negb (same_key partition_key item entry)) c = true ->
  upsert_at partition_key item body c = c ++ [(partition_key, item, body)].
Proof.
  induction c as [|entry c IH]; simpl; [reflexivity|].
  intros H. apply andb_prop in H. destruct H as [He Hc].
  destruct (same_key partition_key item entry); [discriminate|].
  rewrite IH by assumption. reflexivity.
Qed.

Lemma upsert_at_last (partition_key item : string) (body old : pydict)
    (c : container) :
  forallb (fun entry => negb (same_key partition_key item entry)) c = true ->
  upsert_at partition_key item body (c ++ [(partition_key, item, old)])
  = c ++ [(partition_key, item, body)].
Proof.
  induction c as [|entry c IH]; simpl.
  - intros _. unfold same_key. simpl. rewrite !String.eqb_refl. reflexivity.
  - intros H. apply andb_prop in H. destruct H as [He Hc].
    destruct (same_key partition_key item entry); [discriminate|].
    rewrite IH by assumption. reflexivity.
Qed.

Lemma read_item_last (partition_key item : string) (body : pydict) (c : container) :
  forallb (fun entry => negb (same_key partition_key item entry)) c = true ->
  read_item item partition_key (c ++ [(partition_key, item, body)]) = Some body.
Proof.
  unfold read_item. induction c as [|entry c IH]; simpl.
  - intros _. unfold same_key. simpl. rewrite !String.eqb_refl. reflexivity.
  - intros H. apply andb_prop in H. destruct H as [He Hc].
    destruct (same_key partition_key item entry); [discriminate|].
    apply IH. assumption.
Qed.

Lemma query_items_app (where_ : pydict -> bool) (partition_key : string)
    (c1 c2 : container) :
  query_items where_ partition_key (c1 ++ c2)
  = query_items where_ partition_key c1 ++ query_items where_ partition_key c2.
Proof. unfold query_items. rewrite List.filter_app, List.map_app. reflexivity. Qed.

Lemma query_items_none (where_ : pydict -> bool) (partition_key : string)
    (c : container) :
  forallb (fun entry =>
             negb (String.eqb (fst (fst entry)) partition_key && where_ (snd entry)))
    c = true ->
  query_items where_ partition_key c = [].
Proof.
  unfold query_items. induction c as [|entry c IH]; simpl; [reflexivity|].
  intros H. apply andb_prop in H. destruct H as [He Hc].
  destruct (String.eqb (fst (fst entry)) partition_key && where_ (snd entry));
    [discriminate|]. apply IH. assumption.
Qed.

Lemma forallb_weaken {A} (p q : A -> bool) (l : list A) :
  (forall x, p x = true -> q x = true) ->
  forallb p l = true -> forallb q l = true.
Proof.
  intros Hpq. induction l as [|x l IH]; simpl; [reflexivity|].
  intros H. apply andb_prop in H. destruct H as [Hx Hl].
  rewrite (Hpq x Hx), IH by assumption. reflexivity.
Qed.

(** What an unused id gives about the two containers. *)
Lemma unused_id_conversations (conversation_id user_id : string) (db : database) :
  unused_id conversation_id db = true ->
  forallb (fun entry => negb (same_key user_id conversation_id entry))
    (conversation_container db) = true
  /\ query_items
       (fun item => field_is "conversation_id" conversation_id item
                    && field_is "user_id" user_id item)
       user_id (conversation_container db) = [].
Proof.
  unfold unused_id. intros H. apply andb_prop in H. destruct H as [Hc _]. split.
  - revert Hc. apply forallb_weaken. intros entry He.
    apply andb_prop in He. destruct He as [He _]. unfold same_key.
    destruct (String.eqb (snd (fst entry)) conversation_id); [discriminate|].
    rewrite andb_false_r. reflexivity.
  - apply query_items_none. revert Hc. apply forallb_weaken. intros entry He.
    apply andb_prop in He. destruct He as [_ He]. unfold field_is.
    destruct (field_eq "conversation_id" conversation_id (snd entry));
      [discriminate|].
    rewrite (andb_false_r (sql_literal conversation_id)). simpl.
    rewrite andb_false_r. reflexivity.
Qed.

Lemma unused_id_messages (conversation_id : string) (db : database)
    (where_ : pydict -> bool) :
  unused_id conversation_id db = true ->
  query_items where_ conversation_id (messages_container db) = []
  /\ forall item,
       forallb (fun entry => negb (same_key conversation_id item entry))
         (messages_container db) = true.
Proof.
  unfold unused_id. intros H. apply andb_prop in H. destruct H as [_ Hm]. split.
  - apply query_items_none. revert Hm. apply forallb_weaken. intros entry He.
    destruct (String.eqb (fst (fst entry)) conversation_id); [discriminate|].
    reflexivity.
  - intros item. revert Hm. apply forallb_weaken. intros entry He.
    unfold same_key.
    destruct (String.eqb (fst (fst entry)) conversation_id); [discriminate|].
    reflexivity.
Qed.

(** [_serialize_message] returns the full record of a message whose keys
    [json.dumps] accepts, and the simplified record otherwise. *)
Lemma serialize_message_cases (msg : Message) :
  _serialize_message msg
  = if message_keys_ok msg then
      [("message_id", PStr (message_id msg));
       ("role", PStr (role msg));
       ("content", PStr (content msg));
       ("created_at", PStr (created_at msg));
       ("citations", serialize_deep (PList (List.map citation_object (citations msg))));
       ("attachments",
         serialize_deep (PList (List.map attachment_object (attachments msg))));
       ("metadata", serialize_deep (PDict (metadata msg)))]
    else
      [("message_id", PStr (message_id msg));
       ("role", PStr (role msg));
       ("content", PStr "Error: Message content could not be serialized for storage");
       ("created_at", PStr (created_at msg));
       ("error", PStr "Serialization failure");
       ("citations", PList []);
       ("attachments", PList [])].
Proof.
  unfold _serialize_message. cbv zeta.
  match goal with
  | |- (if ?b then _ else _) = _ =>
      replace b with (message_keys_ok msg); [reflexivity|]
  end.
  cbn [json_ok forallb]. rewrite !serialize_deep_keys_ok. unfold message_keys_ok.
  cbn [keys_ok]. rewrite !forallb_map.
  rewrite (forallb_true (fun x => keys_ok (attachment_object x)) (attachments msg))
    by apply attachment_keys_ok.
  rewrite (forallb_ext' (fun x => keys_ok (citation_object x)) _ (citations msg)
             citation_object_keys_ok).
  cbn [keys_ok andb]. rewrite !andb_true_r. apply andb_comm.
Qed.

(** The record [_load_messages] returns for a message: its id, role and
    creation time, and its content, metadata, citations and attachments
    when [json.dumps] accepts its keys; otherwise the error text, no
    metadata and empty lists. *)
Lemma loaded_message_record (conversation_id user_id : string) (sequence : pyval)
    (msg : Message) :
  let record := loaded_message conversation_id user_id sequence msg in
  dict_get "message_id" record = Some (PStr (message_id msg))
  /\ dict_get "role" record = Some (PStr (role msg))
  /\ dict_get "created_at" record = Some (PStr (created_at msg))
  /\ dict_get "content" record
     = Some (PStr (if message_keys_ok msg then content msg
                   else "Error: Message content could not be serialized for storage"))
  /\ dict_get "metadata" record
     = (if message_keys_ok msg
        then Some (json_roundtrip (serialize_deep (PDict (metadata msg))))
        else None)
  /\ dict_get "citations" record
     = Some (if message_keys_ok msg
             then json_roundtrip
                    (serialize_deep (PList (List.map citation_object (citations msg))))
             else PList [])
  /\ dict_get "attachments" record
     = Some (PList (if message_keys_ok msg
                    then List.map
                           (fun a => json_roundtrip
                                       (serialize_deep (attachment_object a)))
                           (attachments msg)
                    else []))
  /\ dict_get "id" record = None
  /\ dict_get "sequence" record = None.
Proof.
  unfold loaded_message, stored_item, message_item.
  rewrite serialize_message_cases.
  destruct (message_keys_ok msg).
  - repeat (split; [reflexivity|]). split; [|split; reflexivity].
    rewrite <- serialized_attachments. reflexivity.
  - repeat split; reflexivity.
Qed.

(** What [_serialize_message] returns is always accepted. *)
Lemma serialize_message_json_ok (msg : Message) :
  json_ok (PDict (_serialize_message msg)) = true.
Proof.
  unfold _serialize_message.
  match goal with |- context [if ?b then _ else _] => destruct b eqn:E end.
  - exact E.
  - reflexivity.
Qed.

Lemma message_item_json_ok (conversation_id user_id : string) (n : Z)
    (msg : Message) :
  json_ok (PDict (message_item conversation_id user_id (PInt n) msg)) = true.
Proof.
  unfold message_item.
  repeat (apply json_ok_dict_set; [|reflexivity]).
  apply serialize_message_json_ok.
Qed.

(** The fields the backend adds to a message record. *)
Lemma message_item_fields (conversation_id user_id : string) (sequence : pyval)
    (msg : Message) :
  py_get "id" (message_item conversation_id user_id sequence msg)
  = PStr (conversation_id +:+ ":" +:+ message_id msg)
  /\ py_get "conversation_id" (message_item conversation_id user_id sequence msg)
     = PStr conversation_id
  /\ py_get "sequence" (message_item conversation_id user_id sequence msg)
     = sequence.
Proof.
  unfold message_item, py_get, dict_get_default.
  repeat split.
  - rewrite !dict_get_set_other by discriminate.
    rewrite dict_get_set_same. reflexivity.
  - rewrite !dict_get_set_other by discriminate.
    rewrite dict_get_set_same. reflexivity.
  - rewrite dict_get_set_same. reflexivity.
Qed.

Lemma py_get_roundtrip (k : string) (d : pydict) :
  py_get k (roundtrip_dict d) = json_roundtrip (py_get k d).
Proof.
  unfold py_get, dict_get_default. rewrite dict_get_roundtrip.
  destruct (dict_get k d); reflexivity.
Qed.

Lemma stored_item_fields (conversation_id user_id : string) (n : Z)
    (msg : Message) :
  field_is "conversation_id" conversation_id
    (stored_item conversation_id user_id (PInt n) msg)
  = sql_literal conversation_id
  /\ py_get "sequence" (stored_item conversation_id user_id (PInt n) msg) = PInt n.
Proof.
  destruct (message_item_fields conversation_id user_id (PInt n) msg)
    as (_ & Hc & Hs).
  unfold field_is, field_eq, stored_item. rewrite !py_get_roundtrip, Hc, Hs. simpl.
  rewrite String.eqb_refl, andb_true_r. split; reflexivity.
Qed.

Lemma field_is_true (field value : string) (item : pydict) :
  sql_literal value = true ->
  py_get field item = PStr value -> field_is field value item = true.
Proof.
  unfold field_is, field_eq. intros -> ->. simpl. apply String.eqb_refl.
Qed.

(** A value with a quote or a backslash finds nothing. *)
Lemma field_is_refused (field value : string) (item : pydict) :
  sql_literal value = false -> field_is field value item = false.
Proof. unfold field_is. intros ->. reflexivity. Qed.

Lemma query_items_one (where_ : pydict -> bool) (partition_key item : string)
    (body : pydict) :
  where_ body = true ->
  query_items where_ partition_key [(partition_key, item, body)] = [body].
Proof.
  intros H. unfold query_items. simpl. rewrite String.eqb_refl, H. reflexivity.
Qed.

(** One append to a conversation whose record is the last item of the
    conversation container and counts [n] messages: the message is stored
    last with sequence [n], and the record then counts [n + 1]. *)
Lemma append_step (now conversation_id user_id : string) (message : Message)
    (c0 msgs : container) (cd : pydict) (n : Z) :
  sql_literal conversation_id = true ->
  sql_literal user_id = true ->
  forallb (fun entry => negb (same_key user_id conversation_id entry)) c0 = true ->
  query_items
    (fun item => field_is "conversation_id" conversation_id item
                 && field_is "user_id" user_id item) user_id c0 = [] ->
  py_get "id" cd = PStr conversation_id ->
  py_get "conversation_id" cd = PStr conversation_id ->
  py_get "user_id" cd = PStr user_id ->
  dict_get "message_count" cd = Some (PInt n) ->
  roundtrip_dict cd = cd ->
  forallb (fun entry =>
             negb (same_key conversation_id
                     (conversation_id +:+ ":" +:+ message_id message) entry))
    msgs = true ->
  let cd' :=
    dict_set "last_updated_at" (PStr now)
      (dict_set "message_count" (PInt (n + 1)) cd) in
  append_message now conversation_id user_id message
    {| conversation_container := c0 ++ [(user_id, conversation_id, cd)];
       messages_container := msgs |}
  = ({| conversation_container := c0 ++ [(user_id, conversation_id, cd')];
        messages_container :=
          msgs ++ [(conversation_id,
                    conversation_id +:+ ":" +:+ message_id message,
                    stored_item conversation_id user_id (PInt n) message)] |},
     true)
  /\ py_get "id" cd' = PStr conversation_id
  /\ py_get "conversation_id" cd' = PStr conversation_id
  /\ py_get "user_id" cd' = PStr user_id
  /\ dict_get "message_count" cd' = Some (PInt (n + 1))
  /\ roundtrip_dict cd' = cd'.
Proof.
  intros Hsc Hsu Hkey Hq Hid Hcid Huid Hcount Hstable Hfree cd'.
  assert (Howned : (fun item => field_is "conversation_id" conversation_id item
                                && field_is "user_id" user_id item) cd = true).
  { simpl. rewrite !field_is_true by assumption. reflexivity. }
  assert (Hfields : py_get "id" cd' = PStr conversation_id
                    /\ py_get "conversation_id" cd' = PStr conversation_id
                    /\ py_get "user_id" cd' = PStr user_id
                    /\ dict_get "message_count" cd' = Some (PInt (n + 1))
                    /\ roundtrip_dict cd' = cd').
  { unfold cd', py_get, dict_get_default in *.
    rewrite !dict_get_set_other by discriminate.
    rewrite dict_get_set_same, !roundtrip_dict_set, Hstable. tauto. }
  assert (Hcnt : dict_get_default "message_count" (PInt 0) cd = PInt n)
    by (unfold dict_get_default; rewrite Hcount; reflexivity).
  split; [|exact Hfields].
  unfold append_message. cbn [conversation_container messages_container].
  rewrite query_items_app, Hq, (query_items_one _ _ _ _ Howned).
  cbn [app]. rewrite !Hcnt.
  rewrite message_item_json_ok. cbn [negb].
  unfold with_messages, with_conversations.
  cbn [conversation_container messages_container].
  rewrite query_items_app, Hq, (query_items_one _ _ _ _ Howned).
  cbn [app count_plus_one].
  destruct (message_item_fields conversation_id user_id (PInt n) message)
    as (Hmid & Hmcid & _).
  unfold upsert_item. rewrite Hmid, Hmcid. cbn [py_str].
  destruct Hfields as (Hid' & _ & Huid' & _ & Hstable').
  fold cd'. rewrite Huid', Hid'. cbn [py_str].
  rewrite upsert_at_last by assumption.
  rewrite upsert_at_new by assumption. rewrite Hstable'. reflexivity.
Qed.

Lemma append_cancel (a b c : string) : a +:+ b = a +:+ c -> b = c.
Proof.
  induction a as [|x a IH]; simpl; [auto|]. intros [= H]. apply IH. exact H.
Qed.

Lemma message_key_differs (conversation_id a b : string) (body : pydict) :
  a <> b ->
  negb (same_key conversation_id (conversation_id +:+ ":" +:+ b)
          (conversation_id, conversation_id +:+ ":" +:+ a, body)) = true.
Proof.
  intros Hne. unfold same_key. simpl.
  destruct (String.eqb_spec (conversation_id +:+ ":" +:+ a)
              (conversation_id +:+ ":" +:+ b)) as [E|_].
  - apply append_cancel in E. simpl in E. injection E as E. contradiction.
  - rewrite andb_false_r. reflexivity.
Qed.

Lemma py_get_some (k : string) (d : pydict) (s : string) :
  py_get k d = PStr s -> dict_get k d = Some (PStr s).
Proof.
  unfold py_get, dict_get_default.
  destruct (dict_get k d); [congruence|discriminate].
Qed.

(** Saving a conversation that has no messages under an unused id adds
    its metadata record, counting 0 messages, and nothing else. *)
Lemma save_new (conversation : Conversation) (user_id : string) (db : database) :
  messages conversation = [] ->
  json_ok (PDict (conv_metadata conversation)) = true ->
  unused_id (conversation_id conversation) db = true ->
  save_conversation conversation user_id db
  = ({| conversation_container :=
          conversation_container db
          ++ [(user_id, conversation_id conversation,
               roundtrip_dict (conversation_dict conversation user_id))];
        messages_container := messages_container db |}, true).
Proof.
  intros Hempty Hmeta Hunused. unfold save_conversation. rewrite Hempty.
  cbn [_save_messages negb].
  assert (Hok : json_ok (PDict (conversation_dict conversation user_id)) = true).
  { unfold conversation_dict. cbn [json_ok forallb]. cbn [json_ok] in Hmeta.
    rewrite Hmeta. reflexivity. }
  rewrite Hok. unfold with_conversations, upsert_item.
  change (py_get "user_id" (conversation_dict conversation user_id))
    with (PStr user_id).
  change (py_get "id" (conversation_dict conversation user_id))
    with (PStr (conversation_id conversation)).
  cbn [py_str].
  destruct (unused_id_conversations (conversation_id conversation) user_id db
              Hunused) as [Hkey _].
  rewrite upsert_at_new by assumption. reflexivity.
Qed.

Lemma order_by_sequence_three (b1 b2 b3 : pydict) :
  py_get "sequence" b1 = PInt 0 ->
  py_get "sequence" b2 = PInt 1 ->
  py_get "sequence" b3 = PInt 2 ->
  order_by_sequence [b1; b2; b3] = [b1; b2; b3].
Proof.
  intros H1 H2 H3. unfold order_by_sequence, sorted_by.
  cbn [fold_right insert_sorted]. rewrite H2, H3.
  change (py_lt_total (PInt 2) (PInt 1)) with false. cbv iota.
  cbn [insert_sorted]. rewrite H1, H2.
  change (py_lt_total (PInt 1) (PInt 0)) with false. cbv iota. reflexivity.
Qed.

(** Loading a conversation whose record is the last item of the
    conversation container and whose messages are the three last items of
    the messages container, stored with sequences 0, 1 and 2. *)
Lemma load_three (conversation_id user_id : string) (c0 m0 : container)
    (cd : pydict) (m1 m2 m3 : Message) :
  sql_literal conversation_id = true ->
  forallb (fun entry => negb (same_key user_id conversation_id entry)) c0 = true ->
  query_items (field_is "conversation_id" conversation_id) conversation_id m0 = [] ->
  py_get "id" cd = PStr conversation_id ->
  py_get "conversation_id" cd = PStr conversation_id ->
  exists loaded,
    load_conversation conversation_id user_id
      {| conversation_container := c0 ++ [(user_id, conversation_id, cd)];
         messages_container :=
           ((m0 ++ [(conversation_id,
                     conversation_id +:+ ":" +:+ message_id m1,
                     stored_item conversation_id user_id (PInt 0) m1)])
               ++ [(conversation_id,
                    conversation_id +:+ ":" +:+ message_id m2,
                    stored_item conversation_id user_id (PInt (0 + 1)) m2)])
              ++ [(conversation_id,
                   conversation_id +:+ ":" +:+ message_id m3,
                   stored_item conversation_id user_id (PInt (0 + 1 + 1)) m3)] |}
    = Some loaded
    /\ dict_get "messages" loaded
       = Some (PList [PDict (loaded_message conversation_id user_id (PInt 0) m1);
                      PDict (loaded_message conversation_id user_id (PInt 1) m2);
                      PDict (loaded_message conversation_id user_id (PInt 2) m3)]).
Proof.
  intros Hsc Hkey Hm0 Hid Hcid.
  unfold load_conversation. cbn [conversation_container].
  rewrite read_item_last by assumption.
  unfold assemble, _load_messages. cbn [messages_container].
  destruct (stored_item_fields conversation_id user_id 0 m1) as [Hf1 Hs1].
  destruct (stored_item_fields conversation_id user_id (0 + 1) m2) as [Hf2 Hs2].
  destruct (stored_item_fields conversation_id user_id (0 + 1 + 1) m3) as [Hf3 Hs3].
  rewrite Hsc in Hf1, Hf2, Hf3.
  rewrite !query_items_app, Hm0.
  rewrite !query_items_one by assumption. cbn [app].
  rewrite (order_by_sequence_three _ _ _ Hs1 Hs2 Hs3). cbn [List.map].
  apply py_get_some in Hid, Hcid.
  rewrite (dict_get_set_other "messages" "id") by discriminate.
  rewrite (dict_get_set_other "messages" "conversation_id") by discriminate.
  rewrite Hid, Hcid. cbn [py_eqb]. rewrite String.eqb_refl. cbn [option_map].
  eexists. split; [reflexivity|].
  match goal with |- context [if ?b then _ else _] => destruct b end.
  - rewrite !dict_get_del_other by discriminate. apply dict_get_set_same.
  - rewrite !dict_get_del_other by discriminate. apply dict_get_set_same.
Qed.

End CosmosDBFacts.

(** ** Appending *)

(** The contract of one in-memory append, in terms of what is loaded
    before and after. *)
Lemma mem_append_contract (now cid user_id : string) (message : Message)
    (s : InMemory.store) (stored : pydict) (l : list pyval) :
  InMemory.load_conversation cid user_id s = Some stored ->
  dict_get "messages" stored = Some (PList l) ->
  snd (InMemory.append_message now cid user_id message s) = true
  /\ exists stored',
       InMemory.load_conversation cid user_id
         (fst (InMemory.append_message now cid user_id message s)) = Some stored'
       /\ dict_get "messages" stored' = Some (PList (l ++ [PDict (model_dump message)]))
       /\ dict_get "last_updated_at" stored' = Some (PStr now)
       /\ forall k, k <> "messages" -> k <> "last_updated_at" ->
                    dict_get k stored' = dict_get k stored.
Proof.
  intros Hload Hget.
  destruct (InMemoryFacts.mem_append_present now cid user_id message s stored l
              Hload Hget) as [Hret Hafter].
  split; [exact Hret|]. eexists. split; [exact Hafter|]. split; [|split].
  - rewrite dict_get_set_other by discriminate. apply dict_get_set_same.
  - apply dict_get_set_same.
  - intros k Hm Hu. rewrite !dict_get_set_other by congruence. reflexivity.
Qed.

Lemma json_loaded_file (cid user_id : string) (fs : gmap string JsonFile.file)
    (doc : pyval) :
  JsonFile.load_conversation cid user_id fs = Some doc ->
  fs !! JsonFile._get_filepath cid user_id = Some (JsonFile.Json doc).
Proof.
  unfold JsonFile.load_conversation.
  destruct (fs !! JsonFile._get_filepath cid user_id) as [[d|]|]; congruence.
Qed.

(** The same contract for the file backend, on a file that holds a
    document, for a message [json.dumps] accepts. *)
Lemma json_append_contract (now cid user_id : string) (message : Message)
    (fs : gmap string JsonFile.file) (data : pydict) (l : list pyval) :
  JsonFile.load_conversation cid user_id fs = Some (PDict data) ->
  JsonFile.is_document (PDict data) ->
  dict_get "messages" data = Some (PList l) ->
  message_keys_ok message = true ->
  snd (JsonFile.append_message now cid user_id message fs) = true
  /\ exists data',
       JsonFile.load_conversation cid user_id
         (fst (JsonFile.append_message now cid user_id message fs))
       = Some (PDict data')
       /\ JsonFile.is_document (PDict data')
       /\ dict_get "messages" data'
          = Some (PList (l ++ [JsonFile.stored_message message]))
       /\ dict_get "last_updated_at" data' = Some (PStr now)
       /\ forall k, k <> "messages" -> k <> "last_updated_at" ->
                    dict_get k data' = dict_get k data.
Proof.
  intros Hload Hdoc Hget Hkeys.
  pose proof (json_loaded_file _ _ _ _ Hload) as Hfile.
  destruct (JsonFileFacts.json_append_present now cid user_id message fs data l
              Hfile Hdoc Hget Hkeys) as [Heq Hdoc'].
  rewrite Heq. cbn [fst snd]. split; [reflexivity|].
  eexists. split; [apply JsonFileFacts.json_load_after_write|].
  split; [exact Hdoc'|]. split; [|split].
  - rewrite dict_get_set_other by discriminate. apply dict_get_set_same.
  - apply dict_get_set_same.
  - intros k Hm Hu. rewrite !dict_get_set_other by congruence. reflexivity.
Qed.

(** What [model_dump] holds of an attachment: its fields, the type as
    the enum member with its name and value. *)
Lemma attachment_model_dump_record (a : Attachment) :
  exists fields type,
    attachment_model_dump a = PDict fields
    /\ dict_get "type" fields = Some (PObj type)
    /\ match a with
       | Media m =>
           dict_get "_name_" type
           = Some (PStr (match media_type m with
                         | IMAGE => "IMAGE" | AUDIO => "AUDIO"
                         | VIDEO => "VIDEO" | FILE => "FILE"
                         end))
           /\ dict_get "_value_" type
              = Some (PStr (match media_type m with
                            | IMAGE => "image" | AUDIO => "audio"
                            | VIDEO => "video" | FILE => "file"
                            end))
           /\ dict_get "content" fields = Some (PStr (media_content m))
           /\ dict_get "data_description" fields
              = Some (PStr (media_data_description m))
           /\ dict_get "start_time" fields = Some (PStr (media_start_time m))
           /\ dict_get "autoplay" fields = Some (PBool (autoplay m))
           /\ dict_get "loop" fields = Some (PBool (loop m))
       | Graph g =>
           dict_get "_name_" type
           = Some (PStr (match graph_type g with
                         | BAR => "BAR" | PIE => "PIE" | LINE => "LINE"
                         | STACKED_BAR => "STACKED_BAR"
                         end))
           /\ dict_get "_value_" type
              = Some (PStr (match graph_type g with
                            | BAR => "bar" | PIE => "pie" | LINE => "line"
                            | STACKED_BAR => "stacked_bar"
                            end))
           /\ dict_get "data_description" fields
              = Some (PStr (graph_data_description g))
           /\ dict_get "dataset_json" fields = Some (PStr (dataset_json g))
           /\ dict_get "x" fields = Some (PStr (graph_x g))
           /\ dict_get "y" fields = Some (PList (List.map PStr (graph_y g)))
       end.
Proof.
  destruct a as [[t ? ? ? ? ?]|[t ? ? ? ?]]; destruct t; eexists; eexists;
    (split; [reflexivity|]); (split; [reflexivity|]); repeat split; reflexivity.
Qed.



(** C7 does not hold as stated.  The message [keyed_message] carries the
    metadata [{"board": {(1, 2): "knight"}}]; the deep serializer keeps
    the tuple key and [json.dumps] rejects it.  Appended to the new
    conversation of [alice], it is kept as it is in memory; the document
    database returns [true] and stores the error text in place of its
    content, without its metadata, so that loading does not return the
    message that was appended; the file backend returns [false] for a
    conversation that exists, which then no longer loads. *)
Lemma append_rejected_key_not_returned :
  message_keys_ok Samples.keyed_message = false
  /\ content Samples.keyed_message = "Where is the knight?"
  /\ (snd (InMemory.append_message "2024-05-01T10:00:03" "c1" "alice"
             Samples.keyed_message Samples.new_store) = true
      /\ exists loaded,
           InMemory.load_conversation "c1" "alice"
             (fst (InMemory.append_message "2024-05-01T10:00:03" "c1" "alice"
                     Samples.keyed_message Samples.new_store)) = Some loaded
           /\ dict_get "messages" loaded
              = Some (PList [PDict (model_dump Samples.keyed_message)]))
  /\ (snd (CosmosDB.append_message "2024-05-01T10:00:03" "c1" "alice"
             Samples.keyed_message Samples.new_database) = true
      /\ exists loaded,
           CosmosDB.load_conversation "c1" "alice"
             (fst (CosmosDB.append_message "2024-05-01T10:00:03" "c1" "alice"
                     Samples.keyed_message Samples.new_database)) = Some loaded
           /\ dict_get "messages" loaded
              = Some (PList
                        [PDict
                           [("message_id", PStr "m4"); ("role", PStr "user");
                            ("content",
                              PStr "Error: Message content could not be serialized for storage");
                            ("created_at", PStr "2024-05-01T10:00:03");
                            ("error", PStr "Serialization failure");
                            ("citations", PList []); ("attachments", PList []);
                            ("conversation_id", PStr "c1");
                            ("user_id", PStr "alice")]]))
  /\ (is_Some (JsonFile.load_conversation "c1" "alice" Samples.new_directory)
      /\ snd (JsonFile.append_message "2024-05-01T10:00:03" "c1" "alice"
                Samples.keyed_message Samples.new_directory) = false
      /\ JsonFile.load_conversation "c1" "alice"
           (fst (JsonFile.append_message "2024-05-01T10:00:03" "c1" "alice"
                   Samples.keyed_message Samples.new_directory)) = None).
Proof.
  split; [reflexivity|]. split; [reflexivity|]. split; [|split].
  - split; [reflexivity|]. eexists. split; vm_compute; reflexivity.
  - split; [vm_compute; reflexivity|]. eexists. split; vm_compute; reflexivity.
  - split; [vm_compute; eauto|]. split; vm_compute; reflexivity.
Qed.

(** ** Resetting *)

Lemma mem_reset_absent (now cid user_id : string) (s : InMemory.store) :
  InMemory.load_conversation cid user_id s = None ->
  InMemory.reset_conversation now cid user_id s = (s, Returned false).
Proof.
  unfold InMemory.load_conversation, InMemory.reset_conversation.
  destruct (dict_get user_id s) as [convs|]; [|reflexivity].
  intros ->. reflexivity.
Qed.

(** X16: an in-memory reset of a stored conversation: the messages are gone,
    [last_updated_at] is the time of the reset, and the identifier, the
    agent, the title, the creation time and the metadata are those that
    were stored. *)
Lemma mem_reset_present (now cid user_id : string) (s : InMemory.store)
    (stored : pydict) (c a t created meta : pyval) :
  InMemory.load_conversation cid user_id s = Some stored ->
  dict_get "conversation_id" stored = Some c ->
  dict_get "agent_id" stored = Some a ->
  dict_get "title" stored = Some t ->
  dict_get "created_at" stored = Some created ->
  dict_get "metadata" stored = Some meta ->
  snd (InMemory.reset_conversation now cid user_id s) = Returned true
  /\ InMemory.load_conversation cid user_id
       (fst (InMemory.reset_conversation now cid user_id s))
     = Some [("conversation_id", c); ("user_id", PStr user_id); ("agent_id", a);
             ("title", t); ("created_at", created);
             ("last_updated_at", PStr now); ("messages", PList []);
             ("metadata", meta)].
Proof.
  unfold InMemory.load_conversation, InMemory.reset_conversation.
  destruct (dict_get user_id s) as [convs|]; [|discriminate].
  intros -> -> -> -> -> ->. cbn [fst snd]. split; [reflexivity|].
  rewrite !dict_get_set_same. reflexivity.
Qed.

Lemma mem_reset_present_witness :
  snd (InMemory.reset_conversation "2024-05-02T00:00:00" "c1" "alice"
         Samples.alice_store) = Returned true
  /\ InMemory.load_conversation "c1" "alice"
       (fst (InMemory.reset_conversation "2024-05-02T00:00:00" "c1" "alice"
               Samples.alice_store))
     = Some [("conversation_id", PStr "c1"); ("user_id", PStr "alice");
             ("agent_id", PStr "math");
             ("title", PStr "Conversation with Math Agent");
             ("created_at", PStr "2024-05-01T09:59:00");
             ("last_updated_at", PStr "2024-05-02T00:00:00");
             ("messages", PList []);
             ("metadata", PDict [("user_id", PStr "alice")])].
Proof.
  apply (mem_reset_present "2024-05-02T00:00:00" "c1" "alice" Samples.alice_store
           (InMemory.saved_conversation Samples.answered_conversation "alice"));
    reflexivity.
Defined.

(** X21: a reset in the file backend, in terms of what is loaded before
    and after: it returns [true], the messages are gone,
    [last_updated_at] is the time of the reset, and nothing else
    changes. *)
Lemma json_reset_contract (now cid user_id : string)
    (fs : gmap string JsonFile.file) (data : pydict) :
  JsonFile.load_conversation cid user_id fs = Some (PDict data) ->
  JsonFile.is_document (PDict data) ->
  snd (JsonFile.reset_conversation now cid user_id fs) = true
  /\ exists data',
       JsonFile.load_conversation cid user_id
         (fst (JsonFile.reset_conversation now cid user_id fs)) = Some (PDict data')
       /\ dict_get "messages" data' = Some (PList [])
       /\ dict_get "last_updated_at" data' = Some (PStr now)
       /\ forall k, k <> "messages" -> k <> "last_updated_at" ->
                    dict_get k data' = dict_get k data.
Proof.
  intros Hload Hdoc.
  assert (Hfile : fs !! JsonFile._get_filepath cid user_id
                  = Some (JsonFile.Json (PDict data))).
  { unfold JsonFile.load_conversation in Hload.
    destruct (fs !! JsonFile._get_filepath cid user_id) as [[doc|]|];
      congruence. }
  rewrite (JsonFileFacts.json_reset_present now cid user_id fs data Hfile Hdoc).
  cbn [fst snd]. split; [reflexivity|].
  eexists. split; [apply JsonFileFacts.json_load_after_write|]. split; [|split].
  - rewrite dict_get_set_other by discriminate. apply dict_get_set_same.
  - apply dict_get_set_same.
  - intros k Hm Hu. rewrite !dict_get_set_other by congruence. reflexivity.
Qed.

Lemma json_reset_contract_witness :
  snd (JsonFile.reset_conversation "2024-05-02T00:00:00" "c1" "alice"
         Samples.alice_directory) = true
  /\ exists data',
       JsonFile.load_conversation "c1" "alice"
         (fst (JsonFile.reset_conversation "2024-05-02T00:00:00" "c1" "alice"
                 Samples.alice_directory)) = Some (PDict data')
       /\ dict_get "messages" data' = Some (PList [])
       /\ dict_get "title" data' = Some (PStr "Conversation with Math Agent").
Proof.
  destruct (json_reset_contract "2024-05-02T00:00:00" "c1" "alice"
              Samples.alice_directory
              (JsonFile.saved_document Samples.answered_conversation "alice"))
    as (H1 & data' & H2 & H3 & _ & H5).
  - vm_compute. reflexivity.
  - split; vm_compute; reflexivity.
  - split; [exact H1|]. exists data'. split; [exact H2|]. split; [exact H3|].
    rewrite H5 by discriminate. reflexivity.
Defined.

(** C8 fails on the document-database backend: [bob] has no conversation
    [c1], and his [reset_conversation] returns [false], yet the call has
    emptied the messages container, which held the message of [alice]'s
    conversation [c1]; her next load finds no message. *)
Theorem reset_conversation_cosmos_changes_store_when_absent :
  CosmosDB.load_conversation "c1" "bob" Samples.alice_database = None
  /\ snd (CosmosDB.reset_conversation "2024-05-02T00:00:00" "c1" "bob"
            Samples.alice_database) = false
  /\ length (CosmosDB.messages_container Samples.alice_database) = 1%nat
  /\ CosmosDB.messages_container
       (fst (CosmosDB.reset_conversation "2024-05-02T00:00:00" "c1" "bob"
               Samples.alice_database)) = []
  /\ (exists loaded,
        CosmosDB.load_conversation "c1" "alice" Samples.alice_database
        = Some loaded
        /\ dict_get "messages" loaded
           = Some (PList [PDict (CosmosDB.loaded_message "c1" "alice" (PInt 0)
                                   Samples.message_2)]))
  /\ (exists loaded,
        CosmosDB.load_conversation "c1" "alice"
          (fst (CosmosDB.reset_conversation "2024-05-02T00:00:00" "c1" "bob"
                  Samples.alice_database))
        = Some loaded
        /\ dict_get "messages" loaded = Some (PList [])).
Proof.
  split; [reflexivity|]. split; [reflexivity|]. split; [reflexivity|].
  split; [reflexivity|]. split.
  - eexists. split; [vm_compute; reflexivity|]. vm_compute. reflexivity.
  - eexists. split; [vm_compute; reflexivity|]. reflexivity.
Qed.

(** ** Isolation between users *)

Lemma string_length_append (a b : string) :
  String.length (a +:+ b) = (String.length a + String.length b)%nat.
Proof. induction a as [|x a IH]; simpl; [reflexivity|]. rewrite IH. reflexivity. Qed.

Lemma append_cancel_r (a b c : string) : a +:+ c = b +:+ c -> a = b.
Proof.
  revert b. induction a as [|x a IH]; intros [|y b] H; simpl in H.
  - reflexivity.
  - apply (f_equal String.length) in H.
    rewrite !string_length_append in H. simpl in H. lia.
  - apply (f_equal String.length) in H.
    rewrite !string_length_append in H. simpl in H. lia.
  - injection H as -> H. f_equal. apply IH. exact H.
Qed.

(** *** Paths of the file backend *)

Lemma append_assoc (a b c : string) : (a +:+ b) +:+ c = a +:+ (b +:+ c).
Proof.
  induction a as [|x a IH]; [reflexivity|].
  change (String x ((a +:+ b) +:+ c) = String x (a +:+ (b +:+ c))).
  rewrite IH. reflexivity.
Qed.

Lemma no_separator_append (a b : string) :
  JsonFile.no_separator (a +:+ b)
  = JsonFile.no_separator a && JsonFile.no_separator b.
Proof.
  unfold JsonFile.no_separator. induction a as [|x a IH]; [reflexivity|].
  change (list_ascii_of_string (String x a +:+ b))
    with (x :: list_ascii_of_string (a +:+ b)).
  cbn [forallb list_ascii_of_string]. rewrite IH. apply andb_assoc.
Qed.

(** A path without separator has one component, itself. *)
Lemma path_components_plain (path : string) :
  forall current,
    JsonFile.no_separator path = true ->
    JsonFile.path_components current path = [current +:+ path].
Proof.
  unfold JsonFile.no_separator.
  induction path as [|c path IH]; intros current H.
  - simpl. f_equal. symmetry.
    induction current as [|x current IHc]; [reflexivity|].
    change (String x (current +:+ "") = String x current). congruence.
  - cbn [list_ascii_of_string forallb] in H. apply andb_prop in H.
    destruct H as [Hc Hp]. cbn [JsonFile.path_components].
    destruct (Ascii.eqb c "/"); [discriminate|].
    rewrite IH by exact Hp. f_equal. apply append_assoc.
Qed.

Lemma resolve_plain (path : string) :
  JsonFile.no_separator path = true -> (2 <= String.length path)%nat ->
  JsonFile.resolve path = path.
Proof.
  intros Hsep Hlen. unfold JsonFile.resolve.
  rewrite path_components_plain by exact Hsep.
  change ("" +:+ path) with path. cbn [List.filter].
  assert (Hp : String.prefix "/" path = false).
  { destruct path as [|c path]; [reflexivity|].
    unfold JsonFile.no_separator in Hsep.
    cbn [list_ascii_of_string forallb] in Hsep. apply andb_prop in Hsep.
    destruct Hsep as [Hc _]. cbn [String.prefix].
    destruct (Ascii.ascii_dec "/" c) as [E|_]; [|reflexivity].
    subst c. simpl in Hc. discriminate. }
  rewrite Hp.
  destruct (String.eqb_spec path "") as [->|_]; [simpl in Hlen; lia|].
  destruct (String.eqb_spec path ".") as [->|_]; [simpl in Hlen; lia|].
  reflexivity.
Qed.

(** For ids without a path separator the file is named
    [{user_id}_{conversation_id}.json]. *)
Lemma json_filepath_plain (cid user_id : string) :
  JsonFile.no_separator user_id = true -> JsonFile.no_separator cid = true ->
  JsonFile._get_filepath cid user_id = user_id +:+ "_" +:+ cid +:+ ".json".
Proof.
  intros Hu Hc. unfold JsonFile._get_filepath. apply resolve_plain.
  - rewrite !no_separator_append, Hu, Hc. reflexivity.
  - rewrite !string_length_append. simpl. lia.
Qed.

(** For one conversation id, two users have two files. *)
Lemma json_filepath_user (cid a b : string) :
  JsonFile.no_separator a = true -> JsonFile.no_separator b = true ->
  JsonFile.no_separator cid = true ->
  a <> b -> JsonFile._get_filepath cid a <> JsonFile._get_filepath cid b.
Proof.
  intros Ha Hb Hc Hne H. apply Hne.
  rewrite !json_filepath_plain in H by assumption.
  eapply append_cancel_r. exact H.
Qed.

Lemma json_write_frame (path other : string) (data : pyval)
    (fs : gmap string JsonFile.file) :
  other <> path -> fst (JsonFile.write_json path data fs) !! other = fs !! other.
Proof.
  intros Hne. unfold JsonFile.write_json.
  destruct (JsonFile.can_open path fs); [|reflexivity].
  destruct (json_ok data); cbn [fst]; apply lookup_insert_ne; congruence.
Qed.

(** In the in-memory backend, and in the file backend for ids without a
    path separator, saving under one user changes nothing of what
    another user loads under the same conversation id. *)
Lemma load_after_foreign_save (conversation : Conversation) (a b : string)
    (s : InMemory.store) (fs : gmap string JsonFile.file) :
  a <> b ->
  InMemory.load_conversation (conversation_id conversation) b
    (fst (InMemory.save_conversation conversation a s))
  = InMemory.load_conversation (conversation_id conversation) b s
  /\ (JsonFile.no_separator a = true -> JsonFile.no_separator b = true ->
      JsonFile.no_separator (conversation_id conversation) = true ->
      JsonFile.load_conversation (conversation_id conversation) b
        (fst (JsonFile.save_conversation conversation a fs))
      = JsonFile.load_conversation (conversation_id conversation) b fs).
Proof.
  intros Hne. split.
  - unfold InMemory.load_conversation.
    rewrite InMemoryFacts.mem_save_other_user by assumption. reflexivity.
  - intros Ha Hb Hc.
    unfold JsonFile.load_conversation, JsonFile.save_conversation.
    rewrite json_write_frame; [reflexivity|].
    apply json_filepath_user; auto.
Qed.

(** X17: the in-memory operations of one user (append, reset, delete)
    leave every other user's conversations as they are. *)
Lemma mem_other_user_untouched (now cid a b : string) (message : Message)
    (s : InMemory.store) :
  a <> b ->
  dict_get a (fst (InMemory.append_message now cid b message s)) = dict_get a s
  /\ dict_get a (fst (InMemory.reset_conversation now cid b s)) = dict_get a s
  /\ dict_get a (fst (InMemory.delete_conversation cid b s)) = dict_get a s.
Proof.
  intros Hne.
  assert (Hba : b <> a) by congruence.
  unfold InMemory.append_message, InMemory.reset_conversation,
    InMemory.delete_conversation.
  destruct (dict_get b s) as [convs|]; [|repeat split; reflexivity].
  repeat split.
  - destruct (dict_get cid convs) as [conversation|]; [|reflexivity].
    destruct (dict_get "messages" _) as [[]|]; cbn [fst]; try reflexivity.
    apply dict_get_set_other. exact Hba.
  - destruct (dict_get cid convs) as [conversation|]; [|reflexivity].
    repeat match goal with
           | |- context [match dict_get ?k conversation with _ => _ end] =>
               destruct (dict_get k conversation)
           end; cbn [fst]; try reflexivity.
    apply dict_get_set_other. exact Hba.
  - destruct (dict_has cid convs); cbn [fst]; [|reflexivity].
    apply dict_get_set_other. exact Hba.
Qed.

Lemma mem_other_user_untouched_witness :
  "alice" <> "bob"
  /\ dict_get "alice"
       (fst (InMemory.delete_conversation "c1" "bob" Samples.alice_store))
     = dict_get "alice" Samples.alice_store.
Proof.
  assert (H : "alice" <> "bob") by discriminate.
  split; [exact H|].
  exact (proj2 (proj2 (mem_other_user_untouched "2024-05-02T00:00:00" "c1" "alice" "bob"
                  Samples.message_1 Samples.alice_store H))).
Defined.

(** C6 fails outside the in-memory backend.  In the document database,
    [bob], who has no conversation [c1], resets [c1]: the call returns
    [false] and has deleted the message of [alice]'s conversation [c1].
    In the file backend, files are named [user_conversation.json]:
    listing for [alice] returns the conversation that [alice_smith]
    saved, and [alice] loads it, messages included, as conversation
    [smith_c1]. *)
Theorem isolation_broken_across_users :
  (CosmosDB.load_conversation "c1" "bob" Samples.alice_database = None
   /\ CosmosDB.reset_conversation "2024-05-02T00:00:00" "c1" "bob"
        Samples.alice_database
      = (CosmosDB.with_messages Samples.alice_database [], false)
   /\ CosmosDB.messages_container Samples.alice_database
      = [("c1", "c1:m2",
          CosmosDB.stored_item "c1" "alice" (PInt 0) Samples.message_2)])
  /\ (JsonFile.load_conversation "c1" "alice" Samples.alice_smith_directory = None
      /\ items (JsonFile.list_conversations "alice" None 50 None
                  Samples.alice_smith_directory)
         = [[("conversation_id", PStr "c1"); ("user_id", PStr "alice_smith");
             ("agent_id", PStr "math");
             ("title", PStr "Conversation with Math Agent");
             ("created_at", PStr "2024-05-01T09:59:00");
             ("last_updated_at", PStr "2024-05-01T10:00:01");
             ("metadata", PDict [("user_id", PStr "alice")])]]
      /\ JsonFile.load_conversation "smith_c1" "alice" Samples.alice_smith_directory
         = JsonFile.load_conversation "c1" "alice_smith"
             Samples.alice_smith_directory
      /\ JsonFile.load_conversation "c1" "alice_smith"
           Samples.alice_smith_directory
         = Some (PDict (JsonFile.saved_document Samples.answered_conversation
                          "alice_smith"))).
Proof.
  split.
  - split; [reflexivity|]. split; vm_compute; reflexivity.
  - split; [reflexivity|]. split; [vm_compute; reflexivity|].
    split; vm_compute; reflexivity.
Qed.

(** ** Listing *)

(** In-memory paging over the two sample conversations, one per page: the
    most recently updated one first, then, with the token of the first
    page, the other one and no further token; the count is 2 on both
    pages. *)
Example in_memory_two_pages :
  InMemory.list_conversations "alice" None 1 None Samples.alice_two_store
  = Returned
      {| items := [InMemory.saved_conversation Samples.answered_conversation "alice"];
         continuation_token := Some "index:1";
         total_count := 2 |}
  /\ InMemory.list_conversations "alice" None 1 (Some "index:1")
       Samples.alice_two_store
     = Returned
         {| items := [InMemory.saved_conversation Samples.older_conversation "alice"];
            continuation_token := None;
            total_count := 2 |}.
Proof. split; vm_compute; reflexivity. Qed.

(** C1 fails on two backends.  In memory, the item listed for [alice]'s
    conversation is the whole stored dictionary, message bodies included.
    In the file backend, [total_count] is the number of the user's files
    whatever the filters (2 with a filter that matches nothing), and the
    items come in descending order of file name, here with the older
    [last_updated_at] first. *)
Theorem list_conversations_breaks_contract :
  (InMemory.list_conversations "alice" None 50 None Samples.alice_store
   = Returned
       {| items := [InMemory.saved_conversation Samples.answered_conversation "alice"];
          continuation_token := None;
          total_count := 1 |}
   /\ dict_get "messages"
        (InMemory.saved_conversation Samples.answered_conversation "alice")
      = Some (PList [InMemory.saved_message Samples.message_2])
   /\ InMemory.saved_message Samples.message_2
      = PDict [("message_id", PStr "m2"); ("role", PStr "assistant");
               ("content", PStr "9");
               ("created_at", PStr "2024-05-01T10:00:01");
               ("citations", PList []);
               ("metadata", PDict [("tool_usage", PList [])])])
  /\ (JsonFile.list_conversations "alice" (Some [("title", PStr "No such title")])
        50 None Samples.alice_directory
      = {| items := []; continuation_token := None; total_count := 2 |}
      /\ List.map (py_get "last_updated_at")
           (items (JsonFile.list_conversations "alice" None 50 None
                     Samples.alice_directory))
         = [PStr "2024-04-01T08:00:00"; PStr "2024-05-01T10:00:01"]
      /\ List.map (py_get "conversation_id")
           (items (JsonFile.list_conversations "alice" None 50 None
                     Samples.alice_directory))
         = [PStr "c2"; PStr "c1"]).
Proof.
  split.
  - split; [vm_compute; reflexivity|]. split; reflexivity.
  - split; [vm_compute; reflexivity|]. split; vm_compute; reflexivity.
Qed.

(** *** Continuation tokens *)

Lemma substring_all (s : string) : substring 0 (String.length s) s = s.
Proof. induction s as [|c s IH]; simpl; [reflexivity|]. rewrite IH. reflexivity. Qed.

(** [int] reads back what [str] prints. *)
Lemma py_int_str_of_Z (z : Z) : py_int (str_of_Z z) = Some z.
Proof.
  unfold str_of_Z.
  assert (H : NilZero.int_of_string (NilZero.string_of_int (Z.to_int z))
              = Some (Z.to_int z)).
  { apply NilZero.isi; destruct z; simpl; try discriminate;
      intros [= E]; exact (DecimalPos.Unsigned.to_uint_nonnil _ E). }
  destruct (NilZero.string_of_int (Z.to_int z)) as [|c s] eqn:E;
    [discriminate|].
  unfold py_int. destruct (Ascii.eqb_spec c "+") as [->|_].
  - simpl in H. destruct (NilEmpty.uint_of_string s); discriminate.
  - rewrite H. simpl. rewrite DecimalZ.of_to. reflexivity.
Qed.

Lemma index_token_shape (x : string) :
  negb (String.eqb ("index:" +:+ x) "") && startswith "index:" ("index:" +:+ x)
  = true
  /\ str_drop 6 ("index:" +:+ x) = x.
Proof.
  unfold startswith, str_drop. simpl. split.
  - destruct x; reflexivity.
  - rewrite Nat.sub_0_r. apply substring_all.
Qed.

(** The token [list_conversations] returns for an index is read back as
    that index. *)
Lemma start_index_of_token (i : Z) :
  start_index_of (Some ("index:" +:+ str_of_Z i)) = i.
Proof.
  unfold start_index_of.
  destruct (index_token_shape (str_of_Z i)) as [-> ->].
  rewrite py_int_str_of_Z. reflexivity.
Qed.

(** *** Paging in memory *)

Lemma py_slice_range {A} (l : list A) (i e : Z) :
  0 <= i -> i <= e -> e <= Z.of_nat (length l) ->
  py_slice (Some i) (Some e) l = firstn (Z.to_nat (e - i)) (skipn (Z.to_nat i) l).
Proof.
  intros Hi Hie He. unfold py_slice, py_index.
  destruct (Z.ltb_spec i 0); [lia|]. destruct (Z.ltb_spec e 0); [lia|].
  rewrite !Z.min_l by lia. reflexivity.
Qed.

Section InMemoryPaging.
Variables (user_id : string) (filters : option pydict) (page_size : Z).
Variables (s : InMemory.store) (convs : dict pydict) (sorted : list pydict).
Hypothesis Huser : dict_get user_id s = Some convs.
Hypothesis Hsorted :
  py_sorted (dict_get_default "last_updated_at" (PStr "")) true
    (List.filter (matches_filters (match filters with Some f => f | None => [] end))
       (dict_values convs)) = Some sorted.
Hypothesis Hsize : 0 < page_size.

(** One page, for a token that reads as an index within the listing. *)
Lemma mem_page (token : option string) :
  0 <= start_index_of token <= Z.of_nat (length sorted) ->
  InMemory.list_conversations user_id filters page_size token s
  = Returned
      {| items :=
           firstn (Z.to_nat (Z.min (start_index_of token + page_size)
                               (Z.of_nat (length sorted))
                             - start_index_of token))
             (skipn (Z.to_nat (start_index_of token)) sorted);
         continuation_token :=
           if Z.min (start_index_of token + page_size) (Z.of_nat (length sorted))
              <? Z.of_nat (length sorted)
           then Some ("index:" +:+
                      str_of_Z (Z.min (start_index_of token + page_size)
                                  (Z.of_nat (length sorted))))
           else None;
         total_count := Z.of_nat (length sorted) |}.
Proof.
  intros Hi. unfold InMemory.list_conversations. rewrite Huser. cbv zeta.
  rewrite Hsorted.
  pose proof (Permutation_length (py_sorted_perm _ _ _ _ Hsorted)) as Hlen.
  f_equal. f_equal; [|f_equal; symmetry; exact Hlen].
  apply py_slice_range; lia.
Qed.

(** Following the tokens from an index on enumerates the rest of the
    listing, page by page. *)
Lemma mem_pages_from (fuel : nat) :
  forall token,
    0 <= start_index_of token <= Z.of_nat (length sorted) ->
    (1 <= fuel)%nat ->
    Z.of_nat (length sorted) - start_index_of token <= Z.of_nat fuel * page_size ->
    exists pages,
      InMemory.all_pages fuel user_id filters page_size token s = Some pages
      /\ concat (List.map items pages)
         = skipn (Z.to_nat (start_index_of token)) sorted
      /\ Forall (fun page => total_count page = Z.of_nat (length sorted)) pages
      /\ Z.of_nat (length pages)
         = Z.max 1 ((Z.of_nat (length sorted) - start_index_of token
                     + page_size - 1) / page_size).
Proof.
  induction fuel as [|fuel IH]; intros token Hi Hfuel Hleft; [lia|].
  cbn [InMemory.all_pages]. rewrite (mem_page token Hi).
  cbn [continuation_token].
  set (i := start_index_of token) in *.
  set (n := Z.of_nat (length sorted)) in *.
  destruct (Z.ltb_spec (Z.min (i + page_size) n) n) as [Hmore|Hlast].
  - assert (Hnext : Z.min (i + page_size) n = i + page_size) by lia.
    rewrite Hnext.
    destruct (IH (Some ("index:" +:+ str_of_Z (i + page_size))))
      as (rest & Hrest & Hitems & Hcount & Hlen).
    + rewrite start_index_of_token. lia.
    + destruct fuel; [nia|lia].
    + rewrite start_index_of_token. nia.
    + rewrite Hrest. cbn [option_map]. eexists. split; [reflexivity|].
      rewrite start_index_of_token in Hitems, Hlen.
      cbn [List.map concat items length]. split; [|split].
      * rewrite Hitems.
        replace (i + page_size - i) with page_size by lia.
        replace (Z.to_nat (i + page_size))
          with (Z.to_nat page_size + Z.to_nat i)%nat by lia.
        rewrite <- skipn_skipn. apply firstn_skipn.
      * constructor; [reflexivity|exact Hcount].
      * rewrite Nat2Z.inj_succ, Hlen.
        replace (n - i + page_size - 1)
          with ((n - (i + page_size) + page_size - 1) + 1 * page_size) by lia.
        rewrite Z.div_add by lia.
        assert (1 <= (n - (i + page_size) + page_size - 1) / page_size)
          by (apply Z.div_le_lower_bound; lia).
        lia.
  - eexists. split; [reflexivity|].
    cbn [List.map concat items length]. split; [|split].
    + rewrite app_nil_r. apply firstn_all2. rewrite length_skipn. lia.
    + constructor; [reflexivity|constructor].
    + assert ((n - i + page_size - 1) / page_size <= 1).
      { apply Z.lt_succ_r. apply Z.div_lt_upper_bound; lia. }
      lia.
Qed.

(** X11: from the first call on, for a positive page size: every
    conversation of the sorted listing is on exactly one page, each page reports the size of the filtered set,
    and there are [ceil (n / page_size)] pages (one empty page when there
    is nothing to list). *)
Lemma mem_pagination :
  exists pages,
    InMemory.all_pages (S (length sorted)) user_id filters page_size None s
    = Some pages
    /\ concat (List.map items pages) = sorted
    /\ Permutation sorted
         (List.filter
            (matches_filters (match filters with Some f => f | None => [] end))
            (dict_values convs))
    /\ Forall (fun page => total_count page = Z.of_nat (length sorted)) pages
    /\ Z.of_nat (length pages)
       = Z.max 1 ((Z.of_nat (length sorted) + page_size - 1) / page_size).
Proof.
  destruct (mem_pages_from (S (length sorted)) None) as (pages & H1 & H2 & H3 & H4).
  - simpl. lia.
  - lia.
  - simpl start_index_of. nia.
  - exists pages. split; [exact H1|]. split; [exact H2|].
    split; [eapply py_sorted_perm; exact Hsorted|]. split; [exact H3|].
    rewrite H4. simpl start_index_of. rewrite Z.sub_0_r. reflexivity.
Qed.

End InMemoryPaging.

Lemma mem_pagination_witness :
  exists pages,
    InMemory.all_pages 3 "alice" None 1 None Samples.alice_two_store = Some pages
    /\ concat (List.map items pages)
       = [InMemory.saved_conversation Samples.answered_conversation "alice";
          InMemory.saved_conversation Samples.older_conversation "alice"]
    /\ Z.of_nat (length pages) = 2.
Proof.
  destruct (mem_pagination "alice" None 1 Samples.alice_two_store
              (dict_get_default "alice" [] Samples.alice_two_store)
              [InMemory.saved_conversation Samples.answered_conversation "alice";
               InMemory.saved_conversation Samples.older_conversation "alice"])
    as (pages & H1 & H2 & _ & _ & H5).
  - reflexivity.
  - vm_compute. reflexivity.
  - lia.
  - exists pages. split; [exact H1|]. split; [exact H2|]. exact H5.
Defined.

(** * Further properties of the agents *)

Lemma py_eqb_str (v : pyval) (s : string) :
  py_eqb v (PStr s) = true -> v = PStr s.
Proof.
  destruct v; simpl; try discriminate.
  intros H. apply String.eqb_eq in H. congruence.
Qed.

(** ** Roles and bounds of the pruners *)

Lemma sk_readd_in_role (x m : SemanticKernel.ChatMessageContent) :
  In m (SemanticKernel.readd x) ->
  m = x /\ (SemanticKernel.cm_role m = "system"
            \/ SemanticKernel.cm_role m = "user"
            \/ SemanticKernel.cm_role m = "assistant").
Proof.
  unfold SemanticKernel.readd. destruct x as [r c].
  cbn [SemanticKernel.cm_role SemanticKernel.cm_content].
  destruct (String.eqb_spec r "system") as [->|_];
    [intros [<-|[]]; split; [reflexivity|left; reflexivity]|].
  destruct (String.eqb_spec r "user") as [->|_];
    [intros [<-|[]]; split; [reflexivity|right; left; reflexivity]|].
  destruct (String.eqb_spec r "assistant") as [->|_];
    [intros [<-|[]]; split; [reflexivity|right; right; reflexivity]|].
  intros [].
Qed.

(** X1: at or above the bound, the Semantic Kernel pruner rebuilds the
    history from system, user and assistant messages only: every kept
    message was in the history and has one of these three roles, so a
    message of any other role is dropped, however recent it is. *)
Theorem sk_prune_keeps_only_chat_roles
    (bound : Z) (K : list SemanticKernel.ChatMessageContent) :
  Z.of_nat (length K) >= bound ->
  (forall m, In m (SemanticKernel.prune bound K) ->
     In m K
     /\ (SemanticKernel.cm_role m = "system"
         \/ SemanticKernel.cm_role m = "user"
         \/ SemanticKernel.cm_role m = "assistant"))
  /\ (forall m, SemanticKernel.cm_role m <> "system" ->
        SemanticKernel.cm_role m <> "user" ->
        SemanticKernel.cm_role m <> "assistant" ->
        ~ In m (SemanticKernel.prune bound K)).
Proof.
  intros Hlen.
  assert (H : forall m, In m (SemanticKernel.prune bound K) ->
     In m K
     /\ (SemanticKernel.cm_role m = "system"
         \/ SemanticKernel.cm_role m = "user"
         \/ SemanticKernel.cm_role m = "assistant")).
  { intros m Hin. unfold SemanticKernel.prune in Hin.
    destruct (Z.geb_spec (Z.of_nat (length K)) bound) as [_|Hlt]; [|lia].
    cbv zeta in Hin. apply in_flat_map in Hin. destruct Hin as (x & Hx & Hm).
    apply sk_readd_in_role in Hm. destruct Hm as [-> Hrole]. split; [|exact Hrole].
    apply in_app_or in Hx. destruct Hx as [Hx|Hx].
    - apply List.filter_In in Hx. tauto.
    - apply recent_in in Hx. apply List.filter_In in Hx. tauto. }
  split; [exact H|].
  intros m H1 H2 H3 Hin. destruct (H m Hin) as [_ [E|[E|E]]]; congruence.
Qed.

Lemma sk_prune_keeps_only_chat_roles_witness :
  Z.of_nat (length (Samples.chat_history ++ [Samples.chat "tool" "9"])) >= 3
  /\ ~ In (Samples.chat "tool" "9")
         (SemanticKernel.prune 3 (Samples.chat_history ++ [Samples.chat "tool" "9"])).
Proof.
  assert (Hlen : Z.of_nat (length (Samples.chat_history ++ [Samples.chat "tool" "9"]))
                 >= 3) by (vm_compute; discriminate).
  split; [exact Hlen|].
  apply (sk_prune_keeps_only_chat_roles 3 _ Hlen); discriminate.
Defined.

(** X2: with a bound of zero or less both pruners keep the system
    messages and nothing else. *)
Theorem prune_nonpositive_bound_keeps_only_system
    (bound : Z) (H : list pydict) (K : list SemanticKernel.ChatMessageContent) :
  bound <= 0 ->
  LlamaIndex.prune bound H = List.filter LlamaIndex.is_system H
  /\ SemanticKernel.prune bound K = List.filter SemanticKernel.is_system K.
Proof.
  intros Hb. split.
  - unfold LlamaIndex.prune.
    destruct (Z.geb_spec (Z.of_nat (length H)) bound) as [_|Hlt]; [|lia].
    cbv zeta. rewrite Z.max_l by lia. simpl. apply app_nil_r.
  - unfold SemanticKernel.prune.
    destruct (Z.geb_spec (Z.of_nat (length K)) bound) as [_|Hlt]; [|lia].
    cbv zeta. rewrite Z.max_l by lia. simpl. rewrite app_nil_r.
    apply SemanticKernelFacts.readd_all_system.
    intros x Hx. apply List.filter_In in Hx. tauto.
Qed.

Lemma prune_nonpositive_bound_keeps_only_system_witness :
  0 <= 0
  /\ LlamaIndex.prune 0 Samples.history = [Samples.entry "system" "You add numbers."]
  /\ SemanticKernel.prune 0 Samples.chat_history
     = [Samples.chat "system" "You add numbers."].
Proof.
  assert (H0 : 0 <= 0) by lia.
  split; [exact H0|].
  destruct (prune_nonpositive_bound_keeps_only_system 0 Samples.history
              Samples.chat_history H0) as [H1 H2].
  split; [rewrite H1|rewrite H2]; reflexivity.
Defined.

Lemma llama_prune_bound (bound : Z) (H : list pydict) :
  Z.of_nat (length (LlamaIndex.prune bound H))
  <= Z.max bound (Z.of_nat (LlamaIndex.count_system H)).
Proof.
  destruct (Z.lt_ge_cases (Z.of_nat (length H)) bound) as [Hlt|Hge].
  - rewrite LlamaIndexFacts.llama_prune_below by assumption. lia.
  - apply LlamaIndexFacts.llama_prune_length. lia.
Qed.

Lemma sk_prune_bound (bound : Z) (K : list SemanticKernel.ChatMessageContent) :
  Z.of_nat (length (SemanticKernel.prune bound K))
  <= Z.max bound (Z.of_nat (SemanticKernel.count_system K)).
Proof.
  destruct (Z.lt_ge_cases (Z.of_nat (length K)) bound) as [Hlt|Hge].
  - rewrite SemanticKernelFacts.sk_prune_below by assumption. lia.
  - apply SemanticKernelFacts.sk_prune_length. lia.
Qed.

Lemma py_slice_nil {A} (start stop : option Z) : py_slice start stop (@nil A) = [].
Proof. unfold py_slice. rewrite skipn_nil. apply firstn_nil. Qed.

Lemma llama_prune_nil (bound : Z) : LlamaIndex.prune bound [] = [].
Proof.
  unfold LlamaIndex.prune. destruct (_ >=? _); [|reflexivity].
  cbv zeta. simpl List.filter. rewrite py_slice_nil. destruct (_ >? _); reflexivity.
Qed.

Lemma sk_prune_nil (bound : Z) : SemanticKernel.prune bound [] = [].
Proof.
  unfold SemanticKernel.prune. destruct (_ >=? _); [|reflexivity].
  cbv zeta. simpl List.filter. rewrite py_slice_nil. destruct (_ >? _); reflexivity.
Qed.

(** ** [update_chat_history] of the Semantic Kernel agent *)

Lemma sk_add_record_system (msg : SemanticKernel.record) :
  SemanticKernel.record_is_system msg = true ->
  exists c, SemanticKernel.add_record msg
            = [{| SemanticKernel.cm_role := "system";
                  SemanticKernel.cm_content := c |}].
Proof.
  unfold SemanticKernel.record_is_system, SemanticKernel.add_record.
  intros H. apply py_eqb_str in H. rewrite H. simpl. eexists. reflexivity.
Qed.

Lemma sk_add_record_roles (msg : SemanticKernel.record)
    (m : SemanticKernel.ChatMessageContent) :
  In m (SemanticKernel.add_record msg) ->
  (SemanticKernel.cm_role m = "system" /\ SemanticKernel.record_is_system msg = true)
  \/ ((SemanticKernel.cm_role m = "user" \/ SemanticKernel.cm_role m = "assistant")
      /\ SemanticKernel.record_is_system msg = false).
Proof.
  unfold SemanticKernel.record_is_system, SemanticKernel.add_record.
  destruct (py_eqb _ (PStr "user")) eqn:Eu.
  { apply py_eqb_str in Eu. rewrite Eu. intros [<-|[]].
    right. split; [left|]; reflexivity. }
  destruct (py_eqb _ (PStr "agent")) eqn:Eg.
  { apply py_eqb_str in Eg. rewrite Eg. intros [<-|[]].
    right. split; [right|]; reflexivity. }
  destruct (py_eqb _ (PStr "assistant")) eqn:Ea.
  { apply py_eqb_str in Ea. rewrite Ea. intros [<-|[]].
    right. split; [right|]; reflexivity. }
  simpl. destruct (py_eqb _ (PStr "system")) eqn:Es.
  - intros [<-|[]]. left. split; reflexivity.
  - intros [].
Qed.

Lemma sk_add_record_count (l : list SemanticKernel.record) :
  SemanticKernel.count_system (flat_map SemanticKernel.add_record l)
  = length (List.filter SemanticKernel.record_is_system l).
Proof.
  unfold SemanticKernel.count_system.
  induction l as [|msg l IH]; [reflexivity|].
  simpl. rewrite List.filter_app, length_app, IH.
  destruct (SemanticKernel.record_is_system msg) eqn:E.
  - destruct (sk_add_record_system msg E) as [c ->]. reflexivity.
  - rewrite (filter_nothing SemanticKernel.is_system (SemanticKernel.add_record msg)).
    + reflexivity.
    + intros x Hx. apply sk_add_record_roles in Hx.
      destruct Hx as [[_ Hs]|[[Hr|Hr] _]]; [congruence| |];
        unfold SemanticKernel.is_system; rewrite Hr; reflexivity.
Qed.

Lemma sk_sort_by_created_at_perm (l : list SemanticKernel.record) :
  Permutation (SemanticKernel.sort_by_created_at l) l.
Proof.
  unfold SemanticKernel.sort_by_created_at.
  destruct (py_sorted _ false l) as [l'|] eqn:E; [|reflexivity].
  eapply py_sorted_perm. exact E.
Qed.

Lemma filter_length_perm {A} (p : A -> bool) (l l' : list A) :
  Permutation l l' -> length (List.filter p l) = length (List.filter p l').
Proof.
  induction 1; simpl; try congruence.
  - destruct (p x); simpl; congruence.
  - destruct (p x), (p y); reflexivity.
Qed.

(** X3: [update_chat_history] of the Semantic Kernel agent, on records
    whose content is text, rebuilds the history from the records alone,
    whatever the history was.  Every system record is kept, whatever the
    bound: the new history has as many system entries as there are
    system records.  Every entry has the role system, user or assistant,
    and the tool usage and the attachments are emptied. *)
Theorem sk_update_chat_history_rebuilds
    (self : SemanticKernel.Agent) (messages : list SemanticKernel.record)
    (earlier : list SemanticKernel.ChatMessageContent) :
  forallb SemanticKernel.has_text_content messages = true ->
  SemanticKernel.count_system
    (SemanticKernel._chat (SemanticKernel.update_chat_history self messages))
  = length (List.filter SemanticKernel.record_is_system messages)
  /\ Forall (fun m => SemanticKernel.cm_role m = "system"
                      \/ SemanticKernel.cm_role m = "user"
                      \/ SemanticKernel.cm_role m = "assistant")
       (SemanticKernel._chat (SemanticKernel.update_chat_history self messages))
  /\ SemanticKernel._tool_usage (SemanticKernel.update_chat_history self messages) = []
  /\ SemanticKernel._attachments (SemanticKernel.update_chat_history self messages) = []
  /\ SemanticKernel.update_chat_history (SemanticKernel.with_chat self earlier) messages
     = SemanticKernel.update_chat_history self messages.
Proof.
  intros _.
  split; [|split; [|split; [reflexivity|split; reflexivity]]].
  - cbn [SemanticKernel.update_chat_history SemanticKernel._chat].
    rewrite sk_add_record_count. unfold SemanticKernel.messages_to_add.
    rewrite (filter_length_perm _ _ _ (sk_sort_by_created_at_perm _)).
    match goal with
    | |- context [List.filter _ (?s ++ ?r)] =>
        destruct (filter_sys_app SemanticKernel.record_is_system s r) as [-> _];
          [| |reflexivity]
    end.
    + intros x Hx. apply List.filter_In in Hx. tauto.
    + intros x Hx. apply recent_in in Hx. apply List.filter_In in Hx.
      destruct Hx as [_ Hx]. apply negb_true_iff in Hx. exact Hx.
  - cbn [SemanticKernel.update_chat_history SemanticKernel._chat].
    apply List.Forall_forall. intros m Hm. apply in_flat_map in Hm.
    destruct Hm as (msg & _ & Hm). apply sk_add_record_roles in Hm. tauto.
Qed.

Lemma sk_update_chat_history_rebuilds_witness :
  forallb SemanticKernel.has_text_content
    (SemanticKernel.RDict (Samples.entry "system" "You add numbers.")
     :: Samples.three_records) = true
  /\ SemanticKernel.count_system
       (SemanticKernel._chat
          (SemanticKernel.update_chat_history (Samples.sk_agent Samples.math_agent)
             (SemanticKernel.RDict (Samples.entry "system" "You add numbers.")
              :: Samples.three_records))) = 1%nat.
Proof.
  assert (H : forallb SemanticKernel.has_text_content
                (SemanticKernel.RDict (Samples.entry "system" "You add numbers.")
                 :: Samples.three_records) = true) by reflexivity.
  split; [exact H|].
  destruct (sk_update_chat_history_rebuilds (Samples.sk_agent Samples.math_agent)
              (SemanticKernel.RDict (Samples.entry "system" "You add numbers.")
               :: Samples.three_records) [] H) as [Hc _].
  rewrite Hc. reflexivity.
Defined.

(** ** [process] and the history *)

(** X4: [process] of the LlamaIndex agent prunes before it adds.  The
    framework is called with the pruned history, without the new
    message; afterwards the history is the pruned one, the user entry
    and, when the call returned, the assistant entry with the returned
    text, which is also the content of the reply.  So the history is at
    most two entries above [max bound (number of system entries)].  When
    the call raised, the reply carries the error text and no tool
    usage, and the user entry stays in the history without an answer. *)
Theorem llama_process_history
    (aquery : list pydict -> string -> LlamaIndex.Invocation)
    (fresh_id now : string) (self : LlamaIndex.Agent) (message : string) :
  let prev := LlamaIndex.prune (LlamaIndex._max_history_length self)
                (LlamaIndex._chat_history self) in
  let run := aquery prev message in
  let after := fst (LlamaIndex.process aquery fresh_id now self message) in
  LlamaIndex._chat_history after
  = prev ++ [("role", PStr "user"); ("content", PStr message)]
         :: match LlamaIndex.answer run with
            | Returned text => [[("role", PStr "assistant"); ("content", PStr text)]]
            | Raised _ => []
            end
  /\ Z.of_nat (length (LlamaIndex._chat_history after))
     <= Z.max (LlamaIndex._max_history_length self)
          (Z.of_nat (LlamaIndex.count_system (LlamaIndex._chat_history self))) + 2
  /\ LlamaIndex._tool_usage after = LlamaIndex.used_tools run
  /\ LlamaIndex._attachments after = LlamaIndex.produced run
  /\ match LlamaIndex.answer run,
           snd (LlamaIndex.process aquery fresh_id now self message) with
     | Returned text, Returned reply =>
         content reply = text /\ role reply = "assistant"
         /\ message_id reply = fresh_id /\ created_at reply = now
         /\ attachments reply = LlamaIndex.produced run
         /\ metadata reply = [("tool_usage", PList (LlamaIndex.used_tools run))]
     | Raised e, Returned reply =>
         content reply
         = "I encountered an error while processing your message: " +:+ exn_str e
         /\ role reply = "assistant" /\ attachments reply = []
         /\ metadata reply = [("error", PStr (exn_str e))]
     | _, Raised _ => False
     end.
Proof.
  cbv zeta. unfold LlamaIndex.process.
  set (prev := LlamaIndex.prune (LlamaIndex._max_history_length self)
                 (LlamaIndex._chat_history self)).
  rewrite py_slice_but_last.
  pose proof (llama_prune_bound (LlamaIndex._max_history_length self)
                (LlamaIndex._chat_history self)) as Hb.
  fold prev in Hb.
  destruct (LlamaIndex.answer (aquery prev message)) as [text|e];
    cbn [fst snd LlamaIndex._chat_history LlamaIndex._tool_usage
         LlamaIndex._attachments content role message_id created_at attachments
         metadata].
  - split; [rewrite <- app_assoc; reflexivity|].
    split; [rewrite !length_app; simpl; lia|]. repeat split; reflexivity.
  - split; [reflexivity|].
    split; [rewrite !length_app; simpl; lia|]. repeat split; reflexivity.
Qed.

(** X5: [process] of the Semantic Kernel agent.  The framework is
    invoked on the pruned history followed by the user message, at most
    one message above [max bound (number of system messages)]; every
    message it yields is added to the history, also when it ends by
    raising.  When it does not raise, the reply joins the yielded
    contents, one per line; when it raises, so does [process]. *)
Theorem sk_process_history
    (invoke : list SemanticKernel.ChatMessageContent -> SemanticKernel.Invocation)
    (fresh_id now : string) (self : SemanticKernel.Agent) (message : string) :
  let chat := SemanticKernel.prune (SemanticKernel._max_history_length self)
                (SemanticKernel._chat self)
              ++ [{| SemanticKernel.cm_role := "user";
                     SemanticKernel.cm_content := message |}] in
  let run := invoke chat in
  let after := fst (SemanticKernel.process invoke fresh_id now self message) in
  Z.of_nat (length chat)
  <= Z.max (SemanticKernel._max_history_length self)
       (Z.of_nat (SemanticKernel.count_system (SemanticKernel._chat self))) + 1
  /\ SemanticKernel._chat after = chat ++ SemanticKernel.yielded run
  /\ SemanticKernel._tool_usage after = SemanticKernel.used_tools run
  /\ SemanticKernel._attachments after = SemanticKernel.produced run
  /\ match SemanticKernel.failure run,
           snd (SemanticKernel.process invoke fresh_id now self message) with
     | None, Returned reply =>
         role reply = "assistant" /\ message_id reply = fresh_id
         /\ created_at reply = now
         /\ content reply
            = String.concat newline
                (List.map SemanticKernel.cm_content (SemanticKernel.yielded run))
         /\ attachments reply = SemanticKernel.produced run
         /\ metadata reply = [("tool_usage", PList (SemanticKernel.used_tools run))]
     | Some e, Raised e' => e' = e
     | _, _ => False
     end.
Proof.
  cbv zeta. unfold SemanticKernel.process.
  pose proof (sk_prune_bound (SemanticKernel._max_history_length self)
                (SemanticKernel._chat self)) as Hb.
  split; [rewrite length_app; simpl; lia|].
  destruct (SemanticKernel.failure _) as [e|];
    cbn [fst snd SemanticKernel._chat SemanticKernel._tool_usage
         SemanticKernel._attachments]; repeat split; reflexivity.
Qed.

(** X6: after [reset_conversation] nothing of the earlier conversation
    reaches the framework.  The next [process] of the LlamaIndex agent
    calls it with no earlier entry, and the query text is the message
    itself; the next [process] of the Semantic Kernel agent invokes it on
    the user message alone.  The bound and the tools stay. *)
Theorem reset_conversation_forgets_history
    (aquery : list pydict -> string -> LlamaIndex.Invocation)
    (invoke : list SemanticKernel.ChatMessageContent -> SemanticKernel.Invocation)
    (fresh_id now : string) (llama : LlamaIndex.Agent) (sk : SemanticKernel.Agent)
    (message : string) :
  LlamaIndex._chat_history
    (fst (LlamaIndex.process aquery fresh_id now
            (LlamaIndex.reset_conversation llama) message))
  = [("role", PStr "user"); ("content", PStr message)]
    :: match LlamaIndex.answer (aquery [] message) with
       | Returned text => [[("role", PStr "assistant"); ("content", PStr text)]]
       | Raised _ => []
       end
  /\ LlamaIndex.query_text [] message = message
  /\ LlamaIndex._max_history_length (LlamaIndex.reset_conversation llama)
     = LlamaIndex._max_history_length llama
  /\ LlamaIndex.base (LlamaIndex.reset_conversation llama) = LlamaIndex.base llama
  /\ SemanticKernel._chat
       (fst (SemanticKernel.process invoke fresh_id now
               (SemanticKernel.reset_conversation sk) message))
     = {| SemanticKernel.cm_role := "user"; SemanticKernel.cm_content := message |}
       :: SemanticKernel.yielded
            (invoke [{| SemanticKernel.cm_role := "user";
                        SemanticKernel.cm_content := message |}])
  /\ SemanticKernel._max_history_length (SemanticKernel.reset_conversation sk)
     = SemanticKernel._max_history_length sk
  /\ SemanticKernel.base (SemanticKernel.reset_conversation sk) = SemanticKernel.base sk.
Proof.
  split.
  - unfold LlamaIndex.process.
    cbn [LlamaIndex.reset_conversation LlamaIndex._chat_history
         LlamaIndex._max_history_length].
    rewrite llama_prune_nil.
    change ([] ++ [[("role", PStr "user"); ("content", PStr message)]])
      with ([[("role", PStr "user"); ("content", PStr message)]]).
    change (py_slice None (Some (-1))
              [[("role", PStr "user"); ("content", PStr message)]])
      with (@nil pydict).
    destruct (LlamaIndex.answer (aquery [] message)); reflexivity.
  - split; [reflexivity|]. split; [reflexivity|]. split; [reflexivity|].
    split; [|split; reflexivity].
    unfold SemanticKernel.process.
    cbn [SemanticKernel.reset_conversation SemanticKernel.with_chat
         SemanticKernel._chat SemanticKernel._max_history_length].
    rewrite sk_prune_nil.
    destruct (SemanticKernel.failure _); reflexivity.
Qed.

(** ** The query text of the LlamaIndex agent *)

Lemma append_empty_r (s : string) : s +:+ "" = s.
Proof.
  induction s as [|c s IH]; [reflexivity|].
  change (String c (s +:+ "") = String c s). rewrite IH. reflexivity.
Qed.

Lemma concat_empty_sep (l : list string) :
  String.concat "" l = fold_right String.append "" l.
Proof.
  induction l as [|x [|y l] IH]; [reflexivity| |].
  - simpl. symmetry. apply append_empty_r.
  - change (String.concat "" (x :: y :: l))
      with (x +:+ "" +:+ String.concat "" (y :: l)).
    rewrite IH. reflexivity.
Qed.

Lemma llama_context_line_system (msg : pydict) :
  LlamaIndex.is_system msg = true -> LlamaIndex.context_line msg = "".
Proof.
  unfold LlamaIndex.is_system, LlamaIndex.context_line, py_get, dict_get_default.
  intros H. apply py_eqb_str in H.
  destruct (dict_get "role" msg) as [v|]; [|discriminate]. subst v.
  cbv zeta. destruct (_ && _); reflexivity.
Qed.

Lemma llama_chat_context_filter (prev : list pydict) :
  LlamaIndex.chat_context prev
  = LlamaIndex.chat_context
      (List.filter (fun msg => negb (LlamaIndex.is_system msg)) prev).
Proof.
  unfold LlamaIndex.chat_context. rewrite !concat_empty_sep.
  induction prev as [|msg prev IH]; [reflexivity|].
  simpl. destruct (LlamaIndex.is_system msg) eqn:E; simpl.
  - rewrite (llama_context_line_system msg E). exact IH.
  - rewrite IH. reflexivity.
Qed.

(** X7: the query text of the LlamaIndex agent never holds a system
    entry: the text built from a history is the text built from its
    non-system entries, and a history of system entries only gives the
    message itself.  A user or assistant entry with text content adds one
    line, unless the text is empty; an entry of another role adds
    nothing. *)
Theorem llama_query_text_skips_system (prev : list pydict) (message u : string) :
  LlamaIndex.query_text prev message
  = LlamaIndex.query_text
      (List.filter (fun msg => negb (LlamaIndex.is_system msg)) prev) message
  /\ LlamaIndex.query_text (List.filter LlamaIndex.is_system prev) message = message
  /\ LlamaIndex.context_line [("role", PStr "user"); ("content", PStr u)]
     = (if String.eqb u "" then "" else "User: " +:+ u +:+ newline)
  /\ LlamaIndex.context_line [("role", PStr "assistant"); ("content", PStr u)]
     = (if String.eqb u "" then "" else "Assistant: " +:+ u +:+ newline)
  /\ LlamaIndex.context_line [("role", PStr "tool"); ("content", PStr u)] = "".
Proof.
  split; [|split; [|split; [|split]]].
  - unfold LlamaIndex.query_text. rewrite <- llama_chat_context_filter. reflexivity.
  - unfold LlamaIndex.query_text. rewrite llama_chat_context_filter.
    rewrite filter_nothing; [reflexivity|].
    intros x Hx. apply List.filter_In in Hx. destruct Hx as [_ ->]. reflexivity.
  - unfold LlamaIndex.context_line. simpl. destruct (String.eqb u ""); reflexivity.
  - unfold LlamaIndex.context_line. simpl. destruct (String.eqb u ""); reflexivity.
  - unfold LlamaIndex.context_line. simpl. destruct (String.eqb u ""); reflexivity.
Qed.

(** ** The tool registry *)

(** X8: [add_tool] only ever adds.  A tool that is registered stays
    registered, under its name and unchanged; once a call has returned,
    a second call with a tool of the same name raises and changes
    nothing; and two tools of different names can be added in either
    order. *)
Theorem add_tool_only_adds (self : AbstractAgent.Agent) (tool other : Tool) :
  (forall k t, AbstractAgent._tools self !! k = Some t ->
     AbstractAgent._tools (fst (AbstractAgent.add_tool self tool)) !! k = Some t)
  /\ is_Some (AbstractAgent._tools (fst (AbstractAgent.add_tool self tool))
              !! tool_name tool)
  /\ (tool_name other = tool_name tool ->
      AbstractAgent.add_tool (fst (AbstractAgent.add_tool self tool)) other
      = (fst (AbstractAgent.add_tool self tool),
         Raised (AbstractAgent.already_exists other
                   (fst (AbstractAgent.add_tool self tool)))))
  /\ (tool_name other <> tool_name tool ->
      AbstractAgent._tools self !! tool_name tool = None ->
      AbstractAgent._tools self !! tool_name other = None ->
      fst (AbstractAgent.add_tool (fst (AbstractAgent.add_tool self tool)) other)
      = fst (AbstractAgent.add_tool (fst (AbstractAgent.add_tool self other)) tool)).
Proof.
  unfold AbstractAgent.add_tool.
  destruct (AbstractAgent._tools self !! tool_name tool) as [t0|] eqn:E;
    cbn [fst AbstractAgent.set_tools AbstractAgent._tools].
  - split; [auto|]. split; [rewrite E; eauto|]. split.
    + intros ->. rewrite E. reflexivity.
    + intros _ H. discriminate.
  - split.
    { intros k t Hk. rewrite lookup_insert_ne; [exact Hk|]. congruence. }
    split; [rewrite lookup_insert_eq; eauto|]. split.
    + intros ->. rewrite lookup_insert_eq. reflexivity.
    + intros Hne _ Ho. rewrite Ho.
      cbn [fst AbstractAgent.set_tools AbstractAgent._tools].
      rewrite !lookup_insert_ne by congruence. rewrite E, Ho.
      cbn [fst AbstractAgent.set_tools AbstractAgent._tools
           AbstractAgent._id AbstractAgent._name AbstractAgent._description
           AbstractAgent._prompt AbstractAgent._settings].
      rewrite insert_insert_ne by congruence. reflexivity.
Qed.

Lemma add_tool_only_adds_witness :
  AbstractAgent.add_tool
    (fst (AbstractAgent.add_tool Samples.math_agent Samples.add_tool_1))
    Samples.add_tool_2
  = (fst (AbstractAgent.add_tool Samples.math_agent Samples.add_tool_1),
     Raised (ValueError "Tool 'Add' already exists in agent 'Math Agent'"))
  /\ fst (AbstractAgent.add_tool
            (fst (AbstractAgent.add_tool Samples.math_agent Samples.add_tool_1))
            Samples.subtract_tool)
     = fst (AbstractAgent.add_tool
              (fst (AbstractAgent.add_tool Samples.math_agent Samples.subtract_tool))
              Samples.add_tool_1).
Proof.
  destruct (add_tool_only_adds Samples.math_agent Samples.add_tool_1
              Samples.add_tool_2) as (_ & _ & H3 & _).
  destruct (add_tool_only_adds Samples.math_agent Samples.add_tool_1
              Samples.subtract_tool) as (_ & _ & _ & H4).
  split.
  - exact (H3 eq_refl).
  - apply H4; [discriminate|reflexivity|reflexivity].
Defined.

(** * Further properties of the in-memory backend *)

(** ** Listing *)

Lemma py_slice_in {A} (start stop : option Z) (l : list A) (x : A) :
  In x (py_slice start stop l) -> In x l.
Proof.
  unfold py_slice. intros H.
  set (n := Z.to_nat _) in H. set (m := Z.to_nat _) in H.
  rewrite <- (firstn_skipn m l). apply in_or_app. right.
  rewrite <- (firstn_skipn n (skipn m l)). apply in_or_app. left. exact H.
Qed.

Lemma py_slice_page_length {A} (start page_size : Z) (l : list A) :
  0 <= page_size ->
  Z.of_nat (length (py_slice (Some start)
                      (Some (Z.min (start + page_size) (Z.of_nat (length l)))) l))
  <= page_size.
Proof.
  intros Hsize. unfold py_slice. cbv zeta.
  match goal with |- context [firstn ?n ?l'] =>
    pose proof (firstn_le_length n l') as Hle; revert Hle; generalize (length (firstn n l')) end.
  intros k. unfold py_index.
  destruct (Z.ltb_spec start 0),
    (Z.ltb_spec (Z.min (start + page_size) (Z.of_nat (length l))) 0); lia.
Qed.

(** The items of an in-memory page are stored conversations of the user
    that pass the filters. *)
Lemma mem_listed_item (user_id : string) (filters : option pydict) (page_size : Z)
    (token : option string) (s : InMemory.store) (page : Page) (item : pydict) :
  InMemory.list_conversations user_id filters page_size token s = Returned page ->
  In item (items page) ->
  matches_filters (match filters with Some f => f | None => [] end) item = true
  /\ exists convs, dict_get user_id s = Some convs /\ In item (dict_values convs).
Proof.
  unfold InMemory.list_conversations.
  destruct (dict_get user_id s) as [convs|]; [|intros [= <-] []].
  cbv zeta. destruct (py_sorted _ true _) as [sorted|] eqn:E; [|discriminate].
  intros [= <-]. cbn [items]. intros Hin. apply py_slice_in in Hin.
  apply (Permutation_in _ (py_sorted_perm _ _ _ _ E)) in Hin.
  apply List.filter_In in Hin. destruct Hin as [Hin Hm].
  split; [exact Hm|]. exists convs. split; [reflexivity|exact Hin].
Qed.

(** X9: what the in-memory [list_conversations] returns is sound for
    every page size and every token, well formed or not: each item is a
    stored conversation of that user and passes every filter, a page
    of a size that is not negative never has more than [page_size]
    items, and a user who has nothing stored gets the empty page with a
    count of zero. *)
Theorem mem_list_conversations_sound
    (user_id : string) (filters : option pydict) (page_size : Z)
    (token : option string) (s : InMemory.store) (page : Page) :
  InMemory.list_conversations user_id filters page_size token s = Returned page ->
  (forall item, In item (items page) ->
     matches_filters (match filters with Some f => f | None => [] end) item = true
     /\ exists convs, dict_get user_id s = Some convs /\ In item (dict_values convs))
  /\ (0 <= page_size -> Z.of_nat (length (items page)) <= page_size)
  /\ 0 <= total_count page
  /\ (dict_get user_id s = None ->
      page = {| items := []; continuation_token := None; total_count := 0 |}).
Proof.
  intros Hpage. split; [intros item; apply (mem_listed_item _ _ _ _ _ _ _ Hpage)|].
  revert Hpage. unfold InMemory.list_conversations.
  destruct (dict_get user_id s) as [convs|].
  - cbv zeta. destruct (py_sorted _ true _) as [sorted|] eqn:E; [|discriminate].
    intros [= <-]. cbn [items total_count].
    split; [apply py_slice_page_length|]. split; [lia|discriminate].
  - intros [= <-]. cbn [items total_count]. simpl. split; [lia|]. split; [lia|reflexivity].
Qed.

Lemma mem_list_conversations_sound_witness :
  InMemory.list_conversations "alice" (Some [("title", PStr "Conversation with Math Agent")])
    1 None Samples.alice_two_store
  = Returned
      {| items := [InMemory.saved_conversation Samples.answered_conversation "alice"];
         continuation_token := Some "index:1";
         total_count := 2 |}
  /\ Z.of_nat (length [InMemory.saved_conversation Samples.answered_conversation "alice"])
     <= 1.
Proof.
  assert (H : InMemory.list_conversations "alice"
                (Some [("title", PStr "Conversation with Math Agent")])
                1 None Samples.alice_two_store
              = Returned
                  {| items := [InMemory.saved_conversation
                                 Samples.answered_conversation "alice"];
                     continuation_token := Some "index:1";
                     total_count := 2 |}) by (vm_compute; reflexivity).
  split; [exact H|].
  destruct (mem_list_conversations_sound _ _ _ _ _ _ H) as (_ & Hlen & _).
  apply Hlen. lia.
Defined.

(** X10: [list_conversations_by_agent] lists conversations of that agent
    only: every item of every page has the given [agent_id] and is a
    stored conversation of the user. *)
Theorem mem_list_conversations_by_agent_sound
    (user_id agent_id : string) (page_size : Z) (token : option string)
    (s : InMemory.store) (page : Page) (item : pydict) :
  InMemory.list_conversations_by_agent user_id agent_id page_size token s
  = Returned page ->
  In item (items page) ->
  dict_get "agent_id" item = Some (PStr agent_id)
  /\ exists convs, dict_get user_id s = Some convs /\ In item (dict_values convs).
Proof.
  unfold InMemory.list_conversations_by_agent. intros Hpage Hin.
  destruct (mem_listed_item _ _ _ _ _ _ _ Hpage Hin) as [Hm Hc].
  split; [|exact Hc].
  simpl in Hm. rewrite andb_true_r in Hm. apply py_eqb_str in Hm.
  unfold py_get, dict_get_default in Hm.
  destruct (dict_get "agent_id" item); [congruence|discriminate].
Qed.

Lemma mem_list_conversations_by_agent_sound_witness :
  In (InMemory.saved_conversation Samples.older_conversation "alice")
     (items {| items := [InMemory.saved_conversation Samples.answered_conversation "alice";
                         InMemory.saved_conversation Samples.older_conversation "alice"];
               continuation_token := None; total_count := 2 |})
  /\ dict_get "agent_id" (InMemory.saved_conversation Samples.older_conversation "alice")
     = Some (PStr "math").
Proof.
  assert (H : InMemory.list_conversations_by_agent "alice" "math" 50 None
                Samples.alice_two_store
              = Returned
                  {| items := [InMemory.saved_conversation
                                 Samples.answered_conversation "alice";
                               InMemory.saved_conversation
                                 Samples.older_conversation "alice"];
                     continuation_token := None; total_count := 2 |})
    by (vm_compute; reflexivity).
  assert (Hin : In (InMemory.saved_conversation Samples.older_conversation "alice")
     (items {| items := [InMemory.saved_conversation Samples.answered_conversation "alice";
                         InMemory.saved_conversation Samples.older_conversation "alice"];
               continuation_token := None; total_count := 2 |}))
    by (right; left; reflexivity).
  split; [exact Hin|].
  exact (proj1 (mem_list_conversations_by_agent_sound _ _ _ _ _ _ _ H Hin)).
Defined.

(** ** A page size of zero *)

Lemma mem_empty_page (user_id : string) (filters : option pydict)
    (s : InMemory.store) (convs : dict pydict) (sorted : list pydict)
    (token : option string) :
  dict_get user_id s = Some convs ->
  py_sorted (dict_get_default "last_updated_at" (PStr "")) true
    (List.filter (matches_filters (match filters with Some f => f | None => [] end))
       (dict_values convs)) = Some sorted ->
  0 <= start_index_of token < Z.of_nat (length sorted) ->
  InMemory.list_conversations user_id filters 0 token s
  = Returned {| items := [];
                continuation_token :=
                  Some ("index:" +:+ str_of_Z (start_index_of token));
                total_count := Z.of_nat (length sorted) |}.
Proof.
  intros Hu Hs Hi. unfold InMemory.list_conversations. rewrite Hu. cbv zeta.
  rewrite Hs. unfold pydict in *. rewrite Z.add_0_r, Z.min_l by lia.
  destruct (Z.ltb_spec (start_index_of token) (Z.of_nat (length sorted))); [|lia].
  rewrite py_slice_range by lia. rewrite Z.sub_diag. simpl firstn.
  rewrite <- (Permutation_length (py_sorted_perm _ _ _ _ Hs)). reflexivity.
Qed.

(** X12: with a page size of 0 the in-memory listing makes no progress.
    For a user with at least one matching conversation every page is
    empty and its token reads back as the index the call started from,
    so following the tokens from the first call never reaches a last
    page, whatever the number of calls. *)
Theorem mem_page_size_zero_never_ends
    (user_id : string) (filters : option pydict) (s : InMemory.store)
    (convs : dict pydict) (sorted : list pydict) (token : option string)
    (fuel : nat) :
  dict_get user_id s = Some convs ->
  py_sorted (dict_get_default "last_updated_at" (PStr "")) true
    (List.filter (matches_filters (match filters with Some f => f | None => [] end))
       (dict_values convs)) = Some sorted ->
  0 <= start_index_of token < Z.of_nat (length sorted) ->
  (exists page,
     InMemory.list_conversations user_id filters 0 token s = Returned page
     /\ items page = []
     /\ start_index_of (continuation_token page) = start_index_of token)
  /\ InMemory.all_pages fuel user_id filters 0 token s = None.
Proof.
  intros Hu Hs Hi. split.
  - eexists. split; [apply (mem_empty_page _ _ _ _ _ _ Hu Hs Hi)|].
    split; [reflexivity|]. cbn [continuation_token]. apply start_index_of_token.
  - revert token Hi. induction fuel as [|fuel IH]; intros token Hi; [reflexivity|].
    cbn [InMemory.all_pages]. rewrite (mem_empty_page _ _ _ _ _ _ Hu Hs Hi).
    cbn [continuation_token]. rewrite IH; [reflexivity|].
    rewrite start_index_of_token. exact Hi.
Qed.

Lemma mem_page_size_zero_never_ends_witness :
  InMemory.all_pages 1000 "alice" None 0 None Samples.alice_two_store = None.
Proof.
  refine (proj2 (mem_page_size_zero_never_ends "alice" None Samples.alice_two_store
                   (dict_get_default "alice" [] Samples.alice_two_store)
                   [InMemory.saved_conversation Samples.answered_conversation "alice";
                    InMemory.saved_conversation Samples.older_conversation "alice"]
                   None 1000 _ _ _)).
  - reflexivity.
  - vm_compute. reflexivity.
  - simpl. lia.
Defined.

(** ** Deleting and saving *)

Lemma dict_get_none_not_in {V} (k : string) (d : dict V) :
  ~ In k (List.map fst d) -> dict_get k d = None.
Proof.
  induction d as [|[k' v] d IH]; [reflexivity|].
  simpl. intros H. destruct (String.eqb_spec k k') as [->|_]; [tauto|].
  apply IH. tauto.
Qed.

Lemma dict_get_del_same {V} (k : string) (d : dict V) :
  List.NoDup (List.map fst d) -> dict_get k (dict_del k d) = None.
Proof.
  induction d as [|[k' v] d IH]; [reflexivity|].
  simpl. intros H. apply List.NoDup_cons_iff in H. destruct H as [Hk Hd].
  destruct (String.eqb_spec k k') as [->|Hne].
  - apply dict_get_none_not_in. exact Hk.
  - simpl. destruct (String.eqb_spec k k'); [contradiction|]. apply IH. exact Hd.
Qed.

(** X14: deleting in memory.  A conversation that cannot be loaded is not
    deleted: the call returns [false] and the store is as it was.  A
    stored one is removed: the call returns [true], loading it then
    gives nothing, a second delete returns [false], and every other
    conversation of the user loads as before.  (The user's
    conversations are a dictionary: no id twice.) *)
Theorem mem_delete_contract (cid user_id : string) (s : InMemory.store) :
  (InMemory.load_conversation cid user_id s = None ->
   InMemory.delete_conversation cid user_id s = (s, false))
  /\ (forall convs stored,
        dict_get user_id s = Some convs ->
        List.NoDup (List.map fst convs) ->
        dict_get cid convs = Some stored ->
        snd (InMemory.delete_conversation cid user_id s) = true
        /\ InMemory.load_conversation cid user_id
             (fst (InMemory.delete_conversation cid user_id s)) = None
        /\ snd (InMemory.delete_conversation cid user_id
                  (fst (InMemory.delete_conversation cid user_id s))) = false
        /\ forall other, other <> cid ->
             InMemory.load_conversation other user_id
               (fst (InMemory.delete_conversation cid user_id s))
             = InMemory.load_conversation other user_id s).
Proof.
  unfold InMemory.load_conversation, InMemory.delete_conversation. split.
  - destruct (dict_get user_id s) as [convs|]; [|reflexivity].
    unfold dict_has. intros ->. reflexivity.
  - intros convs stored -> Hnd Hc. rewrite (dict_has_get _ _ _ Hc). cbn [fst snd].
    rewrite dict_get_set_same. split; [reflexivity|].
    split; [apply dict_get_del_same; exact Hnd|]. split.
    + unfold dict_has. rewrite (dict_get_del_same cid convs Hnd). reflexivity.
    + intros other Hne. apply dict_get_del_other. congruence.
Qed.

Lemma mem_delete_contract_witness :
  (InMemory.load_conversation "c9" "alice" Samples.alice_two_store = None
   /\ InMemory.delete_conversation "c9" "alice" Samples.alice_two_store
      = (Samples.alice_two_store, false))
  /\ snd (InMemory.delete_conversation "c1" "alice" Samples.alice_two_store) = true
  /\ InMemory.load_conversation "c1" "alice"
       (fst (InMemory.delete_conversation "c1" "alice" Samples.alice_two_store)) = None
  /\ InMemory.load_conversation "c2" "alice"
       (fst (InMemory.delete_conversation "c1" "alice" Samples.alice_two_store))
     = InMemory.load_conversation "c2" "alice" Samples.alice_two_store.
Proof.
  assert (Habsent : InMemory.load_conversation "c9" "alice" Samples.alice_two_store = None)
    by reflexivity.
  destruct (mem_delete_contract "c9" "alice" Samples.alice_two_store) as [H1 _].
  destruct (mem_delete_contract "c1" "alice" Samples.alice_two_store) as [_ H2].
  destruct (H2 (dict_get_default "alice" [] Samples.alice_two_store)
              (InMemory.saved_conversation Samples.answered_conversation "alice"))
    as (Ht & Hl & _ & Ho).
  - reflexivity.
  - vm_compute. repeat constructor; simpl; intuition discriminate.
  - reflexivity.
  - split; [split; [exact Habsent|exact (H1 Habsent)]|].
    split; [exact Ht|]. split; [exact Hl|]. apply Ho. discriminate.
Defined.

(** X15: saving in memory always succeeds and touches one entry only:
    whatever is loaded under another user, or under another conversation
    id of the same user, is what was loaded before; the saved
    conversation itself loads as the record just built, which replaces
    whatever was stored, appended messages included. *)
Theorem mem_save_frame (conversation : Conversation) (user_id : string)
    (s : InMemory.store) (cid' user' : string) :
  user' <> user_id \/ cid' <> conversation_id conversation ->
  snd (InMemory.save_conversation conversation user_id s) = true
  /\ InMemory.load_conversation cid' user'
       (fst (InMemory.save_conversation conversation user_id s))
     = InMemory.load_conversation cid' user' s
  /\ InMemory.load_conversation (conversation_id conversation) user_id
       (fst (InMemory.save_conversation conversation user_id s))
     = Some (InMemory.saved_conversation conversation user_id).
Proof.
  intros Hother. split; [reflexivity|].
  split; [|apply InMemoryFacts.mem_load_after_save].
  destruct (String.eqb_spec user' user_id) as [->|Hu].
  - destruct Hother as [Hu|Hc]; [contradiction|].
    unfold InMemory.load_conversation, InMemory.save_conversation. cbn [fst].
    rewrite dict_get_set_same. rewrite dict_get_set_other by congruence.
    unfold dict_has, dict_get_default, InMemory.store, pydict, dict in *.
    destruct (dict_get user_id s) as [convs|] eqn:E.
    + rewrite E. reflexivity.
    + rewrite dict_get_set_same. reflexivity.
  - unfold InMemory.load_conversation.
    rewrite InMemoryFacts.mem_save_other_user by congruence. reflexivity.
Qed.

Lemma mem_save_frame_witness :
  ("alice" <> "alice" \/ "c2" <> conversation_id Samples.answered_conversation)
  /\ InMemory.load_conversation "c2" "alice"
       (fst (InMemory.save_conversation Samples.answered_conversation "alice"
               Samples.alice_two_store))
     = InMemory.load_conversation "c2" "alice" Samples.alice_two_store.
Proof.
  assert (H : "alice" <> "alice" \/ "c2" <> conversation_id Samples.answered_conversation)
    by (right; discriminate).
  split; [exact H|].
  exact (proj1 (proj2 (mem_save_frame Samples.answered_conversation "alice"
                         Samples.alice_two_store "c2" "alice" H))).
Defined.

(** ** Continuation tokens *)

(** X13: the token a page returns for an index reads back as that
    index, for every integer; no token, the empty token, a token that
    does not start with [index:] and one whose index is not a number all
    read as 0, the start of the listing. *)
Theorem continuation_token_round_trip (i : Z) (token : string) :
  start_index_of (Some ("index:" +:+ str_of_Z i)) = i
  /\ start_index_of None = 0
  /\ start_index_of (Some "") = 0
  /\ (startswith "index:" token = false -> start_index_of (Some token) = 0)
  /\ start_index_of (Some "index:") = 0
  /\ start_index_of (Some "index:next") = 0.
Proof.
  split; [apply start_index_of_token|]. split; [reflexivity|]. split; [reflexivity|].
  split; [|split; reflexivity].
  intros H. unfold start_index_of. rewrite H, andb_false_r. reflexivity.
Qed.

Lemma continuation_token_round_trip_witness :
  start_index_of (Some ("index:" +:+ str_of_Z 50)) = 50
  /\ startswith "index:" "page-2" = false
  /\ start_index_of (Some "page-2") = 0.
Proof.
  destruct (continuation_token_round_trip 50 "page-2") as (H1 & _ & _ & H4 & _).
  assert (H : startswith "index:" "page-2" = false) by reflexivity.
  split; [exact H1|]. split; [exact H|]. exact (H4 H).
Defined.

(** * Further properties of the file backend *)

(** ** The deep serializer *)

Lemma serialize_deep_unfold (v : pyval) :
  serialize_deep v
  = if json_ok v then v else
    match v with
    | PDict d =>
        PDict (List.map (fun kv => match kv with (k, x) => (k, serialize_deep x) end) d)
    | PMap m =>
        PMap (List.map (fun kv => match kv with (k, x) => (k, serialize_deep x) end) m)
    | PList l | PTuple l => PList (List.map serialize_deep l)
    | PObj attrs =>
        if json_ok (PDict attrs) then PDict attrs
        else PDict (List.map (fun kv => match kv with (k, x) => (k, serialize_deep x) end) attrs)
    | PDatetime iso => PStr iso
    | POpaque repr => PStr repr
    | _ => v
    end.
Proof. destruct v; reflexivity. Qed.

Lemma serialize_deep_accepted (v : pyval) :
  json_ok v = true -> serialize_deep v = v.
Proof. intros H. rewrite serialize_deep_unfold, H. reflexivity. Qed.

Lemma serialize_deep_twice (v : pyval) :
  serialize_deep (serialize_deep v) = serialize_deep v.
Proof.
  induction v using pyval_induction; try reflexivity.
  - rewrite (serialize_deep_unfold (PList l)).
    destruct (json_ok (PList l)) eqn:E; [apply serialize_deep_accepted; exact E|].
    rewrite serialize_deep_unfold.
    match goal with |- (if ?c then _ else _) = _ => destruct c end; [reflexivity|].
    f_equal. rewrite List.map_map. apply map_eq_Forall. exact H.
  - rewrite (serialize_deep_unfold (PTuple l)).
    destruct (json_ok (PTuple l)) eqn:E; [apply serialize_deep_accepted; exact E|].
    rewrite serialize_deep_unfold.
    match goal with |- (if ?c then _ else _) = _ => destruct c end; [reflexivity|].
    f_equal. rewrite List.map_map. apply map_eq_Forall. exact H.
  - rewrite (serialize_deep_unfold (PDict d)).
    destruct (json_ok (PDict d)) eqn:E; [apply serialize_deep_accepted; exact E|].
    rewrite serialize_deep_unfold.
    match goal with |- (if ?c then _ else _) = _ => destruct c end; [reflexivity|].
    f_equal. rewrite List.map_map. apply map_eq_Forall.
    eapply Forall_impl; [exact H|]. intros [k x]. simpl. congruence.
  - rewrite (serialize_deep_unfold (PObj d)).
    change (json_ok (PObj d)) with false. cbv iota.
    destruct (json_ok (PDict d)) eqn:E; [apply serialize_deep_accepted; exact E|].
    rewrite serialize_deep_unfold.
    match goal with |- (if ?c then _ else _) = _ => destruct c end; [reflexivity|].
    f_equal. rewrite List.map_map. apply map_eq_Forall.
    eapply Forall_impl; [exact H|]. intros [k x]. simpl. congruence.
  - rewrite (serialize_deep_unfold (PMap m)).
    destruct (json_ok (PMap m)) eqn:E; [apply serialize_deep_accepted; exact E|].
    rewrite serialize_deep_unfold.
    match goal with |- (if ?c then _ else _) = _ => destruct c end; [reflexivity|].
    f_equal. rewrite List.map_map. apply map_eq_Forall.
    eapply Forall_impl; [exact H|]. intros [k x]. simpl. congruence.
Qed.



(** ** Saving, loading and deleting files *)

Lemma json_save_data_ok (conversation : Conversation) (user_id : string) :
  json_ok
    (PDict
       [("conversation_id", PStr (conversation_id conversation));
        ("user_id", PStr user_id);
        ("agent_id", PStr (AbstractAgent._id (agent conversation)));
        ("title", PStr (title conversation));
        ("created_at", PStr (conv_created_at conversation));
        ("last_updated_at", PStr (last_updated_at conversation));
        ("messages",
          PList (List.map (fun msg => PDict (JsonFile._serialize_message
                                               (JsonFile.message_dict msg)))
                   (messages conversation)));
        ("metadata", PDict (conv_metadata conversation))])
  = json_ok (PDict (conv_metadata conversation))
    && forallb message_keys_ok (messages conversation).
Proof.
  cbn [json_ok forallb andb]. rewrite forallb_map.
  rewrite (forallb_ext' _ _ (messages conversation)
             JsonFileFacts.serialized_message_json_ok).
  rewrite andb_true_r. apply andb_comm.
Qed.



(** X20: deleting a file.  Without a file of that name the call returns
    [false] and the directory is as it was.  With one, readable or not,
    it returns [true], the conversation no longer loads, a second delete
    returns [false], and every other file is as it was. *)
Theorem json_delete_contract (cid user_id : string) (fs : gmap string JsonFile.file) :
  (fs !! JsonFile._get_filepath cid user_id = None ->
   JsonFile.delete_conversation cid user_id fs = (fs, false))
  /\ (is_Some (fs !! JsonFile._get_filepath cid user_id) ->
      snd (JsonFile.delete_conversation cid user_id fs) = true
      /\ JsonFile.load_conversation cid user_id
           (fst (JsonFile.delete_conversation cid user_id fs)) = None
      /\ snd (JsonFile.delete_conversation cid user_id
                (fst (JsonFile.delete_conversation cid user_id fs))) = false
      /\ forall name, name <> JsonFile._get_filepath cid user_id ->
           fst (JsonFile.delete_conversation cid user_id fs) !! name = fs !! name).
Proof.
  unfold JsonFile.delete_conversation, JsonFile.load_conversation. split.
  - intros ->. reflexivity.
  - intros [f ->]. cbn [fst snd]. rewrite lookup_delete_eq.
    split; [reflexivity|]. split; [reflexivity|]. split; [reflexivity|].
    intros name Hne. apply lookup_delete_ne. congruence.
Qed.

Lemma json_delete_contract_witness :
  (Samples.alice_directory !! JsonFile._get_filepath "c9" "alice" = None
   /\ JsonFile.delete_conversation "c9" "alice" Samples.alice_directory
      = (Samples.alice_directory, false))
  /\ is_Some (Samples.alice_directory !! JsonFile._get_filepath "c1" "alice")
  /\ snd (JsonFile.delete_conversation "c1" "alice" Samples.alice_directory) = true
  /\ JsonFile.load_conversation "c1" "alice"
       (fst (JsonFile.delete_conversation "c1" "alice" Samples.alice_directory)) = None
  /\ fst (JsonFile.delete_conversation "c1" "alice" Samples.alice_directory)
       !! "alice_c2.json"
     = Samples.alice_directory !! "alice_c2.json".
Proof.
  assert (Habsent : Samples.alice_directory !! JsonFile._get_filepath "c9" "alice" = None)
    by (vm_compute; reflexivity).
  assert (Hthere : is_Some (Samples.alice_directory !! JsonFile._get_filepath "c1" "alice"))
    by (vm_compute; eauto).
  destruct (json_delete_contract "c9" "alice" Samples.alice_directory) as [H1 _].
  destruct (json_delete_contract "c1" "alice" Samples.alice_directory) as [_ H2].
  destruct (H2 Hthere) as (Ht & Hl & _ & Ho).
  split; [split; [exact Habsent|exact (H1 Habsent)]|].
  split; [exact Hthere|]. split; [exact Ht|]. split; [exact Hl|].
  apply Ho. vm_compute. discriminate.
Defined.

(** ** Listing files *)

Lemma dict_get_filter_out (k : string) (d : pydict) :
  dict_get k (List.filter (fun kv => negb (String.eqb (fst kv) k)) d) = None.
Proof.
  induction d as [|[k' v] d IH]; [reflexivity|].
  simpl. destruct (String.eqb_spec k' k) as [->|Hne]; simpl; [exact IH|].
  destruct (String.eqb_spec k k'); [congruence|exact IH].
Qed.

Lemma json_list_item_cases (filters : option pydict) (f : option JsonFile.file)
    (item : pydict) :
  In item (JsonFile.list_item filters f) ->
  JsonFile.list_item filters f = [item]
  /\ dict_get "messages" item = None
  /\ (forall flt, filters = Some flt -> flt <> [] ->
        exists data,
          f = Some (JsonFile.Json (PDict data))
          /\ matches_filters flt data = true
          /\ item = List.filter (fun kv => negb (String.eqb (fst kv) "messages")) data).
Proof.
  unfold JsonFile.list_item.
  destruct f as [[doc|]|]; try (intros []).
  destruct doc as [| | |str| |l| |data| | |]; try (intros []).
  - destruct str; [|intros []].
    destruct filters as [[|kv flt]|]; intros H; try destruct H as [<-|[]]; try destruct H;
      (split; [reflexivity|]); (split; [reflexivity|]); intros flt' [= <-] Hne; congruence.
  - destruct l; [|intros []].
    destruct filters as [[|kv flt]|]; intros H; try destruct H as [<-|[]]; try destruct H;
      (split; [reflexivity|]); (split; [reflexivity|]); intros flt' [= <-] Hne; congruence.
  - destruct filters as [[|kv flt]|]; cbn [andb default].
    + intros [<-|[]]. split; [reflexivity|]. split; [apply dict_get_filter_out|].
      intros flt' [= <-] Hne. congruence.
    + unfold id.
      destruct (matches_filters (kv :: flt) data) eqn:E; cbn [negb andb]; [|intros []].
      intros [<-|[]]. split; [reflexivity|]. split; [apply dict_get_filter_out|].
      intros flt' [= <-] _. exists data. split; [reflexivity|]. split; [exact E|reflexivity].
    + intros [<-|[]]. split; [reflexivity|]. split; [apply dict_get_filter_out|].
      intros flt' [=].
Qed.

Lemma flat_map_length_le {A B} (f : A -> list B) (l : list A) :
  (forall x, (length (f x) <= 1)%nat) -> (length (flat_map f l) <= length l)%nat.
Proof.
  intros Hf. induction l as [|x l IH]; [simpl; lia|].
  simpl. rewrite length_app. specialize (Hf x). lia.
Qed.

(** X22: the file backend lists metadata only, for every page size and
    token: no item has a [messages] entry; under a non-empty filter
    every item is a stored document of a file matching the user's
    pattern, without its messages, and the document passes the filter;
    a page of a size that is not negative never has more items than
    [page_size]; and [total_count] is
    the number of files matching the pattern, the same with and without
    a filter and on every page. *)
Theorem json_list_conversations_metadata_only
    (user_id : string) (filters : option pydict) (page_size : Z)
    (token : option string) (fs : gmap string JsonFile.file) :
  (forall item,
     In item (items (JsonFile.list_conversations user_id filters page_size token fs)) ->
     dict_get "messages" item = None
     /\ forall flt, filters = Some flt -> flt <> [] ->
          exists name data,
            In name (JsonFile.sorted_glob (user_id +:+ "_*.json") fs)
            /\ fs !! name = Some (JsonFile.Json (PDict data))
            /\ matches_filters flt data = true
            /\ item = List.filter (fun kv => negb (String.eqb (fst kv) "messages")) data)
  /\ (0 <= page_size ->
      Z.of_nat (length (items (JsonFile.list_conversations user_id filters page_size
                                 token fs))) <= page_size)
  /\ total_count (JsonFile.list_conversations user_id filters page_size token fs)
     = Z.of_nat (length (JsonFile.sorted_glob (user_id +:+ "_*.json") fs))
  /\ total_count (JsonFile.list_conversations user_id filters page_size token fs)
     = total_count (JsonFile.list_conversations user_id None 50 None fs).
Proof.
  unfold JsonFile.list_conversations. cbn [items total_count].
  split; [|split; [|split; reflexivity]].
  - intros item Hin. apply in_flat_map in Hin. destruct Hin as (name & Hname & Hitem).
    apply py_slice_in in Hname.
    destruct (json_list_item_cases _ _ _ Hitem) as (_ & Hm & Hf).
    split; [exact Hm|]. intros flt Hflt Hne.
    destruct (Hf flt Hflt Hne) as (data & Hd & Hmatch & Hi).
    exists name, data. auto.
  - intros Hsize.
    etransitivity; [|apply (py_slice_page_length (start_index_of token) page_size
                              (JsonFile.sorted_glob (user_id +:+ "_*.json") fs) Hsize)].
    apply inj_le. apply flat_map_length_le. intros name.
    destruct (JsonFile.list_item filters (fs !! name)) as [|item l] eqn:E; [simpl; lia|].
    destruct (json_list_item_cases filters (fs !! name) item) as [H _].
    + rewrite E. left. reflexivity.
    + rewrite E in H. injection H as ->. simpl. lia.
Qed.

Lemma json_list_conversations_metadata_only_witness :
  In (List.filter (fun kv => negb (String.eqb (fst kv) "messages"))
        (JsonFile.saved_document Samples.answered_conversation "alice"))
     (items (JsonFile.list_conversations "alice"
               (Some [("conversation_id", PStr "c1")]) 50 None
               Samples.alice_directory))
  /\ dict_get "messages"
       (List.filter (fun kv => negb (String.eqb (fst kv) "messages"))
          (JsonFile.saved_document Samples.answered_conversation "alice")) = None
  /\ Z.of_nat (length (items (JsonFile.list_conversations "alice"
                                (Some [("conversation_id", PStr "c1")]) 50 None
                                Samples.alice_directory))) <= 50
  /\ total_count (JsonFile.list_conversations "alice"
                    (Some [("conversation_id", PStr "c1")]) 50 None
                    Samples.alice_directory) = 2.
Proof.
  assert (Hin : In (List.filter (fun kv => negb (String.eqb (fst kv) "messages"))
                      (JsonFile.saved_document Samples.answered_conversation "alice"))
                   (items (JsonFile.list_conversations "alice"
                             (Some [("conversation_id", PStr "c1")]) 50 None
                             Samples.alice_directory)))
    by (vm_compute; left; reflexivity).
  destruct (json_list_conversations_metadata_only "alice"
              (Some [("conversation_id", PStr "c1")]) 50 None Samples.alice_directory)
    as (H1 & H2 & H3 & _).
  split; [exact Hin|]. split; [exact (proj1 (H1 _ Hin))|].
  split; [apply H2; lia|]. rewrite H3. vm_compute. reflexivity.
Defined.

(** ** File names and users *)

Lemma underscore_split (u1 u2 r1 r2 : string) :
  JsonFile.no_underscore u1 = true -> JsonFile.no_underscore u2 = true ->
  u1 +:+ "_" +:+ r1 = u2 +:+ "_" +:+ r2 -> u1 = u2 /\ r1 = r2.
Proof.
  revert u2. induction u1 as [|a u1 IH]; intros [|b u2] H1 H2 E.
  - injection E as E. auto.
  - injection E as Ea E. subst b. unfold JsonFile.no_underscore in H2. simpl in H2.
    discriminate.
  - injection E as Ea E. subst a. unfold JsonFile.no_underscore in H1. simpl in H1.
    discriminate.
  - injection E as Ea E. subst b.
    unfold JsonFile.no_underscore in H1, H2. simpl in H1, H2.
    apply andb_true_iff in H1, H2. destruct H1 as [_ H1], H2 as [_ H2].
    destruct (IH u2 H1 H2 E) as [-> ->]. auto.
Qed.

Lemma json_filepath_injective (c1 u1 c2 u2 : string) :
  JsonFile.no_underscore u1 = true -> JsonFile.no_underscore u2 = true ->
  JsonFile.no_separator u1 = true -> JsonFile.no_separator c1 = true ->
  JsonFile.no_separator u2 = true -> JsonFile.no_separator c2 = true ->
  JsonFile._get_filepath c1 u1 = JsonFile._get_filepath c2 u2 ->
  u1 = u2 /\ c1 = c2.
Proof.
  intros H1 H2 S1 T1 S2 T2 E. rewrite !json_filepath_plain in E by assumption.
  destruct (underscore_split u1 u2 _ _ H1 H2 E) as [Hu Hc].
  split; [exact Hu|]. eapply append_cancel_r. exact Hc.
Qed.



(** * Further properties of the document-database backend *)

Module CosmosDBItems.
Import CosmosDB CosmosDBFacts.

Lemma filter_filter_and {A} (p q : A -> bool) (l : list A) :
  List.filter p (List.filter q l) = List.filter (fun x => q x && p x) l.
Proof.
  induction l as [|x l IH]; [reflexivity|].
  simpl. destruct (q x); simpl; [destruct (p x)|]; rewrite IH; reflexivity.
Qed.

Lemma filter_ext_in' {A} (p q : A -> bool) (l : list A) :
  (forall x, In x l -> p x = q x) -> List.filter p l = List.filter q l.
Proof.
  induction l as [|x l IH]; [reflexivity|].
  intros H. simpl. rewrite (H x (or_introl eq_refl)), IH; [reflexivity|].
  intros y Hy. apply H. right. exact Hy.
Qed.

(** The deleting loop of [_delete_messages] removes exactly the items
    whose key is the id of one of the queried items. *)
Lemma fold_delete_item (conversation_id : string) (found : list pydict) (c : container) :
  fold_left (fun c item => delete_item (py_str (py_get "id" item)) conversation_id c)
    found c
  = List.filter
      (fun entry =>
         forallb (fun item =>
                    negb (same_key conversation_id (py_str (py_get "id" item)) entry))
           found) c.
Proof.
  revert c. induction found as [|item found IH]; intros c.
  - simpl. symmetry. apply filter_all. reflexivity.
  - simpl. rewrite IH. unfold delete_item. apply filter_filter_and.
Qed.

Lemma delete_messages_other_partitions (conversation_id : string) (db : database) :
  List.filter (fun entry => negb (String.eqb (fst (fst entry)) conversation_id))
    (messages_container (_delete_messages conversation_id db))
  = List.filter (fun entry => negb (String.eqb (fst (fst entry)) conversation_id))
      (messages_container db).
Proof.
  unfold _delete_messages. cbn [messages_container with_messages].
  rewrite fold_delete_item, filter_filter_and. apply filter_ext_in'.
  intros entry _. unfold same_key.
  destruct (String.eqb (fst (fst entry)) conversation_id); simpl.
  - apply andb_false_r.
  - rewrite andb_true_r. apply forallb_forall. reflexivity.
Qed.

Lemma delete_messages_partition_empty (conversation_id : string) (db : database) :
  sql_literal conversation_id = true ->
  filed_under_own_keys "conversation_id" (messages_container db) = true ->
  List.filter (fun entry => String.eqb (fst (fst entry)) conversation_id)
    (messages_container (_delete_messages conversation_id db)) = [].
Proof.
  intros Hsql Hwf. unfold _delete_messages. cbn [messages_container with_messages].
  rewrite fold_delete_item, filter_filter_and. apply filter_nothing.
  intros entry Hin. unfold filed_under_own_keys in Hwf.
  rewrite forallb_forall in Hwf. specialize (Hwf entry Hin).
  apply andb_true_iff in Hwf. destruct Hwf as [Hpk Hid].
  apply py_eqb_str in Hid.
  destruct (String.eqb_spec (fst (fst entry)) conversation_id) as [E|_];
    [|apply andb_false_r].
  rewrite andb_true_r. apply not_true_is_false. intros Hall.
  rewrite forallb_forall in Hall.
  assert (Hfound : In (snd entry)
            (query_items (field_is "conversation_id" conversation_id)
               conversation_id (messages_container db))).
  { unfold query_items. apply in_map. apply List.filter_In. split; [exact Hin|].
    rewrite E, String.eqb_refl. unfold field_is, field_eq. rewrite Hsql, <- E.
    exact Hpk. }
  specialize (Hall _ Hfound). rewrite Hid in Hall. cbn [py_str] in Hall.
  unfold same_key in Hall. rewrite E, !String.eqb_refl in Hall. discriminate.
Qed.

Lemma query_items_partition (where_ : pydict -> bool) (partition_key : string)
    (c : container) :
  query_items where_ partition_key c
  = List.map snd
      (List.filter (fun entry => where_ (snd entry))
         (List.filter (fun entry => String.eqb (fst (fst entry)) partition_key) c)).
Proof. unfold query_items. rewrite filter_filter_and. reflexivity. Qed.

Lemma partition_empty_fresh (partition_key item : string) (c : container) :
  List.filter (fun entry => String.eqb (fst (fst entry)) partition_key) c = [] ->
  forallb (fun entry => negb (same_key partition_key item entry)) c = true.
Proof.
  intros H. apply forallb_forall. intros entry Hin. unfold same_key.
  destruct (String.eqb (fst (fst entry)) partition_key) eqn:E; [|reflexivity].
  assert (Hf : In entry (List.filter (fun entry => String.eqb (fst (fst entry)) partition_key) c)).
  { apply List.filter_In. split; assumption. }
  rewrite H in Hf. destruct Hf.
Qed.

Lemma upsert_message_item (conversation_id user_id : string) (idx : Z) (msg : Message)
    (c : container) :
  forallb (fun entry =>
             negb (same_key conversation_id
                     (conversation_id +:+ ":" +:+ message_id msg) entry)) c = true ->
  upsert_item "conversation_id" (message_item conversation_id user_id (PInt idx) msg) c
  = c ++ [(conversation_id, conversation_id +:+ ":" +:+ message_id msg,
           stored_item conversation_id user_id (PInt idx) msg)].
Proof.
  intros Hfresh. unfold upsert_item.
  destruct (message_item_fields conversation_id user_id (PInt idx) msg)
    as (-> & -> & _).
  cbn [py_str]. apply upsert_at_new. exact Hfresh.
Qed.

Lemma insert_messages_app (conversation_id user_id : string) (msgs : list Message) :
  forall (idx : Z) (c : container),
    List.NoDup (List.map message_id msgs) ->
    (forall msg, In msg msgs ->
       forallb (fun entry =>
                  negb (same_key conversation_id
                          (conversation_id +:+ ":" +:+ message_id msg) entry)) c
       = true) ->
    insert_messages conversation_id user_id idx msgs c
    = c ++ stored_entries conversation_id user_id idx msgs.
Proof.
  induction msgs as [|msg msgs IH]; intros idx c Hnd Hfresh.
  - simpl. symmetry. apply app_nil_r.
  - cbn [insert_messages stored_entries].
    rewrite upsert_message_item by (apply Hfresh; left; reflexivity).
    cbn [List.map] in Hnd. apply List.NoDup_cons_iff in Hnd. destruct Hnd as [Hnew Hnd].
    rewrite IH; [rewrite <- app_assoc; reflexivity|exact Hnd|].
    intros msg' Hin. rewrite forallb_app. rewrite Hfresh by (right; exact Hin).
    cbn [forallb]. rewrite andb_true_r.
    apply message_key_differs. intros E. apply Hnew. rewrite E.
    apply in_map. exact Hin.
Qed.

Lemma query_stored_entries (conversation_id user_id : string) (msgs : list Message) :
  sql_literal conversation_id = true ->
  forall idx,
    query_items (field_is "conversation_id" conversation_id) conversation_id
      (stored_entries conversation_id user_id idx msgs)
    = List.map snd (stored_entries conversation_id user_id idx msgs).
Proof.
  intros Hsql.
  induction msgs as [|msg msgs IH]; intros idx; [reflexivity|].
  cbn [stored_entries].
  change (?x :: ?l) with ([x] ++ l) at 1. rewrite query_items_app, IH.
  rewrite query_items_one; [reflexivity|].
  rewrite (proj1 (stored_item_fields conversation_id user_id idx msg)).
  exact Hsql.
Qed.

Lemma order_stored_entries (conversation_id user_id : string) (msgs : list Message) :
  forall idx,
    order_by_sequence (List.map snd (stored_entries conversation_id user_id idx msgs))
    = List.map snd (stored_entries conversation_id user_id idx msgs).
Proof.
  unfold order_by_sequence, sorted_by.
  induction msgs as [|msg msgs IH]; intros idx; [reflexivity|].
  cbn [stored_entries List.map fold_right snd]. rewrite IH.
  destruct msgs as [|msg' msgs]; [reflexivity|].
  cbn [stored_entries List.map insert_sorted snd].
  destruct (stored_item_fields conversation_id user_id idx msg) as [_ ->].
  destruct (stored_item_fields conversation_id user_id (idx + 1) msg') as [_ ->].
  unfold py_lt_total, py_ltb.
  destruct (Z.ltb_spec (idx + 1) idx); [lia|reflexivity].
Qed.

Lemma load_stored_entries (conversation_id user_id : string) (msgs : list Message) :
  forall idx,
    List.map (fun item => dict_del "sequence" (dict_del "id" item))
      (List.map snd (stored_entries conversation_id user_id idx msgs))
    = loaded_messages conversation_id user_id idx msgs.
Proof.
  induction msgs as [|msg msgs IH]; intros idx; [reflexivity|].
  cbn [stored_entries loaded_messages List.map snd]. rewrite IH. reflexivity.
Qed.

Lemma read_item_upsert_at (partition_key item : string) (body : pydict) (c : container) :
  read_item item partition_key (upsert_at partition_key item body c) = Some body.
Proof.
  unfold read_item. induction c as [|entry c IH].
  - simpl. unfold same_key. simpl. rewrite !String.eqb_refl. reflexivity.
  - simpl. destruct (same_key partition_key item entry) eqn:E.
    + simpl. unfold same_key at 1. simpl. rewrite !String.eqb_refl. reflexivity.
    + simpl. rewrite E. exact IH.
Qed.

Lemma load_messages_partition (conversation_id : string) (db1 db2 : database) :
  List.filter (fun entry => String.eqb (fst (fst entry)) conversation_id)
    (messages_container db1)
  = List.filter (fun entry => String.eqb (fst (fst entry)) conversation_id)
      (messages_container db2) ->
  _load_messages conversation_id db1 = _load_messages conversation_id db2.
Proof.
  intros H. unfold _load_messages. rewrite !query_items_partition, H. reflexivity.
Qed.

Lemma filter_comm {A} (p q : A -> bool) (l : list A) :
  List.filter p (List.filter q l) = List.filter q (List.filter p l).
Proof.
  rewrite !filter_filter_and. apply filter_ext_in'. intros x _. apply andb_comm.
Qed.

Lemma delete_messages_partition (conversation_id other : string) (db : database) :
  other <> conversation_id ->
  List.filter (fun entry => String.eqb (fst (fst entry)) other)
    (messages_container (_delete_messages conversation_id db))
  = List.filter (fun entry => String.eqb (fst (fst entry)) other)
      (messages_container db).
Proof.
  intros Hne.
  assert (H : forall c : container,
             List.filter (fun entry => String.eqb (fst (fst entry)) other) c
             = List.filter (fun entry => String.eqb (fst (fst entry)) other)
                 (List.filter
                    (fun entry => negb (String.eqb (fst (fst entry)) conversation_id))
                    c)).
  { intros c. rewrite filter_filter_and. apply filter_ext_in'. intros entry _.
    destruct (String.eqb_spec (fst (fst entry)) other) as [->|_];
      [|rewrite andb_false_r; reflexivity].
    destruct (String.eqb_spec other conversation_id); [contradiction|reflexivity]. }
  rewrite H, delete_messages_other_partitions, <- H. reflexivity.
Qed.

Lemma delete_messages_again (conversation_id : string) (db : database) :
  List.filter (fun entry => String.eqb (fst (fst entry)) conversation_id)
    (messages_container db) = [] ->
  List.filter (fun entry => String.eqb (fst (fst entry)) conversation_id)
    (messages_container (_delete_messages conversation_id db)) = [].
Proof.
  intros H. unfold _delete_messages. cbn [messages_container with_messages].
  rewrite fold_delete_item, filter_comm, H. reflexivity.
Qed.

Lemma load_messages_none (conversation_id : string) (db : database) :
  List.filter (fun entry => String.eqb (fst (fst entry)) conversation_id)
    (messages_container db) = [] ->
  _load_messages conversation_id db = [].
Proof.
  intros H. unfold _load_messages. rewrite query_items_partition, H. reflexivity.
Qed.

(** A query with a value that is not read back as itself finds nothing. *)
Lemma load_messages_refused (conversation_id : string) (db : database) :
  sql_literal conversation_id = false -> _load_messages conversation_id db = [].
Proof.
  intros Hsql. unfold _load_messages, query_items.
  rewrite filter_nothing; [reflexivity|].
  intros entry _. rewrite field_is_refused by exact Hsql. apply andb_false_r.
Qed.

(** Once [_delete_messages] has run, once or twice, no message loads
    under the conversation id. *)
Lemma load_messages_after_delete (conversation_id : string) (db db' : database) :
  filed_under_own_keys "conversation_id" (messages_container db) = true ->
  messages_container db' = messages_container (_delete_messages conversation_id db)
  \/ messages_container db'
     = messages_container
         (_delete_messages conversation_id (_delete_messages conversation_id db)) ->
  _load_messages conversation_id db' = [].
Proof.
  intros Hwf H. destruct (sql_literal conversation_id) eqn:Hsql.
  - apply load_messages_none. destruct H as [-> | ->].
    + apply delete_messages_partition_empty; assumption.
    + apply delete_messages_again. apply delete_messages_partition_empty; assumption.
  - apply load_messages_refused. exact Hsql.
Qed.

Lemma read_item_delete_item (partition_key item : string) (c : container) :
  read_item item partition_key (delete_item item partition_key c) = None.
Proof.
  unfold read_item, delete_item. induction c as [|entry c IH]; [reflexivity|].
  simpl. destruct (same_key partition_key item entry) eqn:E; simpl; [exact IH|].
  rewrite E. exact IH.
Qed.

Lemma same_key_differs (pk item pk' item' : string) (entry : string * string * pydict) :
  pk' <> pk \/ item' <> item ->
  same_key pk item entry = true -> same_key pk' item' entry = false.
Proof.
  unfold same_key. intros Hne H. apply andb_true_iff in H. destruct H as [H1 H2].
  apply String.eqb_eq in H1, H2. rewrite H1, H2.
  destruct Hne as [Hne|Hne].
  - destruct (String.eqb_spec pk pk'); [congruence|reflexivity].
  - destruct (String.eqb_spec item item'); [congruence|apply andb_false_r].
Qed.

Lemma read_item_delete_other (pk item pk' item' : string) (c : container) :
  pk' <> pk \/ item' <> item ->
  read_item item' pk' (delete_item item pk c) = read_item item' pk' c.
Proof.
  intros Hne. unfold read_item, delete_item. f_equal.
  induction c as [|entry c IH]; [reflexivity|].
  simpl. destruct (same_key pk item entry) eqn:E; simpl.
  - rewrite (same_key_differs _ _ _ _ _ Hne E). exact IH.
  - rewrite IH. reflexivity.
Qed.

Lemma conversation_records_filter (p : string * string * pydict -> bool) (c : container) :
  conversation_records c = true -> conversation_records (List.filter p c) = true.
Proof.
  unfold conversation_records. rewrite !forallb_forall. intros H entry Hin.
  apply List.filter_In in Hin. apply H. tauto.
Qed.

(** Among the records [save_conversation] writes, a conversation that a
    point read does not find is not found by the query either. *)
Lemma query_after_read_none (conversation_id user_id : string) (c : container) :
  conversation_records c = true ->
  read_item conversation_id user_id c = None ->
  query_items
    (fun item => field_is "conversation_id" conversation_id item
                 && field_is "user_id" user_id item) user_id c = [].
Proof.
  intros Hrec Hread. unfold query_items.
  rewrite filter_nothing; [reflexivity|].
  intros entry Hin. unfold conversation_records in Hrec.
  rewrite forallb_forall in Hrec. specialize (Hrec entry Hin).
  apply andb_true_iff in Hrec. destruct Hrec as [Hrec Hcid].
  apply py_eqb_str in Hcid.
  unfold read_item in Hread.
  destruct (List.find (same_key user_id conversation_id) c) eqn:Ef; [discriminate|].
  pose proof (List.find_none _ _ Ef entry Hin) as Hkey. unfold same_key in Hkey.
  destruct (String.eqb (fst (fst entry)) user_id); [|reflexivity].
  cbn [andb] in Hkey |- *. unfold field_is at 1, field_eq. rewrite Hcid.
  cbn [py_eqb]. rewrite Hkey, andb_false_r. reflexivity.
Qed.

Lemma read_item_record (conversation_id user_id : string) (c : container) (cd : pydict) :
  conversation_records c = true ->
  read_item conversation_id user_id c = Some cd ->
  py_get "user_id" cd = PStr user_id
  /\ py_get "id" cd = PStr conversation_id
  /\ py_get "conversation_id" cd = PStr conversation_id.
Proof.
  intros Hrec Hread. unfold read_item in Hread.
  destruct (List.find (same_key user_id conversation_id) c) as [entry|] eqn:Ef;
    [|discriminate].
  injection Hread as <-. apply List.find_some in Ef. destruct Ef as [Hin Hkey].
  unfold conversation_records in Hrec. rewrite forallb_forall in Hrec.
  specialize (Hrec entry Hin).
  apply andb_true_iff in Hrec. destruct Hrec as [Hrec H3].
  apply andb_true_iff in Hrec. destruct Hrec as [H1 H2].
  apply py_eqb_str in H1, H2, H3. unfold same_key in Hkey.
  apply andb_true_iff in Hkey. destruct Hkey as [Hk1 Hk2].
  apply String.eqb_eq in Hk1, Hk2. rewrite Hk1 in H1. rewrite Hk2 in H2, H3. auto.
Qed.

End CosmosDBItems.

Import CosmosDBItems.

(** ** Saving and loading *)

Lemma loaded_messages_records (cid user_id : string) (msgs : list Message) :
  forall idx,
    Forall2
      (fun msg record =>
         dict_get "message_id" record = Some (PStr (message_id msg))
         /\ dict_get "role" record = Some (PStr (role msg))
         /\ dict_get "created_at" record = Some (PStr (created_at msg))
         /\ dict_get "content" record
            = Some (PStr (if message_keys_ok msg then content msg
                          else "Error: Message content could not be serialized for storage"))
         /\ dict_get "metadata" record
            = (if message_keys_ok msg
               then Some (json_roundtrip (serialize_deep (PDict (metadata msg))))
               else None))
      msgs (CosmosDB.loaded_messages cid user_id idx msgs).
Proof.
  induction msgs as [|msg msgs IH]; intros idx;
    cbn [CosmosDB.loaded_messages]; constructor; [|apply IH].
  destruct (CosmosDBFacts.loaded_message_record cid user_id (PInt idx) msg)
    as (G1 & G2 & G3 & G4 & G5 & _).
  repeat split; assumption.
Qed.

Lemma cosmos_saved_messages (cid user_id : string) (msgs : list Message)
    (db : CosmosDB.database) :
  CosmosDB.sql_literal cid = true ->
  CosmosDB.filed_under_own_keys "conversation_id" (CosmosDB.messages_container db)
  = true ->
  List.NoDup (List.map message_id msgs) ->
  CosmosDB.conversation_container (fst (CosmosDB._save_messages cid user_id msgs db))
  = CosmosDB.conversation_container db
  /\ snd (CosmosDB._save_messages cid user_id msgs db) = true
  /\ CosmosDB._load_messages cid (fst (CosmosDB._save_messages cid user_id msgs db))
     = match msgs with
       | [] => CosmosDB._load_messages cid db
       | _ => CosmosDB.loaded_messages cid user_id 0 msgs
       end.
Proof.
  intros Hsql Hwf Hnd.
  destruct msgs as [|m0 ms].
  - repeat split; reflexivity.
  - set (msgs := m0 :: ms) in *.
    unfold CosmosDB._save_messages. cbn [fst snd msgs]. fold msgs.
    split; [reflexivity|]. split; [reflexivity|].
    pose proof (delete_messages_partition_empty cid db Hsql Hwf) as Hempty.
    unfold CosmosDB._load_messages.
    cbn [CosmosDB.messages_container CosmosDB.with_messages].
    rewrite insert_messages_app; [|exact Hnd|].
    2:{ intros msg _. apply partition_empty_fresh. exact Hempty. }
    rewrite CosmosDBFacts.query_items_app.
    rewrite (query_items_partition _ cid
               (CosmosDB.messages_container (CosmosDB._delete_messages cid db))).
    rewrite Hempty. cbn [List.filter List.map app].
    rewrite query_stored_entries by exact Hsql.
    rewrite order_stored_entries. apply load_stored_entries.
Qed.



(** ** Deleting and resetting *)



(** X25: resetting one's own conversation in the document database.  The
    call returns [true]; the conversation then loads without messages
    and with the time of the reset as [last_updated_at], every other
    field of its record as it was stored, and the messages of every
    other conversation id are untouched. *)
Theorem cosmos_reset_owned_conversation (now cid user_id : string)
    (db : CosmosDB.database) (cd : pydict) :
  CosmosDB.filed_under_own_keys "conversation_id" (CosmosDB.messages_container db)
  = true ->
  CosmosDB.conversation_records (CosmosDB.conversation_container db) = true ->
  CosmosDB.read_item cid user_id (CosmosDB.conversation_container db) = Some cd ->
  snd (CosmosDB.reset_conversation now cid user_id db) = true
  /\ (exists loaded,
        CosmosDB.load_conversation cid user_id
          (fst (CosmosDB.reset_conversation now cid user_id db)) = Some loaded
        /\ dict_get "messages" loaded = Some (PList [])
        /\ dict_get "last_updated_at" loaded = Some (PStr now)
        /\ forall k, k <> "messages" -> k <> "last_updated_at" ->
                     k <> "message_count" -> k <> "id" ->
                     dict_get k loaded = option_map json_roundtrip (dict_get k cd))
  /\ (forall other, other <> cid ->
        CosmosDB._load_messages other
          (fst (CosmosDB.reset_conversation now cid user_id db))
        = CosmosDB._load_messages other db).
Proof.
  intros Hwf Hrec Hread.
  destruct (read_item_record cid user_id _ cd Hrec Hread) as (Hu & Hi & Hc).
  unfold CosmosDB.reset_conversation.
  change (CosmosDB.conversation_container (CosmosDB._delete_messages cid db))
    with (CosmosDB.conversation_container db).
  rewrite Hread. cbn [fst snd]. split; [reflexivity|]. split.
  - unfold CosmosDB.load_conversation, CosmosDB.upsert_item.
    cbn [CosmosDB.conversation_container CosmosDB.with_conversations].
    unfold py_get, dict_get_default in Hu, Hi, Hc |- *.
    rewrite !dict_get_set_other by discriminate.
    destruct (dict_get "user_id" cd) as [vu|] eqn:Eu; [|discriminate]. subst vu.
    destruct (dict_get "id" cd) as [vi|] eqn:Ei; [|discriminate]. subst vi.
    destruct (dict_get "conversation_id" cd) as [vc|] eqn:Ec; [|discriminate]. subst vc.
    cbn [py_str]. rewrite read_item_upsert_at.
    unfold CosmosDB.assemble.
    rewrite (load_messages_after_delete cid db) by (auto; left; reflexivity).
    cbn [List.map].
    rewrite !dict_get_set_other by discriminate.
    rewrite !dict_get_roundtrip, !dict_get_set_other by discriminate.
    rewrite Ei, Ec. cbn [option_map json_roundtrip py_eqb].
    rewrite String.eqb_refl. cbn [option_map].
    eexists. split; [reflexivity|].
    match goal with |- context [if ?b then _ else _] => destruct b end.
    + split; [|split].
      * rewrite !dict_get_del_other by discriminate. apply dict_get_set_same.
      * rewrite !dict_get_del_other by discriminate.
        rewrite dict_get_set_other by discriminate.
        rewrite dict_get_roundtrip, dict_get_set_other by discriminate.
        rewrite dict_get_set_same. reflexivity.
      * intros k H1 H2 H3 H4. rewrite !dict_get_del_other by congruence.
        rewrite dict_get_set_other by congruence.
        rewrite dict_get_roundtrip, !dict_get_set_other by congruence. reflexivity.
    + split; [|split].
      * rewrite !dict_get_del_other by discriminate. apply dict_get_set_same.
      * rewrite !dict_get_del_other by discriminate.
        rewrite dict_get_set_other by discriminate.
        rewrite dict_get_roundtrip, dict_get_set_other by discriminate.
        rewrite dict_get_set_same. reflexivity.
      * intros k H1 H2 H3 H4. rewrite !dict_get_del_other by congruence.
        rewrite dict_get_set_other by congruence.
        rewrite dict_get_roundtrip, !dict_get_set_other by congruence. reflexivity.
  - intros other Hne.
    apply (load_messages_partition other
             (CosmosDB.with_conversations (CosmosDB._delete_messages cid db) _) db).
    apply delete_messages_partition. exact Hne.
Qed.

Lemma cosmos_reset_owned_conversation_witness :
  snd (CosmosDB.reset_conversation "2024-05-02T00:00:00" "c1" "alice"
         Samples.alice_database) = true
  /\ exists loaded,
       CosmosDB.load_conversation "c1" "alice"
         (fst (CosmosDB.reset_conversation "2024-05-02T00:00:00" "c1" "alice"
                 Samples.alice_database)) = Some loaded
       /\ dict_get "messages" loaded = Some (PList [])
       /\ dict_get "last_updated_at" loaded = Some (PStr "2024-05-02T00:00:00")
       /\ dict_get "title" loaded = Some (PStr "Conversation with Math Agent").
Proof.
  destruct (cosmos_reset_owned_conversation "2024-05-02T00:00:00" "c1" "alice"
              Samples.alice_database
              (roundtrip_dict
                 (CosmosDB.conversation_dict Samples.answered_conversation "alice")))
    as (H1 & (loaded & Hl & Hm & Hu & Hk) & _).
  - vm_compute. reflexivity.
  - vm_compute. reflexivity.
  - vm_compute. reflexivity.
  - split; [exact H1|]. exists loaded. split; [exact Hl|]. split; [exact Hm|].
    split; [exact Hu|]. rewrite Hk by discriminate. reflexivity.
Defined.

(** * The conversation service *)


